(** * SpeziData: flattening FHIR resources and the plot guard

    A shallow embedding of [data_flattening/fhir_resources_flattener.py]
    and of the guard and date handling of
    [data_visualization/data_visualizer.py].

    Python values are an inductive type, exceptions are a sum type and
    every fallible Python expression is a computation in the [result]
    monad.  What pandas, [datetime] and matplotlib compute is taken through
    the interfaces [Pandas], [PySet] and [PlotEnv]. *)

From Stdlib Require Import QArith.
From stdpp Require Import gmap strings list.

Close Scope Q_scope.
Open Scope string_scope.
Set Warnings "-register-all".

(** ** Python values and exceptions *)

Record Date := mkDate { year : Z; month : Z; day : Z }.

(** The objects found in [observation.dict()] and in the visualizer's
    fields: [None], numbers (by their rational value), [str],
    [datetime.date], [list] and [dict] with string keys. *)
Inductive value : Type :=
| VNone
| VNum (q : Q)
| VStr (s : string)
| VDate (d : Date)
| VList (l : list value)
| VDict (d : gmap string value).

Inductive exn : Type :=
| KeyError (key : value)
| IndexError
| AttributeError (attr : string)
| TypeError
| ValueError (msg : string).

Inductive result (A : Type) : Type :=
| Ok (a : A)
| Raise (e : exn).
Arguments Ok {A} a.
Arguments Raise {A} e.

#[global] Instance result_ret : MRet result := fun A a => Ok a.
#[global] Instance result_bind : MBind result := fun A B f m =>
  match m with
  | Ok a => f a
  | Raise e => Raise e
  end.

Definition is_ok {A} (r : result A) : bool :=
  match r with Ok _ => true | Raise _ => false end.

Module Py.

(** [bool(v)] *)
Definition truthy (v : value) : bool :=
  match v with
  | VNone => false
  | VNum q => negb (Qeq_bool q 0)
  | VStr s => negb (String.eqb s "")
  | VDate _ => true
  | VList l => negb (Nat.eqb (length l) 0)
  | VDict d => negb (Nat.eqb (size d) 0)
  end.

(** [d.get(k, default)] on a dict *)
Definition dict_get (d : gmap string value) (k : string) (dflt : value) : value :=
  default dflt (d !! k).

(** [d[k]] on a dict *)
Definition dict_getitem (d : gmap string value) (k : string) : result value :=
  match d !! k with
  | Some v => Ok v
  | None => Raise (KeyError (VStr k))
  end.

(** [v.get(k, default)] on any object: only a dict has the method. *)
Definition get (v : value) (k : string) (dflt : value) : result value :=
  match v with
  | VDict d => Ok (dict_get d k dflt)
  | _ => Raise (AttributeError "get")
  end.

(** [v[k]] with a string key on any object *)
Definition getitem (v : value) (k : string) : result value :=
  match v with
  | VDict d => dict_getitem d k
  | _ => Raise TypeError
  end.

(** [len(v)] *)
Definition len (v : value) : result nat :=
  match v with
  | VList l => Ok (length l)
  | VDict d => Ok (size d)
  | VStr s => Ok (String.length s)
  | _ => Raise TypeError
  end.

(** [v[i]] with a non-negative integer index on any object *)
Definition getitem_int (v : value) (i : nat) : result value :=
  match v with
  | VList l =>
      match l !! i with
      | Some x => Ok x
      | None => Raise IndexError
      end
  | VStr s =>
      match String.get i s with
      | Some a => Ok (VStr (String a EmptyString))
      | None => Raise IndexError
      end
  | VDict _ => Raise (KeyError (VNum (inject_Z (Z.of_nat i))))
  | _ => Raise TypeError
  end.

End Py.

(** ** The pandas objects the code touches *)

(** A cell of a table: a Python object, or pandas' [NaT]. *)
Inductive cell : Type :=
| Cell (v : value)
| NaT.

Inductive Dtype : Type :=
| DObject | DString | DInt64 | DFloat64 | DBool | DDatetime64.

#[global] Instance Dtype_eq_dec : EqDecision Dtype.
Proof. solve_decision. Defined.

Record Series := mkSeries { dtype : Dtype; values : list cell }.

(** A table is its columns, in order. *)
Abbreviation DataFrame := (list (string * Series)).

Definition date_eqb (a b : Date) : bool :=
  Z.eqb (year a) (year b) && Z.eqb (month a) (month b) && Z.eqb (day a) (day b).

Module pd.

Definition columns (df : DataFrame) : list string := df.*1.

Fixpoint lookup_column (df : DataFrame) (c : string) : option Series :=
  match df with
  | [] => None
  | (n, s) :: df' => if String.eqb n c then Some s else lookup_column df' c
  end.

(** [c in df.columns] *)
Definition has_column (df : DataFrame) (c : string) : bool :=
  bool_decide (c ∈ columns df).

(** [df[c]] *)
Definition getitem (df : DataFrame) (c : string) : result Series :=
  match lookup_column df c with
  | Some s => Ok s
  | None => Raise (KeyError (VStr c))
  end.

(** [df[c] = s]: replaces the column in place, or appends a new one. *)
Fixpoint setitem (df : DataFrame) (c : string) (s : Series) : DataFrame :=
  match df with
  | [] => [(c, s)]
  | (n, s0) :: df' =>
      if String.eqb n c then (n, s) :: df' else (n, s0) :: setitem df' c s
  end.

(** [s.iloc[i]] *)
Definition iloc (s : Series) (i : nat) : result cell :=
  match values s !! i with
  | Some c => Ok c
  | None => Raise IndexError
  end.

(** [isinstance(c, datetime.date)]; pandas' [NaT] is an instance of a
    subclass of [datetime.datetime], hence of [datetime.date]. *)
Definition isinstance_date (c : cell) : bool :=
  match c with
  | Cell (VDate _) => true
  | NaT => true
  | _ => false
  end.

Definition is_str (c : cell) : bool :=
  match c with Cell (VStr _) => true | _ => false end.

(** [pandas.api.types.is_object_dtype(s)] *)
Definition is_object_dtype (s : Series) : bool :=
  match dtype s with DObject => true | _ => false end.

(** [pandas.api.types.is_string_dtype(s)]: the string dtype, or an object
    column whose elements are all strings. *)
Definition is_string_dtype (s : Series) : bool :=
  match dtype s with
  | DString => true
  | DObject => forallb is_str (values s)
  | _ => false
  end.

Definition isna (c : cell) : bool :=
  match c with
  | NaT => true
  | Cell VNone => true
  | _ => false
  end.

Definition hashable (c : cell) : bool :=
  match c with
  | Cell (VList _) => false
  | Cell (VDict _) => false
  | _ => true
  end.

(** [==] on the hashable objects *)
Definition cell_eqb (a b : cell) : bool :=
  match a, b with
  | Cell VNone, Cell VNone => true
  | Cell (VNum p), Cell (VNum q) => Qeq_bool p q
  | Cell (VStr s), Cell (VStr t) => String.eqb s t
  | Cell (VDate d), Cell (VDate e) => date_eqb d e
  | NaT, NaT => true
  | _, _ => false
  end.

Fixpoint unique (l : list cell) : list cell :=
  match l with
  | [] => []
  | c :: l' => c :: List.filter (fun x => negb (cell_eqb c x)) (unique l')
  end.

(** [s.nunique()]: the number of distinct values that are not missing;
    hashing a list or a dict raises. *)
Definition nunique (s : Series) : result nat :=
  if forallb hashable (values s)
  then Ok (length (unique (List.filter (fun c => negb (isna c)) (values s))))
  else Raise TypeError.

End pd.

(** What pandas computes from a whole column: the dtype the [DataFrame]
    constructor infers; [pd.to_datetime(column, errors="coerce").dt.date],
    which raises on a column it cannot bring to one datetime dtype (the
    accessor [.dt] is refused on the object column that timestamps with
    different UTC offsets give) and otherwise yields one date or one missing
    value per cell; and the dtype of the column of dates once it is stored
    in the table. *)
Class Pandas := {
  infer_dtype : list value -> Dtype;
  to_datetime_date : list cell -> result (list (option Date));
  date_dtype : list (option Date) -> Dtype;
  to_datetime_date_length :
    forall l dates, to_datetime_date l = Ok dates -> length dates = length l
}.

(** Iterating a Python [set] of strings visits each element once, in an
    order the language does not fix. *)
Class PySet := {
  set_iter : list string -> list string;
  set_iter_perm : forall l, NoDup l -> set_iter l ≡ₚ l
}.

(** ** fhir_resources_flattener.py *)

Inductive ColumnNames : Type :=
| USER_ID
| EFFECTIVE_DATE_TIME
| QUANTITY_NAME
| QUANTITY_UNIT
| QUANTITY_VALUE
| LOINC_CODE
| DISPLAY
| APPLE_HEALTH_KIT_CODE.

#[global] Instance ColumnNames_eq_dec : EqDecision ColumnNames.
Proof. solve_decision. Defined.

(** [col.value] *)
Definition ColumnNames_value (c : ColumnNames) : string :=
  match c with
  | USER_ID => "UserId"
  | EFFECTIVE_DATE_TIME => "EffectiveDateTime"
  | QUANTITY_NAME => "QuantityName"
  | QUANTITY_UNIT => "QuantityUnit"
  | QUANTITY_VALUE => "QuantityValue"
  | LOINC_CODE => "LoincCode"
  | DISPLAY => "Display"
  | APPLE_HEALTH_KIT_CODE => "AppleHealthKitCode"
  end.

Inductive FHIRResourceType : Type :=
| OBSERVATION
| QUESTIONNAIRE_RESPONSE.

#[global] Instance FHIRResourceType_eq_dec : EqDecision FHIRResourceType.
Proof. solve_decision. Defined.

Definition FHIRResourceType_value (k : FHIRResourceType) : string :=
  match k with
  | OBSERVATION => "Observation"
  | QUESTIONNAIRE_RESPONSE => "QuestionnaireResponse"
  end.

Definition FHIRResourceType_name (k : FHIRResourceType) : string :=
  match k with
  | OBSERVATION => "OBSERVATION"
  | QUESTIONNAIRE_RESPONSE => "QUESTIONNAIRE_RESPONSE"
  end.

(** What a record's [resource_type] attribute may hold: a plain string, as
    the keys of [flattener_classes] are, or a member of the enumeration. *)
Inductive kind_tag : Type :=
| TagStr (s : string)
| TagEnum (k : FHIRResourceType).

(** [tag.name]: only an enumeration member has the attribute. *)
Definition kind_tag_name (t : kind_tag) : result string :=
  match t with
  | TagEnum k => Ok (FHIRResourceType_name k)
  | TagStr _ => Raise (AttributeError "name")
  end.

(** [observation.subject], an object with an [id] attribute. *)
Record Reference := mkReference { id_ : value }.

(** A resource object: what the code reads of it is its [resource_type],
    the dictionary [dict()] returns and the [subject] attribute, which is
    [None] when the record has no subject. *)
Record Resource := mkResource {
  resource_type : kind_tag;
  dict : gmap string value;
  subject : option Reference
}.

(** [ResourceFlattener.resource_columns] *)
Definition resource_columns (k : FHIRResourceType) : option (list ColumnNames) :=
  match k with
  | OBSERVATION =>
      Some [USER_ID; EFFECTIVE_DATE_TIME; QUANTITY_NAME; QUANTITY_UNIT;
            QUANTITY_VALUE; LOINC_CODE; DISPLAY; APPLE_HEALTH_KIT_CODE]
  | QUESTIONNAIRE_RESPONSE =>
      Some [USER_ID; EFFECTIVE_DATE_TIME; QUANTITY_NAME; QUANTITY_VALUE;
            LOINC_CODE]
  end.

(** [ResourceFlattener.__init__] *)
Definition ResourceFlattener_init (k : FHIRResourceType) : result FHIRResourceType :=
  match resource_columns k with
  | Some _ => Ok k
  | None =>
      Raise (ValueError ("Unsupported resource type: " ++ FHIRResourceType_name k))
  end.

Record FHIRDataFrame := mkFHIRDataFrame {
  data_frame : DataFrame;
  frame_resource_type : FHIRResourceType
}.

(** [FHIRDataFrame.__init__] *)
Definition FHIRDataFrame_init (data : DataFrame) (k : FHIRResourceType)
  : result FHIRDataFrame :=
  _ ← ResourceFlattener_init k;
  match resource_columns k with
  | Some _ => Ok (mkFHIRDataFrame data k)
  | None =>
      Raise (ValueError ("Unsupported resource type: FHIRResourceType."
                         ++ FHIRResourceType_name k))
  end.

(** The [df] property *)
Definition df (f : FHIRDataFrame) : DataFrame := data_frame f.

Definition required_columns (f : FHIRDataFrame) : list string :=
  ColumnNames_value <$> default [] (resource_columns (frame_resource_type f)).

Definition missing_columns (f : FHIRDataFrame) : list string :=
  List.filter (fun col => negb (pd.has_column (df f) col)) (required_columns f).

Definition check_effective_date_time (f : FHIRDataFrame) : result unit :=
  if pd.has_column (df f) (ColumnNames_value EFFECTIVE_DATE_TIME)
  then
    s ← pd.getitem (df f) (ColumnNames_value EFFECTIVE_DATE_TIME);
    if forallb pd.isinstance_date (values s)
    then Ok ()
    else Raise (ValueError
      ("The " ++ ColumnNames_value EFFECTIVE_DATE_TIME
       ++ " column is not of type" ++ "datetime.date."))
  else Ok ().

Definition check_string_column (f : FHIRDataFrame) (column : string) : result unit :=
  if pd.has_column (df f) column
  then
    s ← pd.getitem (df f) column;
    if pd.is_string_dtype s || pd.is_object_dtype s
    then Ok ()
    else Raise (ValueError ("The '" ++ column ++ "' column does not contain strings."))
  else Ok ().

(** The elements of
    [set(required_columns) - {EFFECTIVE_DATE_TIME, QUANTITY_VALUE}] *)
Definition string_columns (f : FHIRDataFrame) : list string :=
  list_difference (remove_dups (required_columns f))
    [ColumnNames_value EFFECTIVE_DATE_TIME; ColumnNames_value QUANTITY_VALUE].

(** [FHIRDataFrame.validate_columns] *)
Definition validate_columns `{PySet} (f : FHIRDataFrame) : result bool :=
  match missing_columns f with
  | _ :: _ =>
      Raise (ValueError ("The DataFrame is missing required columns: "
                         ++ String.concat ", " (missing_columns f)))
  | [] =>
      _ ← check_effective_date_time f;
      _ ← mapM (check_string_column f) (set_iter (string_columns f));
      Ok true
  end.

(** The dictionary literal [flattened_entry]: its eight keys are fixed. *)
Record FlattenedEntry := mkEntry {
  UserId : value;
  EffectiveDateTime : value;
  QuantityName : value;
  QuantityUnit : value;
  QuantityValue : value;
  LoincCode : value;
  Display : value;
  AppleHealthKitCode : value
}.

(** Lines 307-310: the effective timestamp of one record. *)
Definition effective_datetime (observation : Resource) : result value :=
  let effective_datetime := Py.dict_get (dict observation) "effectiveDateTime" VNone in
  if negb (Py.truthy effective_datetime)
  then
    let effective_period :=
      Py.dict_get (dict observation) "effectivePeriod" (VDict ∅) in
    Py.get effective_period "start" VNone
  else Ok effective_datetime.

(** [coding[i][k]] *)
Definition coding_at (coding : value) (i : nat) (k : string) : result value :=
  e ← Py.getitem_int coding i;
  Py.getitem e k.

(** [a if len(coding) > n else b] *)
Definition if_len_gt (coding : value) (n : nat) (a b : result value) : result value :=
  m ← Py.len coding;
  if bool_decide (n < m) then a else b.

(** [observation.dict()["code"]["coding"]] *)
Definition coding_of (observation : Resource) : result value :=
  code ← Py.dict_getitem (dict observation) "code";
  Py.getitem code "coding".

(** One turn of the loop of [ObservationFlattener.flatten]. *)
Definition flatten_entry (observation : Resource) : result FlattenedEntry :=
  effective_datetime ← effective_datetime observation;
  coding ← coding_of observation;
  loinc_code ← if_len_gt coding 0 (coding_at coding 0 "code") (Ok (VStr ""));
  display ← if_len_gt coding 0 (coding_at coding 0 "display") (Ok (VStr ""));
  apple_healthkit_code ←
    if_len_gt coding 1 (coding_at coding 1 "code")
      (if_len_gt coding 0 (coding_at coding 0 "code") (Ok (VStr "")));
  quantity_name ←
    if_len_gt coding 1 (coding_at coding 1 "display")
      (if_len_gt coding 0 (coding_at coding 0 "display") (Ok (VStr "")));
  user_id ←
    match subject observation with
    | Some r => Ok (id_ r)
    | None => Raise (AttributeError "id")
    end;
  value_quantity ← Py.dict_getitem (dict observation) "valueQuantity";
  unit_ ← Py.getitem value_quantity "unit";
  value_quantity ← Py.dict_getitem (dict observation) "valueQuantity";
  value_ ← Py.getitem value_quantity "value";
  Ok {| UserId := user_id;
        EffectiveDateTime :=
          if Py.truthy effective_datetime then effective_datetime else VNone;
        QuantityName := quantity_name;
        QuantityUnit := unit_;
        QuantityValue := value_;
        LoincCode := loinc_code;
        Display := display;
        AppleHealthKitCode := apple_healthkit_code |}.

Section Flatten.
Context `{Pandas}.

(** The column [pd.DataFrame] builds from the values of one key.  A cell
    is recorded by its value: a string stays the object it is; a number is
    its rational value, so a conversion from [int] to [float] does not
    show; and [Cell VNone] is the missing value of the column, [None] in an
    object column and [NaN] in a numeric one, which [pd.isna] and the type
    tests of this file read alike. *)
Definition column_of (field : FlattenedEntry -> value) (rows : list FlattenedEntry)
  : Series :=
  mkSeries (infer_dtype (field <$> rows)) (Cell <$> (field <$> rows)).

(** [pd.DataFrame(flattened_data)]: a list of dictionaries with the same
    keys gives one column per key, in the keys' order; the empty list
    gives a table without columns. *)
Definition DataFrame_of (flattened_data : list FlattenedEntry) : DataFrame :=
  match flattened_data with
  | [] => []
  | _ :: _ =>
      [ (ColumnNames_value USER_ID, column_of UserId flattened_data);
        (ColumnNames_value EFFECTIVE_DATE_TIME,
           column_of EffectiveDateTime flattened_data);
        (ColumnNames_value QUANTITY_NAME, column_of QuantityName flattened_data);
        (ColumnNames_value QUANTITY_UNIT, column_of QuantityUnit flattened_data);
        (ColumnNames_value QUANTITY_VALUE, column_of QuantityValue flattened_data);
        (ColumnNames_value LOINC_CODE, column_of LoincCode flattened_data);
        (ColumnNames_value DISPLAY, column_of Display flattened_data);
        (ColumnNames_value APPLE_HEALTH_KIT_CODE,
           column_of AppleHealthKitCode flattened_data) ]
  end.

Definition date_cell (d : option Date) : cell :=
  match d with
  | Some d => Cell (VDate d)
  | None => NaT
  end.

(** The column of dates as the table stores it. *)
Definition date_series (dates : list (option Date)) : Series :=
  mkSeries (date_dtype dates) (date_cell <$> dates).

(** [pd.to_datetime(s, errors="coerce").dt.date] *)
Definition to_date_series (s : Series) : result Series :=
  dates ← to_datetime_date (values s);
  Ok (date_series dates).

(** The table a successful [flatten] returns: the columns of the
    flattened entries, the date column replaced by its parsed form. *)
Definition flattened_table (rows : list FlattenedEntry) (dates : list (option Date))
  : DataFrame :=
  pd.setitem (DataFrame_of rows) (ColumnNames_value EFFECTIVE_DATE_TIME)
    (date_series dates).

(** [ObservationFlattener.flatten]: the right-hand side of the assignment
    of lines 346-348 is evaluated, and may raise, before the column is
    stored. *)
Definition flatten (resources : list Resource) : result FHIRDataFrame :=
  flattened_data ← mapM flatten_entry resources;
  let flattened_df := DataFrame_of flattened_data in
  s ← pd.getitem flattened_df (ColumnNames_value EFFECTIVE_DATE_TIME);
  dates ← to_date_series s;
  let flattened_df :=
    pd.setitem flattened_df (ColumnNames_value EFFECTIVE_DATE_TIME) dates in
  FHIRDataFrame_init flattened_df OBSERVATION.

Inductive flattener_class : Type := ObservationFlattener.

(** [flattener_classes.get(resource_type)]: the only key is the string
    ["Observation"]; an enumeration member is equal to no string. *)
Definition flattener_classes (t : kind_tag) : option flattener_class :=
  match t with
  | TagStr s =>
      if String.eqb s (FHIRResourceType_value OBSERVATION)
      then Some ObservationFlattener else None
  | TagEnum _ => None
  end.

(** [flattener_class()] followed by [flattener.flatten(resources)] *)
Definition run_flattener (c : flattener_class) (resources : list Resource)
  : result FHIRDataFrame :=
  match c with
  | ObservationFlattener =>
      _ ← ResourceFlattener_init OBSERVATION;
      flatten resources
  end.

(** [flatten_fhir_resources]: what it prints, and what it returns or
    raises. *)
Definition flatten_fhir_resources (resources : list Resource)
  : list string * result (option FHIRDataFrame) :=
  match resources with
  | [] => (["No data available."], Ok None)
  | first :: _ =>
      let resource_type := resource_type first in
      match flattener_classes resource_type with
      | None =>
          ([], name ← kind_tag_name resource_type;
               Raise (ValueError ("No flattener found for resource type: " ++ name)))
      | Some flattener_class =>
          ([], f ← run_flattener flattener_class resources; Ok (Some f))
      end
  end.

End Flatten.

(** ** data_visualizer.py *)

Record DataVisualizer := mkDataVisualizer {
  start_date : value;
  end_date : value;
  user_ids : value;
  y_lower : Q;
  y_upper : Q;
  combine_plots : bool;
  dpi : Q
}.

(** [DataVisualizer.__init__] *)
Definition DataVisualizer_init : DataVisualizer :=
  {| start_date := VNone; end_date := VNone; user_ids := VNone;
     y_lower := 50; y_upper := 1000; combine_plots := true; dpi := 300 |}.

Definition set_date_range (start_date end_date : value) (self : DataVisualizer)
  : DataVisualizer :=
  {| start_date := start_date; end_date := end_date; user_ids := user_ids self;
     y_lower := y_lower self; y_upper := y_upper self;
     combine_plots := combine_plots self; dpi := dpi self |}.

Definition set_start_date (d : value) (self : DataVisualizer) : DataVisualizer :=
  set_date_range d (end_date self) self.

Definition set_end_date (d : value) (self : DataVisualizer) : DataVisualizer :=
  set_date_range (start_date self) d self.

(** A method of the visualizer: from the object's fields to the fields it
    leaves behind (also when it raises), the lines it printed and what it
    returns or raises. *)
Definition Method (A : Type) : Type :=
  DataVisualizer -> DataVisualizer * list string * result A.

Module Method.

Definition ret {A} (a : A) : Method A := fun self => (self, [], Ok a).

Definition bind {A B} (m : Method A) (k : A -> Method B) : Method B :=
  fun self =>
    match m self with
    | (self', out, Ok a) =>
        match k a self' with
        | (self'', out', r) => (self'', (out ++ out')%list, r)
        end
    | (self', out, Raise e) => (self', out, Raise e)
    end.

Definition lift {A} (r : result A) : Method A := fun self => (self, [], r).

Definition print (line : string) : Method unit := fun self => (self, [line], Ok ()).

Definition read : Method DataVisualizer := fun self => (self, [], Ok self).

Definition update (f : DataVisualizer -> DataVisualizer) : Method unit :=
  fun self => (f self, [], Ok ()).

End Method.

#[global] Instance Method_ret : MRet Method := @Method.ret.
#[global] Instance Method_bind : MBind Method := fun A B k m => Method.bind m k.

(** What the plot operation takes from outside this file:
    [datetime.strptime(s, "%Y-%m-%d").date()] on a string ([None] where
    Python raises [ValueError]), the inherited
    [FHIRDataProcessor.validate_columns], and the filtering and matplotlib
    rendering of lines 122-195, which read the visualizer's fields and
    return the figure or raise. *)
Class PlotEnv := {
  Figure : Type;
  strptime_ymd : string -> option Date;
  processor_validate_columns : FHIRDataFrame -> result unit;
  render : DataVisualizer -> FHIRDataFrame -> result (option Figure)
}.

Section Visualizer.
Context `{PlotEnv}.

(** [datetime.strptime(v, "%Y-%m-%d").date()]: the first argument must
    be a [str]. *)
Definition strptime_date (v : value) : result Date :=
  match v with
  | VStr s =>
      match strptime_ymd s with
      | Some d => Ok d
      | None => Raise (ValueError "time data does not match format '%Y-%m-%d'")
      end
  | _ => Raise TypeError
  end.

(** Lines 118-121 *)
Definition parse_date_range : Method unit :=
  self ← Method.read;
  _ ← (if Py.truthy (start_date self)
       then d ← Method.lift (strptime_date (start_date self));
            Method.update (set_start_date (VDate d))
       else mret ());
  self ← Method.read;
  if Py.truthy (end_date self)
  then d ← Method.lift (strptime_date (end_date self));
       Method.update (set_end_date (VDate d))
  else mret ().

(** [DataVisualizer.create_static_plot] *)
Definition create_static_plot (flattened_FHIRDataFrame : FHIRDataFrame)
  : Method (option Figure) :=
  dates ← Method.lift (pd.getitem (df flattened_FHIRDataFrame) "EffectiveDateTime");
  first ← Method.lift (pd.iloc dates 0);
  if negb (pd.isinstance_date first)
  then _ ← Method.print "The date type should be of type date."; mret None
  else
    codes ← Method.lift (pd.getitem (df flattened_FHIRDataFrame) "LoincCode");
    n ← Method.lift (pd.nunique codes);
    if negb (Nat.eqb n 1)
    then _ ← Method.print
               ("Error: More than one unique LoincCode found."
                ++ "Each plot should be based on a single LoincCode.");
         mret None
    else
      _ ← Method.lift (processor_validate_columns flattened_FHIRDataFrame);
      _ ← parse_date_range;
      self ← Method.read;
      Method.lift (render self flattened_FHIRDataFrame).

End Visualizer.

(** ** Reference instances of the interfaces

    A parser of the zero-padded form [YYYY-MM-DD], used as the [strptime]
    of the plot operation, and a parser of the timestamps [YYYY-MM-DD] and
    [YYYY-MM-DDTHH:MM:SS+HH:MM] for the string cells of a column. *)

Definition hyphen : Ascii.ascii := Ascii.ascii_of_nat 45.

Definition digit (a : Ascii.ascii) : option Z :=
  let n := Ascii.nat_of_ascii a in
  if (48 <=? n)%nat && (n <=? 57)%nat then Some (Z.of_nat (n - 48)) else None.

Definition is_leap (y : Z) : bool :=
  ((y mod 4 =? 0) && negb (y mod 100 =? 0) || (y mod 400 =? 0))%Z.

Definition days_in_month (y m : Z) : Z :=
  if (m =? 2)%Z then (if is_leap y then 29 else 28)%Z
  else if ((m =? 4) || (m =? 6) || (m =? 9) || (m =? 11))%Z then 30%Z
  else 31%Z.

Definition valid_date (y m d : Z) : bool :=
  ((1 <=? y) && (1 <=? m) && (m <=? 12) && (1 <=? d) && (d <=? days_in_month y m))%Z.

Definition parse_ymd (s : string) : option Date :=
  match String.list_ascii_of_string s with
  | [y1; y2; y3; y4; h1; m1; m2; h2; d1; d2] =>
      if Ascii.eqb h1 hyphen && Ascii.eqb h2 hyphen
      then
        y1 ← digit y1; y2 ← digit y2; y3 ← digit y3; y4 ← digit y4;
        m1 ← digit m1; m2 ← digit m2; d1 ← digit d1; d2 ← digit d2;
        let y := (1000 * y1 + 100 * y2 + 10 * y3 + y4)%Z in
        let m := (10 * m1 + m2)%Z in
        let d := (10 * d1 + d2)%Z in
        if valid_date y m d then Some (mkDate y m d) else None
      else None
  | _ => None
  end.

(** A parsed timestamp: its calendar date in its own time zone and, when
    the string carries one, its offset from UTC in minutes. *)
Record Stamp := mkStamp { stamp_date : Date; utc_offset : option Z }.

Definition two_digits (a b : Ascii.ascii) : option Z :=
  a ← digit a; b ← digit b; Some (10 * a + b)%Z.

(** The part that follows the date: [THH:MM:SS+HH:MM] or [THH:MM:SS-HH:MM]. *)
Definition parse_time_offset (s : string) : option Z :=
  match String.list_ascii_of_string s with
  | [t; h1; h2; c1; m1; m2; c2; s1; s2; sign; o1; o2; c3; o3; o4] =>
      hh ← two_digits h1 h2; mm ← two_digits m1 m2; ss ← two_digits s1 s2;
      oh ← two_digits o1 o2; om ← two_digits o3 o4;
      let plus := Ascii.eqb sign (Ascii.ascii_of_nat 43) in
      let minus := Ascii.eqb sign hyphen in
      if Ascii.eqb t (Ascii.ascii_of_nat 84)
         && Ascii.eqb c1 (Ascii.ascii_of_nat 58)
         && Ascii.eqb c2 (Ascii.ascii_of_nat 58)
         && Ascii.eqb c3 (Ascii.ascii_of_nat 58)
         && (plus || minus)
         && (hh <? 24)%Z && (mm <? 60)%Z && (ss <? 60)%Z
         && (oh <? 24)%Z && (om <? 60)%Z
      then Some (if plus then 60 * oh + om else - (60 * oh + om))%Z
      else None
  | _ => None
  end.

Definition parse_stamp (s : string) : option Stamp :=
  d ← parse_ymd (String.substring 0 10 s);
  let rest := String.substring 10 (String.length s - 10) s in
  if String.eqb rest "" then Some (mkStamp d None)
  else offset ← parse_time_offset rest; Some (mkStamp d (Some offset)).

(** One cell under [errors="coerce"]: what is not a timestamp is missing. *)
Definition parse_cell (c : cell) : option Stamp :=
  match c with
  | Cell (VStr s) => parse_stamp s
  | Cell (VDate d) => Some (mkStamp d None)
  | _ => None
  end.

(** The offsets found in a column, and whether two of them differ. *)
Definition offsets (stamps : list (option Stamp)) : list Z :=
  omap (fun stamp => stamp ≫= utc_offset) stamps.

Definition mixed_offsets (stamps : list (option Stamp)) : bool :=
  match offsets stamps with
  | [] => false
  | z :: zs => negb (forallb (Z.eqb z) zs)
  end.

(** [pd.to_datetime(column, errors="coerce").dt.date] on a column whose
    strings share one of the two forms: timestamps with different UTC
    offsets are left as an object column, which has no [.dt]; otherwise
    each timestamp gives its date and every other cell a missing value. *)
Definition to_datetime_date_simple (l : list cell) : result (list (option Date)) :=
  let stamps := parse_cell <$> l in
  if mixed_offsets stamps then Raise (AttributeError "dt")
  else Ok (fmap stamp_date <$> stamps).

Definition to_datetime_date_simple_length (l : list cell) (dates : list (option Date)) :
  to_datetime_date_simple l = Ok dates -> length dates = length l.
Proof.
  unfold to_datetime_date_simple. destruct (mixed_offsets _); [discriminate|].
  intros [= <-]. by rewrite !length_fmap.
Defined.

Definition infer_dtype_simple (l : list value) : Dtype :=
  match l with
  | VNum _ :: _ =>
      if forallb (fun v => match v with VNum _ => true | _ => false end) l
      then DFloat64 else DObject
  | _ => DObject
  end.

(** A stored column of dates is an object column, unless every cell is
    missing: then it is a [datetime64] column. *)
Definition date_dtype_simple (dates : list (option Date)) : Dtype :=
  if forallb (fun d => bool_decide (d = None)) dates then DDatetime64 else DObject.

Definition iso_pandas : Pandas :=
  {| infer_dtype := infer_dtype_simple;
     to_datetime_date := to_datetime_date_simple;
     date_dtype := date_dtype_simple;
     to_datetime_date_length := to_datetime_date_simple_length |}.

Definition ordered_set : PySet :=
  {| set_iter := fun l => l;
     set_iter_perm := fun l _ => reflexivity l |}.

Definition reversed_set : PySet :=
  {| set_iter := reverse;
     set_iter_perm := fun l _ => reverse_Permutation l |}.

Definition plain_env : PlotEnv :=
  {| Figure := unit;
     strptime_ymd := parse_ymd;
     processor_validate_columns := fun _ => Ok ();
     render := fun _ _ => Ok (Some ()) |}.

(** ** Sample records *)

Definition coding_entry (code display : string) : value :=
  VDict (list_to_map [("code", VStr code); ("display", VStr display)]).

Definition heart_rate_quantity : value :=
  VDict (list_to_map [("unit", VStr "beats/minute"); ("value", VNum 72)]).

Definition loinc_heart_rate : value := coding_entry "8867-4" "Heart rate".

Definition healthkit_heart_rate : value :=
  coding_entry "HKQuantityTypeIdentifierHeartRate" "Heart Rate".

(** An Observation whose dictionary holds the entries [effective], the
    given coding list and a value quantity. *)
Definition observation (effective : list (string * value)) (coding : list value)
    (user : string) : Resource :=
  {| resource_type := TagStr "Observation";
     dict := list_to_map
       (effective ++
        [("code", VDict (list_to_map [("coding", VList coding)]));
         ("valueQuantity", heart_rate_quantity)]);
     subject := Some (mkReference (VStr user)) |}.

Definition stamped (coding : list value) : Resource :=
  observation [("effectiveDateTime", VStr "2024-03-02")] coding "u1".

Definition period_only : Resource :=
  observation
    [("effectivePeriod", VDict (list_to_map [("start", VStr "2024-01-15")]))]
    [loinc_heart_rate] "u2".

Definition undated : Resource := observation [] [loinc_heart_rate] "u3".

Definition no_subject : Resource :=
  {| resource_type := TagStr "Observation";
     dict := dict undated;
     subject := None |}.

Definition no_coding : Resource :=
  {| resource_type := TagStr "Observation";
     dict := list_to_map
       [("code", VDict ∅); ("valueQuantity", heart_rate_quantity)];
     subject := Some (mkReference (VStr "u5")) |}.

Definition no_quantity : Resource :=
  {| resource_type := TagStr "Observation";
     dict := list_to_map
       [("code", VDict (list_to_map [("coding", VList [loinc_heart_rate])]))];
     subject := Some (mkReference (VStr "u6")) |}.

Definition questionnaire_response : Resource :=
  {| resource_type := TagStr "QuestionnaireResponse";
     dict := ∅;
     subject := None |}.

(** Three records with no, one and two codings. *)
Definition coded_batch : list Resource :=
  [stamped []; stamped [loinc_heart_rate];
   stamped [loinc_heart_rate; healthkit_heart_rate]].

(** Three records with a direct timestamp, with a period only, and with
    neither. *)
Definition dated_batch : list Resource :=
  [stamped [loinc_heart_rate; healthkit_heart_rate]; period_only; undated].

(** Two records of the same instant, stamped in two time zones, and the
    column of their timestamps. *)
Definition paris_stamp : string := "2024-01-15T10:00:00+01:00".

Definition athens_stamp : string := "2024-01-15T11:00:00+02:00".

Definition stamped_in_paris : Resource :=
  observation [("effectiveDateTime", VStr paris_stamp)] [loinc_heart_rate] "u1".

Definition stamped_in_athens : Resource :=
  observation [("effectiveDateTime", VStr athens_stamp)] [loinc_heart_rate] "u2".

Definition two_zones_batch : list Resource := [stamped_in_paris; stamped_in_athens].

Definition two_zones_column : list cell :=
  [Cell (VStr paris_stamp); Cell (VStr athens_stamp)].

(** ** Vocabulary of the statements *)

(** The value a flattened entry holds under a column name. *)
Definition field_of (c : ColumnNames) : FlattenedEntry -> value :=
  match c with
  | USER_ID => UserId
  | EFFECTIVE_DATE_TIME => EffectiveDateTime
  | QUANTITY_NAME => QuantityName
  | QUANTITY_UNIT => QuantityUnit
  | QUANTITY_VALUE => QuantityValue
  | LOINC_CODE => LoincCode
  | DISPLAY => Display
  | APPLE_HEALTH_KIT_CODE => AppleHealthKitCode
  end.

(** The cell of column [c] at row [i] of a frame. *)
Definition frame_cell (f : FHIRDataFrame) (c : ColumnNames) (i : nat) : option cell :=
  s ← pd.lookup_column (df f) (ColumnNames_value c); values s !! i.

(** The cells of row [i] that come from the coding list: LoincCode,
    Display, AppleHealthKitCode and QuantityName. *)
Definition coding_cells (f : FHIRDataFrame) (i : nat)
  : option cell * option cell * option cell * option cell :=
  (frame_cell f LOINC_CODE i, frame_cell f DISPLAY i,
   frame_cell f APPLE_HEALTH_KIT_CODE i, frame_cell f QUANTITY_NAME i).

Definition cells_are (loinc display healthkit name : value)
  : option cell * option cell * option cell * option cell :=
  (Some (Cell loinc), Some (Cell display), Some (Cell healthkit), Some (Cell name)).

(** The entry [e] of a coding list is [{code: c, display: d}]. *)
Definition is_coding (e c d : value) : Prop :=
  exists m, e = VDict m /\ m !! "code" = Some c /\ m !! "display" = Some d.

(** A record that meets the input contract: [effectiveDateTime] and
    [effectivePeriod.start] are optional strings, [code.coding] is a list of
    [{code, display}] pairs of strings, [subject.id] is a string,
    [valueQuantity.unit] is a string and [valueQuantity.value] a number. *)
Definition is_str_value (v : value) : bool :=
  match v with VStr _ => true | _ => false end.

Definition is_num_value (v : value) : bool :=
  match v with VNum _ => true | _ => false end.

Definition optional (p : value -> bool) (o : option value) : bool :=
  match o with Some v => p v | None => true end.

Definition required (p : value -> bool) (o : option value) : bool :=
  match o with Some v => p v | None => false end.

Definition wf_coding_entry (e : value) : bool :=
  match e with
  | VDict m =>
      required is_str_value (m !! "code") && required is_str_value (m !! "display")
  | _ => false
  end.

Definition wf_effective (d : gmap string value) : bool :=
  optional is_str_value (d !! "effectiveDateTime") &&
  optional (fun p => match p with
                     | VDict p => optional is_str_value (p !! "start")
                     | _ => false
                     end) (d !! "effectivePeriod").

Definition wf_code (d : gmap string value) : bool :=
  required (fun c => match c with
                     | VDict c =>
                         required (fun l => match l with
                                            | VList l => forallb wf_coding_entry l
                                            | _ => false
                                            end) (c !! "coding")
                     | _ => false
                     end) (d !! "code").

Definition wf_quantity (d : gmap string value) : bool :=
  required (fun q => match q with
                     | VDict q =>
                         required is_str_value (q !! "unit") &&
                         required is_num_value (q !! "value")
                     | _ => false
                     end) (d !! "valueQuantity").

Definition wf_subject (s : option Reference) : bool :=
  match s with Some r => is_str_value (id_ r) | None => false end.

Definition well_formed (r : Resource) : bool :=
  wf_effective (dict r) && wf_code (dict r) && wf_subject (subject r)
  && wf_quantity (dict r).

Definition observation_columns : list string :=
  ["UserId"; "EffectiveDateTime"; "QuantityName"; "QuantityUnit";
   "QuantityValue"; "LoincCode"; "Display"; "AppleHealthKitCode"].

(** The timestamp a record contributes, in words: the direct field when
    it is present and not empty; otherwise the start of the period when
    the period is there and its start is present and not empty; otherwise
    a missing value. *)
Definition chosen_stamp (r : Resource) : value :=
  match dict r !! "effectiveDateTime" with
  | Some direct =>
      if Py.truthy direct then direct
      else match dict r !! "effectivePeriod" with
           | Some (VDict p) =>
               match p !! "start" with
               | Some start => if Py.truthy start then start else VNone
               | None => VNone
               end
           | _ => VNone
           end
  | None =>
      match dict r !! "effectivePeriod" with
      | Some (VDict p) =>
          match p !! "start" with
          | Some start => if Py.truthy start then start else VNone
          | None => VNone
          end
      | _ => VNone
      end
  end.

(** A cell of the date column after parsing: a date or a missing value. *)
Definition date_or_missing (c : cell) : Prop :=
  c = NaT \/ exists d, c = Cell (VDate d).

(** A record that lacks the coding list ([code] or [code.coding] is
    absent), the value quantity, or the subject reference. *)
Definition lacks_coding (r : Resource) : bool :=
  match dict r !! "code" with
  | None => true
  | Some (VDict c) => match c !! "coding" with None => true | Some _ => false end
  | Some _ => false
  end.

Definition lacks_quantity (r : Resource) : bool :=
  match dict r !! "valueQuantity" with None => true | Some _ => false end.

Definition lacks_subject (r : Resource) : bool :=
  match subject r with None => true | Some _ => false end.

Definition lacks_required (r : Resource) : bool :=
  lacks_coding r || lacks_quantity r || lacks_subject r.

(** The lookup error of the first field found absent, in the order the
    loop reads them: the coding list, the subject, the value quantity. *)
Definition missing_field_error (r : Resource) : option exn :=
  if lacks_coding r then
    Some (KeyError (VStr (match dict r !! "code" with
                          | None => "code"
                          | Some _ => "coding"
                          end)))
  else if lacks_subject r then Some (AttributeError "id")
  else if lacks_quantity r then Some (KeyError (VStr "valueQuantity"))
  else None.

(** What the claim on failing batches asks of the error: that the
    position of the offending record can be read off it. *)
Definition error_locates_record `{Pandas} : Prop :=
  exists position : exn -> nat,
    forall (pre : list Resource) (r : Resource) (post : list Resource),
      Forall (fun r => well_formed r = true) pre ->
      lacks_required r = true ->
      exists e, flatten (pre ++ r :: post) = Raise e /\ position e = length pre.

(** What the claim on the string columns asks: a required column, other
    than the date and the value column, whose cells are not all strings
    makes the validation fail. *)
Definition string_check_reads_values `{PySet} : Prop :=
  forall (f : FHIRDataFrame) (column : string) (s : Series),
    column ∈ string_columns f ->
    pd.lookup_column (df f) column = Some s ->
    forallb pd.is_str (values s) = false ->
    exists msg, validate_columns f = Raise (ValueError msg).

(** A frame with the eight Observation columns, in which the object column
    [UserId] holds a number and a string. *)
Definition mixed_frame : FHIRDataFrame :=
  {| data_frame :=
       [ ("UserId", mkSeries DObject [Cell (VNum 1); Cell (VStr "a")]);
         ("EffectiveDateTime",
            mkSeries DObject [Cell (VDate (mkDate 2024 1 15)); NaT]);
         ("QuantityName", mkSeries DObject [Cell (VStr "Heart rate"); Cell (VStr "Heart rate")]);
         ("QuantityUnit", mkSeries DObject [Cell (VStr "bpm"); Cell (VStr "bpm")]);
         ("QuantityValue", mkSeries DFloat64 [Cell (VNum 72); Cell (VNum 75)]);
         ("LoincCode", mkSeries DObject [Cell (VStr "8867-4"); Cell (VStr "8867-4")]);
         ("Display", mkSeries DObject [Cell (VStr "Heart rate"); Cell (VStr "Heart rate")]);
         ("AppleHealthKitCode", mkSeries DObject [Cell (VStr "HK"); Cell (VStr "HK")]) ];
     frame_resource_type := OBSERVATION |}.

(** The same frame with a numeric [UserId] column, and without its
    [QuantityValue] column. *)
Definition numeric_user_frame : FHIRDataFrame :=
  {| data_frame :=
       pd.setitem (data_frame mixed_frame) "UserId"
         (mkSeries DInt64 [Cell (VNum 1); Cell (VNum 2)]);
     frame_resource_type := OBSERVATION |}.

Definition no_value_frame : FHIRDataFrame :=
  {| data_frame :=
       List.filter (fun c => negb (String.eqb (fst c) "QuantityValue"))
         (data_frame mixed_frame);
     frame_resource_type := OBSERVATION |}.

(** The plot operation rejects a frame: it prints one message, returns
    [None], leaves the visualizer as it was and does not raise. *)
Definition rejects `{PlotEnv} (f : FHIRDataFrame) (self : DataVisualizer) : Prop :=
  exists msg, create_static_plot f self = (self, [msg], Ok None).

(** The first cell of the date column is not a date. *)
Definition first_date_cell_not_date (f : FHIRDataFrame) : Prop :=
  exists s c, pd.lookup_column (df f) "EffectiveDateTime" = Some s /\
              values s !! 0 = Some c /\ pd.isinstance_date c = false.

(** The LoincCode column holds more than one distinct value. *)
Definition several_loinc_codes (f : FHIRDataFrame) : Prop :=
  exists s n, pd.lookup_column (df f) "LoincCode" = Some s /\
              pd.nunique s = Ok n /\ 1 < n.

(** What the claim on the plot guard says of every frame. *)
Definition plot_guard_on_every_frame `{PlotEnv} : Prop :=
  forall (f : FHIRDataFrame) (self : DataVisualizer),
    first_date_cell_not_date f \/ several_loinc_codes f -> rejects f self.

(** A frame with two LoincCodes and no date column. *)
Definition codes_only_frame : FHIRDataFrame :=
  {| data_frame :=
       [("LoincCode", mkSeries DObject [Cell (VStr "8867-4"); Cell (VStr "9279-1")])];
     frame_resource_type := OBSERVATION |}.

(** A frame with a date column whose first cell is a string, and one with
    two LoincCodes under a proper date column. *)
Definition string_date_frame : FHIRDataFrame :=
  {| data_frame :=
       pd.setitem (data_frame mixed_frame) "EffectiveDateTime"
         (mkSeries DObject [Cell (VStr "2024-01-15"); NaT]);
     frame_resource_type := OBSERVATION |}.

Definition two_codes_frame : FHIRDataFrame :=
  {| data_frame :=
       pd.setitem (data_frame mixed_frame) "LoincCode"
         (mkSeries DObject [Cell (VStr "8867-4"); Cell (VStr "9279-1")]);
     frame_resource_type := OBSERVATION |}.

(** A visualizer whose date range was set as strings. *)
Definition january : DataVisualizer :=
  set_date_range (VStr "2024-01-01") (VStr "2024-01-31") DataVisualizer_init.

(** ** data_visualizer.py, lines 122-195: selecting and drawing

    The pandas selections, the aggregation and the matplotlib calls are
    taken through the interface [PlotBackend]; the control flow, the
    accesses [iloc[0]] and the binding of the local variable [fig] are
    those of the source. *)

Inductive plt_call : Type :=
| plt_figure (dpi : Q)
| plt_bar (x y : Series) (uid : value)
| plt_ylim (lower upper : Q)
| plt_legend
| plt_title (name : cell) (uid : option value) (start_date end_date : value)
| plt_xlabel (label : string)
| plt_ylabel (name unit_ : cell)
| plt_xticks
| plt_yticks
| plt_tight_layout
| plt_show.

(** What a statement of the plot operation can raise: an exception of the
    operations modelled so far, or [UnboundLocalError] on a local variable
    read before any assignment. *)
Inductive raised : Type :=
| Exn (e : exn)
| UnboundLocalError (name : string).

Inductive outcome (A : Type) : Type :=
| Returned (a : A)
| Raised (r : raised).
Arguments Returned {A} a.
Arguments Raised {A} r.

(** - [select_dates t a b] is
      [t[(t["EffectiveDateTime"] >= a) & (t["EffectiveDateTime"] <= b)]];
    - [unique_user_ids t] is [t["UserId"].unique()], as the sequence a
      loop over it visits;
    - [elements v] is the sequence a loop over the object [v] visits (for
      a list, its elements), or the [TypeError] of an object that is not
      iterable;
    - [select_user t uid] is [t[t["UserId"] == uid]];
    - [groupby_sum t] is
      [t.groupby("EffectiveDateTime")["QuantityValue"].sum().reset_index()];
    - [plt c] is the matplotlib call [c], which may raise;
    - [gcf calls] is [plt.gcf()] after the calls made so far. *)
Class PlotBackend := {
  figure_handle : Type;
  select_dates : DataFrame -> value -> value -> result DataFrame;
  unique_user_ids : DataFrame -> result (list value);
  elements : value -> result (list value);
  elements_list : forall l, elements (VList l) = Ok l;
  select_user : DataFrame -> value -> result DataFrame;
  groupby_sum : DataFrame -> result DataFrame;
  plt : plt_call -> result unit;
  gcf : list plt_call -> figure_handle
}.

(** A drawing computation: from the matplotlib calls made so far to the
    calls made after it, and what it returns or raises. *)
Definition Draw (A : Type) : Type :=
  list plt_call -> list plt_call * outcome A.

Module Draw.

Definition ret {A} (a : A) : Draw A := fun calls => (calls, Returned a).

Definition bind {A B} (m : Draw A) (k : A -> Draw B) : Draw B :=
  fun calls =>
    match m calls with
    | (calls', Returned a) => k a calls'
    | (calls', Raised r) => (calls', Raised r)
    end.

Definition lift {A} (r : result A) : Draw A :=
  fun calls =>
    match r with
    | Ok a => (calls, Returned a)
    | Raise e => (calls, Raised (Exn e))
    end.

Definition raise {A} (r : raised) : Draw A := fun calls => (calls, Raised r).

End Draw.

#[global] Instance Draw_ret : MRet Draw := @Draw.ret.
#[global] Instance Draw_bind : MBind Draw := fun A B k m => Draw.bind m k.

(** The object bound to [users_to_plot]: the visualizer's [user_ids], or
    the array of the distinct user ids of the table. *)
Inductive users_object : Type :=
| UserIds (v : value)
| UniqueIds (l : list value).

Section Drawing.
Context `{PlotBackend}.

(** A matplotlib call that went through is recorded. *)
Definition call (c : plt_call) : Draw unit :=
  fun calls =>
    match plt c with
    | Ok _ => ((calls ++ [c])%list, Returned ())
    | Raise e => (calls, Raised (Exn e))
    end.

(** [plt.gcf()] *)
Definition current_figure : Draw figure_handle :=
  fun calls => (calls, Returned (gcf calls)).

(** [for uid in users_to_plot] *)
Definition iterate (users_to_plot : users_object) : result (list value) :=
  match users_to_plot with
  | UserIds v => elements v
  | UniqueIds l => Ok l
  end.

(** [t[c].iloc[0]] *)
Definition first_cell (t : DataFrame) (c : string) : result cell :=
  s ← pd.getitem t c; pd.iloc s 0.

(** Lines 135-147 and 166-178: the bars of one user. *)
Definition user_bars (flattened_df : DataFrame) (uid : value) : Draw DataFrame :=
  user_df ← Draw.lift (select_user flattened_df uid);
  aggregated_data ← Draw.lift (groupby_sum user_df);
  x ← Draw.lift (pd.getitem aggregated_data "EffectiveDateTime");
  y ← Draw.lift (pd.getitem aggregated_data "QuantityValue");
  _ ← call (plt_bar x y uid);
  mret user_df.

(** Lines 134-147: the loop of the combined plot. *)
Fixpoint combined_bars (flattened_df : DataFrame) (users : list value) : Draw unit :=
  match users with
  | [] => mret ()
  | uid :: users' =>
      _ ← user_bars flattened_df uid;
      combined_bars flattened_df users'
  end.

(** Lines 165-193: one turn of the loop of the separate plots; [fig] is
    the binding of the local variable before and after the turn. *)
Definition separate_plot (self : DataVisualizer) (flattened_df : DataFrame)
    (len_users : nat) (fig : option figure_handle) (uid : value)
  : Draw (option figure_handle) :=
  _ ← call (plt_figure (dpi self));
  user_df ← user_bars flattened_df uid;
  _ ← call plt_legend;
  name ← Draw.lift (first_cell user_df "QuantityName");
  _ ← call (plt_title name (Some uid) (start_date self) (end_date self));
  _ ← call (plt_xlabel "Date");
  name ← Draw.lift (first_cell user_df "QuantityName");
  unit_ ← Draw.lift (first_cell user_df "QuantityUnit");
  _ ← call (plt_ylabel name unit_);
  _ ← call plt_xticks;
  _ ← call plt_yticks;
  _ ← call plt_tight_layout;
  fig ← (if Nat.eqb len_users 1
         then h ← current_figure; mret (Some h)
         else mret fig);
  _ ← call plt_show;
  mret fig.

Fixpoint separate_plots (self : DataVisualizer) (flattened_df : DataFrame)
    (len_users : nat) (fig : option figure_handle) (users : list value)
  : Draw (option figure_handle) :=
  match users with
  | [] => mret fig
  | uid :: users' =>
      fig ← separate_plot self flattened_df len_users fig uid;
      separate_plots self flattened_df len_users fig users'
  end.

(** Lines 128-130 *)
Definition users_to_plot (self : DataVisualizer) (flattened_df : DataFrame)
  : result users_object :=
  if Py.truthy (user_ids self)
  then Ok (UserIds (user_ids self))
  else l ← unique_user_ids flattened_df; Ok (UniqueIds l).

(** Lines 128-195, on the table selected by the date range. *)
Definition plot_selected (self : DataVisualizer) (flattened_df : DataFrame)
  : Draw (option figure_handle) :=
  users_to_plot ← Draw.lift (users_to_plot self flattened_df);
  if combine_plots self
  then
    _ ← call (plt_figure (dpi self));
    users ← Draw.lift (iterate users_to_plot);
    _ ← combined_bars flattened_df users;
    _ ← call (plt_ylim (y_lower self) (y_upper self));
    _ ← call plt_legend;
    name ← Draw.lift (first_cell flattened_df "QuantityName");
    _ ← call (plt_title name None (start_date self) (end_date self));
    _ ← call (plt_xlabel "Date");
    name ← Draw.lift (first_cell flattened_df "QuantityName");
    unit_ ← Draw.lift (first_cell flattened_df "QuantityUnit");
    _ ← call (plt_ylabel name unit_);
    _ ← call plt_xticks;
    _ ← call plt_yticks;
    _ ← call plt_tight_layout;
    fig ← current_figure;
    _ ← call plt_show;
    mret (Some fig)
  else
    users ← Draw.lift (iterate users_to_plot);
    fig ← separate_plots self flattened_df (length users) None users;
    match fig with
    | Some h => mret (Some h)
    | None => Draw.raise (UnboundLocalError "fig")
    end.

(** Lines 122-195 *)
Definition plot_tail (self : DataVisualizer) (f : FHIRDataFrame)
  : Draw (option figure_handle) :=
  flattened_df ←
    (if Py.truthy (start_date self) && Py.truthy (end_date self)
     then Draw.lift (select_dates (df f) (start_date self) (end_date self))
     else mret (df f));
  plot_selected self flattened_df.

(** The whole of [create_static_plot]: lines 103-121 as modelled above,
    run with a rendering that only reports that it was reached, then lines
    122-195. *)
Definition reach_rendering (strptime : string -> option Date)
    (validate : FHIRDataFrame -> result unit) : PlotEnv :=
  {| Figure := unit;
     strptime_ymd := strptime;
     processor_validate_columns := validate;
     render := fun _ _ => Ok (Some ()) |}.

Definition plot (strptime : string -> option Date)
    (validate : FHIRDataFrame -> result unit)
    (f : FHIRDataFrame) (self : DataVisualizer)
  : DataVisualizer * list string * list plt_call * outcome (option figure_handle) :=
  match create_static_plot (H := reach_rendering strptime validate) f self with
  | (self', out, Ok (Some _)) =>
      let '(calls, o) := plot_tail self' f [] in (self', out, calls, o)
  | (self', out, Ok None) => (self', out, [], Returned None)
  | (self', out, Raise e) => (self', out, [], Raised (Exn e))
  end.

End Drawing.

(** A backend to run the plot operation on the sample frames: rows are
    selected cell by cell (by date within the range, by equality with the
    user id), the aggregation keeps the selected rows as they are, every
    matplotlib call goes through, and the current figure is the number of
    figures opened so far. *)
Definition date_leb (a b : Date) : bool :=
  ((year a <? year b)
   || (year a =? year b) && ((month a <? month b)
                             || (month a =? month b) && (day a <=? day b)))%Z.

Definition in_range (a b : Date) (c : cell) : bool :=
  match c with
  | Cell (VDate d) => date_leb a d && date_leb d b
  | _ => false
  end.

Definition rows_where (mask : list bool) (t : DataFrame) : DataFrame :=
  (fun c => (fst c,
             mkSeries (dtype (snd c))
               (fst <$> List.filter snd (zip (values (snd c)) mask)))) <$> t.

Definition cell_value (c : cell) : value :=
  match c with Cell v => v | NaT => VNone end.

Definition is_figure_call (c : plt_call) : bool :=
  match c with plt_figure _ => true | _ => false end.

Definition list_backend : PlotBackend :=
  {| figure_handle := nat;
     select_dates := fun t a b =>
       match a, b with
       | VDate a, VDate b =>
           s ← pd.getitem t "EffectiveDateTime";
           Ok (rows_where (in_range a b <$> values s) t)
       | _, _ => Raise TypeError
       end;
     unique_user_ids := fun t =>
       s ← pd.getitem t "UserId"; Ok (cell_value <$> pd.unique (values s));
     elements := fun v =>
       match v with VList l => Ok l | _ => Raise TypeError end;
     elements_list := fun l => eq_refl;
     select_user := fun t uid =>
       s ← pd.getitem t "UserId";
       Ok (rows_where (pd.cell_eqb (Cell uid) <$> values s) t);
     groupby_sum := fun t => Ok t;
     plt := fun _ => Ok ();
     gcf := fun calls => length (List.filter is_figure_call calls) |}.

(** A frame of two users, and a visualizer asking for separate plots. *)
Definition two_users_frame : FHIRDataFrame :=
  {| data_frame :=
       pd.setitem (data_frame mixed_frame) "UserId"
         (mkSeries DObject [Cell (VStr "u1"); Cell (VStr "u2")]);
     frame_resource_type := OBSERVATION |}.

Definition separate : DataVisualizer :=
  {| start_date := VNone; end_date := VNone; user_ids := VNone;
     y_lower := 50; y_upper := 1000; combine_plots := false; dpi := 300 |}.

(** A visualizer whose date range selects no row of the sample frames. *)
Definition next_year : DataVisualizer :=
  set_date_range (VDate (mkDate 2025 1 1)) (VDate (mkDate 2025 1 31))
    DataVisualizer_init.

(** A record whose only coding has a code and no display, a record with
    a third, malformed coding, and the record [undated] under another tag
    and with one more key. *)
Definition no_display : Resource :=
  observation [] [VDict (list_to_map [("code", VStr "8867-4")])] "u7".

Definition three_codings : Resource :=
  stamped [loinc_heart_rate; healthkit_heart_rate; VNum 1].

Definition retagged : Resource :=
  {| resource_type := TagStr "Patient";
     dict := <["status" := VStr "final"]> (dict undated);
     subject := subject undated |}.

(** A visualizer whose range ends on a day that does not exist. *)
Definition bad_end : DataVisualizer :=
  set_date_range (VStr "2024-01-01") (VStr "2024-02-30") DataVisualizer_init.

(** A frame whose LoincCode cells are all missing. *)
Definition no_codes_frame : FHIRDataFrame :=
  {| data_frame :=
       pd.setitem (data_frame mixed_frame) "LoincCode"
         (mkSeries DObject [Cell VNone; Cell VNone]);
     frame_resource_type := OBSERVATION |}.

(** Two records with the same subject and the same entries under the four
    keys the flattener reads. *)
Definition same_inputs (r r' : Resource) : Prop :=
  subject r = subject r' /\
  forall k, k ∈ ["effectiveDateTime"; "effectivePeriod"; "code"; "valueQuantity"] ->
            dict r !! k = dict r' !! k.

(** The columns other than the date and the value column. *)
Definition string_field (c : ColumnNames) : Prop :=
  c <> EFFECTIVE_DATE_TIME /\ c <> QUANTITY_VALUE.

(** Two visualizers with the same user filter, Y bounds, combine flag and
    resolution. *)
Definition same_settings (a b : DataVisualizer) : Prop :=
  user_ids b = user_ids a /\ y_lower b = y_lower a /\ y_upper b = y_upper a /\
  combine_plots b = combine_plots a /\ dpi b = dpi a.

(** A date field after a plot call: left as it was, or, if it was truthy,
    replaced by a date. *)
Definition parsed_or_kept (before after : value) : Prop :=
  after = before \/ (Py.truthy before = true /\ exists d, after = VDate d).

(** * Properties *)

(** ** The [result] monad and [mapM] *)

Lemma bind_Ok_inv {A B : Type} (m : result A) (k : A -> result B) (b : B) :
  m ≫= k = Ok b -> exists a, m = Ok a /\ k a = Ok b.
Proof. destruct m as [a|e]; [eauto | discriminate]. Qed.

Section ResultMonad.
Context {A B : Type}.
Implicit Types (f : A -> result B) (l : list A).

Lemma mapM_cons f x l :
  mapM f (x :: l) = y ← f x; ys ← mapM f l; Ok (y :: ys).
Proof. reflexivity. Qed.

Lemma mapM_Ok f l (ys : list B) :
  mapM f l = Ok ys <-> Forall2 (fun x y => f x = Ok y) l ys.
Proof.
  revert ys. induction l as [|x l IH]; intros ys.
  - split.
    + intros [= <-]. constructor.
    + intros Hall. inversion Hall. reflexivity.
  - rewrite mapM_cons. split.
    + intros Hm. apply bind_Ok_inv in Hm as (y & Hy & Hm).
      destruct (mapM f l) as [zs|e] eqn:Hl; [|discriminate].
      injection Hm as <-. constructor; [exact Hy | by apply IH].
    + intros Hall. inversion Hall as [|? y ? zs Hy Hrest]; subst.
      apply IH in Hrest. rewrite Hy. simpl. rewrite Hrest. reflexivity.
Qed.

Lemma mapM_is_ok f l :
  Forall (fun x => is_ok (f x) = true) l -> exists ys, mapM f l = Ok ys.
Proof.
  induction 1 as [|x l Hx _ [ys IH]]; [by exists []|].
  rewrite mapM_cons. destruct (f x) as [y|]; [|discriminate].
  simpl. rewrite IH. eauto.
Qed.

(** The loop stops at the first element that raises. *)
Lemma mapM_Raise_first f (pre : list A) x (post : list A) e :
  Forall (fun x => is_ok (f x) = true) pre ->
  f x = Raise e ->
  mapM f (pre ++ x :: post) = Raise e.
Proof.
  intros Hpre Hx. induction Hpre as [|p pre Hp _ IH]; cbn [app].
  - rewrite mapM_cons, Hx. reflexivity.
  - rewrite mapM_cons. destruct (f p); [|discriminate].
    simpl. rewrite IH. reflexivity.
Qed.

Lemma mapM_Exists_Raise f l :
  Exists (fun x => is_ok (f x) = false) l -> exists e, mapM f l = Raise e.
Proof.
  induction l as [|x l IH]; intros Hex; [inversion Hex|].
  rewrite mapM_cons. destruct (f x) as [y|e] eqn:Hx; [|by exists e].
  inversion Hex as [? ? Hbad|? ? Hbad]; subst.
  - rewrite Hx in Hbad. discriminate.
  - destruct (IH Hbad) as [e He]. simpl. rewrite He. by exists e.
Qed.

Lemma mapM_length f l (ys : list B) : mapM f l = Ok ys -> length ys = length l.
Proof. intros Hm. apply mapM_Ok in Hm. symmetry. by eapply Forall2_length. Qed.

End ResultMonad.

(** ** What [flatten] builds *)

Section FlattenFacts.
Context `{Pandas}.

Lemma DataFrame_of_lookup (rows : list FlattenedEntry) (c : ColumnNames) :
  rows <> [] ->
  pd.lookup_column (DataFrame_of rows) (ColumnNames_value c)
  = Some (column_of (field_of c) rows).
Proof. destruct rows; [done|]. intros _. by destruct c. Qed.

Lemma DataFrame_of_columns (rows : list FlattenedEntry) :
  rows <> [] ->
  pd.columns (DataFrame_of rows)
  = ColumnNames_value <$> default [] (resource_columns OBSERVATION).
Proof. destruct rows; [done|]. reflexivity. Qed.

(** After the loop, [flatten] is the parse of the column of the entries'
    timestamps followed by the construction of the frame. *)
Lemma flatten_after_loop (resources : list Resource) (rows : list FlattenedEntry) :
  mapM flatten_entry resources = Ok rows -> rows <> [] ->
  flatten resources
  = dates ← to_datetime_date (Cell <$> (EffectiveDateTime <$> rows));
    Ok (mkFHIRDataFrame (flattened_table rows dates) OBSERVATION).
Proof.
  unfold flatten. intros -> Hne. destruct rows; [done|].
  cbn [mbind result_bind]. unfold to_date_series.
  change (values (column_of EffectiveDateTime ?l))
    with (Cell <$> (EffectiveDateTime <$> l)).
  cbn. by destruct (to_datetime_date _).
Qed.

Lemma flatten_Ok_inv (resources : list Resource) (f : FHIRDataFrame) :
  flatten resources = Ok f ->
  exists rows dates,
    mapM flatten_entry resources = Ok rows /\ rows <> [] /\
    to_datetime_date (Cell <$> (EffectiveDateTime <$> rows)) = Ok dates /\
    f = mkFHIRDataFrame (flattened_table rows dates) OBSERVATION.
Proof.
  intros Hf.
  destruct (mapM flatten_entry resources) as [rows|e] eqn:Hrows.
  - destruct (decide (rows = [])) as [->|Hne].
    { unfold flatten in Hf. rewrite Hrows in Hf. discriminate. }
    rewrite (flatten_after_loop _ _ Hrows Hne) in Hf.
    apply bind_Ok_inv in Hf as (dates & Hdates & [= <-]).
    by exists rows, dates.
  - unfold flatten in Hf. rewrite Hrows in Hf. discriminate.
Qed.

Lemma flatten_Ok_intro (resources : list Resource) (rows : list FlattenedEntry)
    (dates : list (option Date)) :
  mapM flatten_entry resources = Ok rows -> rows <> [] ->
  to_datetime_date (Cell <$> (EffectiveDateTime <$> rows)) = Ok dates ->
  flatten resources = Ok (mkFHIRDataFrame (flattened_table rows dates) OBSERVATION).
Proof.
  intros Hrows Hne Hdates. rewrite (flatten_after_loop _ _ Hrows Hne), Hdates.
  reflexivity.
Qed.

(** What the parse of the column raises, [flatten] raises. *)
Lemma flatten_parse_Raise (resources : list Resource) (rows : list FlattenedEntry)
    (e : exn) :
  mapM flatten_entry resources = Ok rows -> rows <> [] ->
  to_datetime_date (Cell <$> (EffectiveDateTime <$> rows)) = Raise e ->
  flatten resources = Raise e.
Proof.
  intros Hrows Hne Hdates. rewrite (flatten_after_loop _ _ Hrows Hne), Hdates.
  reflexivity.
Qed.

Lemma flattened_table_lookup (rows : list FlattenedEntry) (dates : list (option Date))
    (c : ColumnNames) :
  rows <> [] ->
  pd.lookup_column (flattened_table rows dates) (ColumnNames_value c)
  = Some (if bool_decide (c = EFFECTIVE_DATE_TIME)
          then date_series dates
          else column_of (field_of c) rows).
Proof. destruct rows; [done|]. intros _. by destruct c. Qed.

Lemma flattened_table_columns (rows : list FlattenedEntry) (dates : list (option Date)) :
  rows <> [] ->
  pd.columns (flattened_table rows dates)
  = ColumnNames_value <$> default [] (resource_columns OBSERVATION).
Proof. destruct rows; [done|]. reflexivity. Qed.

Lemma frame_cell_flattened (rows : list FlattenedEntry) (dates : list (option Date))
    (c : ColumnNames) (i : nat) :
  rows <> [] -> c <> EFFECTIVE_DATE_TIME ->
  frame_cell (mkFHIRDataFrame (flattened_table rows dates) OBSERVATION) c i
  = Cell <$> (field_of c <$> rows !! i).
Proof.
  intros Hne Hc. unfold frame_cell, df. cbn [data_frame].
  rewrite flattened_table_lookup by done.
  rewrite bool_decide_eq_false_2 by done.
  cbn. by rewrite !list_lookup_fmap.
Qed.

End FlattenFacts.

(** ** The coding columns *)

Ltac bind_inv H :=
  repeat (let a := fresh "a" in
          let Ha := fresh "Ha" in
          apply bind_Ok_inv in H as (a & Ha & H)).

Lemma coding_at_is_coding (coding : list value) (i : nat) (e c d : value) :
  coding !! i = Some e -> is_coding e c d ->
  coding_at (VList coding) i "code" = Ok c /\
  coding_at (VList coding) i "display" = Ok d.
Proof.
  intros Hi (m & -> & Hc & Hd). unfold coding_at. cbn. rewrite Hi. cbn.
  unfold Py.dict_getitem. by rewrite Hc, Hd.
Qed.

(** The four coding fields of one flattened entry. *)
Lemma flatten_entry_coding (observation : Resource) (row : FlattenedEntry)
    (coding : list value) :
  flatten_entry observation = Ok row ->
  coding_of observation = Ok (VList coding) ->
  match coding with
  | [] =>
      LoincCode row = VStr "" /\ Display row = VStr "" /\
      AppleHealthKitCode row = VStr "" /\ QuantityName row = VStr ""
  | [e] =>
      forall c d, is_coding e c d ->
        LoincCode row = c /\ Display row = d /\
        AppleHealthKitCode row = c /\ QuantityName row = d
  | e1 :: e2 :: _ =>
      forall c1 d1 c2 d2, is_coding e1 c1 d1 -> is_coding e2 c2 d2 ->
        LoincCode row = c1 /\ Display row = d1 /\
        AppleHealthKitCode row = c2 /\ QuantityName row = d2
  end.
Proof.
  unfold flatten_entry. intros Hrow Hcoding.
  apply bind_Ok_inv in Hrow as (stamp & _ & Hrow).
  rewrite Hcoding in Hrow. cbn [mbind result_bind] in Hrow.
  apply bind_Ok_inv in Hrow as (loinc & Hloinc & Hrow).
  apply bind_Ok_inv in Hrow as (display & Hdisplay & Hrow).
  apply bind_Ok_inv in Hrow as (healthkit & Hhealthkit & Hrow).
  apply bind_Ok_inv in Hrow as (name & Hname & Hrow).
  bind_inv Hrow. injection Hrow as <-. cbn [LoincCode Display AppleHealthKitCode QuantityName].
  destruct coding as [|e1 [|e2 rest]].
  - unfold if_len_gt in *. cbn [Py.len length mbind result_bind] in *.
    rewrite bool_decide_eq_false_2 in Hloinc by lia.
    rewrite bool_decide_eq_false_2 in Hdisplay by lia.
    rewrite !bool_decide_eq_false_2 in Hhealthkit by lia.
    rewrite !bool_decide_eq_false_2 in Hname by lia.
    by simplify_eq.
  - intros c d He.
    destruct (coding_at_is_coding [e1] 0 e1 c d eq_refl He) as [Hc Hd].
    unfold if_len_gt in *. cbn [Py.len length mbind result_bind] in *.
    rewrite bool_decide_eq_true_2 in Hloinc by lia.
    rewrite bool_decide_eq_true_2 in Hdisplay by lia.
    rewrite bool_decide_eq_false_2, bool_decide_eq_true_2 in Hhealthkit by lia.
    rewrite bool_decide_eq_false_2, bool_decide_eq_true_2 in Hname by lia.
    repeat split; congruence.
  - intros c1 d1 c2 d2 He1 He2.
    destruct (coding_at_is_coding (e1 :: e2 :: rest) 0 e1 c1 d1 eq_refl He1) as [Hc1 Hd1].
    destruct (coding_at_is_coding (e1 :: e2 :: rest) 1 e2 c2 d2 eq_refl He2) as [Hc2 Hd2].
    unfold if_len_gt in *. cbn [Py.len length mbind result_bind] in *.
    rewrite bool_decide_eq_true_2 in Hloinc by lia.
    rewrite bool_decide_eq_true_2 in Hdisplay by lia.
    rewrite bool_decide_eq_true_2 in Hhealthkit by lia.
    rewrite bool_decide_eq_true_2 in Hname by lia.
    repeat split; congruence.
Qed.

(** C1. In the frame [flatten] returns, the row of a record whose coding
    list is empty holds the empty string in LoincCode, Display,
    AppleHealthKitCode and QuantityName; with one entry [{c, d}] it holds
    [c, d, c, d]; with a first entry [{c1, d1}] and a second [{c2, d2}] it
    holds [c1, d1, c2, d2]. *)
Theorem flatten_coding_columns `{Pandas} (resources : list Resource)
    (f : FHIRDataFrame) (i : nat) (observation : Resource) (coding : list value) :
  flatten resources = Ok f ->
  resources !! i = Some observation ->
  coding_of observation = Ok (VList coding) ->
  match coding with
  | [] => coding_cells f i = cells_are (VStr "") (VStr "") (VStr "") (VStr "")
  | [e] => forall c d, is_coding e c d -> coding_cells f i = cells_are c d c d
  | e1 :: e2 :: _ =>
      forall c1 d1 c2 d2, is_coding e1 c1 d1 -> is_coding e2 c2 d2 ->
        coding_cells f i = cells_are c1 d1 c2 d2
  end.
Proof.
  intros Hf Hi Hcoding.
  apply flatten_Ok_inv in Hf as (rows & dates & Hrows & Hne & _ & ->).
  apply mapM_Ok in Hrows.
  destruct (Forall2_lookup_l _ _ _ _ _ Hrows Hi) as (row & Hrow & Hentry).
  pose proof (flatten_entry_coding _ _ _ Hentry Hcoding) as Hfields.
  assert (Hcells : coding_cells
                     (mkFHIRDataFrame (flattened_table rows dates) OBSERVATION) i
                   = cells_are (LoincCode row) (Display row)
                       (AppleHealthKitCode row) (QuantityName row)).
  { unfold coding_cells, cells_are.
    rewrite !frame_cell_flattened by done. by rewrite Hrow. }
  rewrite Hcells. destruct coding as [|e1 [|e2 rest]].
  - by destruct Hfields as (-> & -> & -> & ->).
  - intros c d He. by destruct (Hfields c d He) as (-> & -> & -> & ->).
  - intros c1 d1 c2 d2 He1 He2.
    by destruct (Hfields c1 d1 c2 d2 He1 He2) as (-> & -> & -> & ->).
Qed.

(** ** Well-formed batches *)

Lemma wf_effective_ok (r : Resource) :
  wf_effective (dict r) = true -> exists v, effective_datetime r = Ok v.
Proof.
  unfold wf_effective, effective_datetime, Py.dict_get.
  intros [_ Hperiod]%andb_prop.
  destruct (negb _); [|eauto].
  destruct (dict r !! "effectivePeriod") as [[]|]; cbn in *; try discriminate; eauto.
Qed.

Lemma wf_code_ok (r : Resource) :
  wf_code (dict r) = true ->
  exists l, coding_of r = Ok (VList l) /\ forallb wf_coding_entry l = true.
Proof.
  unfold wf_code, coding_of, Py.dict_getitem.
  destruct (dict r !! "code") as [[| | | | |c]|]; cbn; try discriminate.
  unfold Py.dict_getitem.
  destruct (c !! "coding") as [[| | | |l|]|]; cbn; try discriminate. eauto.
Qed.

Lemma wf_coding_at (l : list value) (i : nat) (k : string) :
  forallb wf_coding_entry l = true -> i < length l ->
  k = "code" \/ k = "display" ->
  exists v, coding_at (VList l) i k = Ok v.
Proof.
  intros Hall Hi Hk. apply lookup_lt_is_Some_2 in Hi as [e He].
  rewrite forallb_forall in Hall.
  assert (Hin : In e l) by (apply list_elem_of_In; by eapply list_elem_of_lookup_2).
  specialize (Hall e Hin). unfold coding_at. cbn. rewrite He. cbn.
  destruct e as [| | | | |m]; try discriminate. cbn in Hall |- *.
  apply andb_prop in Hall as [Hc Hd]. unfold Py.dict_getitem.
  destruct Hk as [-> | ->].
  - destruct (m !! "code"); [eauto | discriminate].
  - destruct (m !! "display"); [eauto | discriminate].
Qed.

Lemma wf_if_len_gt (l : list value) (i : nat) (k : string) (b : result value) :
  forallb wf_coding_entry l = true -> k = "code" \/ k = "display" ->
  (exists v, b = Ok v) ->
  exists v, if_len_gt (VList l) i (coding_at (VList l) i k) b = Ok v.
Proof.
  intros Hall Hk Hb. unfold if_len_gt. cbn [Py.len mbind result_bind].
  case_bool_decide; [by apply wf_coding_at | exact Hb].
Qed.

Lemma wf_quantity_ok (d : gmap string value) :
  wf_quantity d = true ->
  exists q u v, Py.dict_getitem d "valueQuantity" = Ok q /\
    Py.getitem q "unit" = Ok u /\ Py.getitem q "value" = Ok v.
Proof.
  unfold wf_quantity, Py.dict_getitem.
  destruct (d !! "valueQuantity") as [[| | | | |q]|]; cbn; try discriminate.
  intros [Hu Hv]%andb_prop. unfold Py.dict_getitem.
  destruct (q !! "unit") as [u|] eqn:Eu; [|discriminate].
  destruct (q !! "value") as [v|] eqn:Ev; [|discriminate].
  exists (VDict q), u, v. cbn. unfold Py.dict_getitem. by rewrite Eu, Ev.
Qed.

(** A record that meets the input contract flattens to one entry. *)
Lemma flatten_entry_well_formed (r : Resource) :
  well_formed r = true -> is_ok (flatten_entry r) = true.
Proof.
  unfold well_formed.
  intros [[[Heff Hcode]%andb_prop Hsubj]%andb_prop Hq]%andb_prop.
  unfold flatten_entry.
  destruct (wf_effective_ok _ Heff) as [stamp ->].
  destruct (wf_code_ok _ Hcode) as (l & -> & Hall).
  cbn [mbind result_bind].
  destruct (wf_if_len_gt l 0 "code" (Ok (VStr "")) Hall) as [c0 Hc0]; [auto | eauto |].
  destruct (wf_if_len_gt l 0 "display" (Ok (VStr "")) Hall) as [d0 Hd0]; [auto | eauto |].
  destruct (wf_if_len_gt l 1 "code" _ Hall (or_introl eq_refl) (ex_intro _ c0 Hc0))
    as [c1 ->].
  destruct (wf_if_len_gt l 1 "display" _ Hall (or_intror eq_refl) (ex_intro _ d0 Hd0))
    as [d1 ->].
  rewrite Hc0, Hd0. cbn [mbind result_bind].
  unfold wf_subject in Hsubj. destruct (subject r); [|discriminate].
  cbn [mbind result_bind].
  destruct (wf_quantity_ok _ Hq) as (q & u & v & -> & Hu & Hv).
  cbn [mbind result_bind]. rewrite Hu. cbn [mbind result_bind].
  rewrite Hv. reflexivity.
Qed.

(** ** The date column *)

Lemma flatten_entry_stamp (r : Resource) (row : FlattenedEntry) :
  flatten_entry r = Ok row -> EffectiveDateTime row = chosen_stamp r.
Proof.
  unfold flatten_entry. intros Hrow.
  apply bind_Ok_inv in Hrow as (stamp & Hstamp & Hrow).
  bind_inv Hrow. injection Hrow as <-. cbn [EffectiveDateTime].
  revert Hstamp. unfold effective_datetime, chosen_stamp, Py.dict_get.
  destruct (dict r !! "effectiveDateTime") as [direct|];
    cbn [default from_option id].
  - destruct (Py.truthy direct) eqn:Hd; cbn [negb].
    + intros [= <-]. by rewrite Hd.
    + destruct (dict r !! "effectivePeriod") as [[| | | | |p]|]; cbn;
        try discriminate.
      * intros [= <-]. unfold Py.dict_get. by destruct (p !! "start").
      * intros [= <-]. reflexivity.
  - cbn [Py.truthy negb].
    destruct (dict r !! "effectivePeriod") as [[| | | | |p]|]; cbn;
      try discriminate.
    + intros [= <-]. unfold Py.dict_get. by destruct (p !! "start").
    + intros [= <-]. reflexivity.
Qed.

Lemma effective_datetime_absent (r : Resource) :
  dict r !! "effectiveDateTime" = None ->
  dict r !! "effectivePeriod" = None ->
  effective_datetime r = Ok VNone.
Proof.
  intros Hd Hp. unfold effective_datetime, Py.dict_get. by rewrite Hd, Hp.
Qed.

Lemma date_cell_date_or_missing (o : option Date) : date_or_missing (date_cell o).
Proof. destruct o as [d|]; [right; by exists d | by left]. Qed.

Lemma flattened_stamps (resources : list Resource) (rows : list FlattenedEntry) :
  Forall2 (fun r row => flatten_entry r = Ok row) resources rows ->
  EffectiveDateTime <$> rows = chosen_stamp <$> resources.
Proof.
  induction 1 as [|r row resources rows Hrow _ IH]; [reflexivity|].
  cbn. f_equal; [by apply flatten_entry_stamp | exact IH].
Qed.

Section FlattenBatch.
Context `{Pandas}.

Lemma date_series_length (dates : list (option Date)) :
  length (values (date_series dates)) = length dates.
Proof. cbn. by rewrite length_fmap. Qed.

Lemma column_of_length (field : FlattenedEntry -> value) (rows : list FlattenedEntry) :
  length (values (column_of field rows)) = length rows.
Proof. cbn. by rewrite !length_fmap. Qed.

Lemma flattened_table_cons (r : FlattenedEntry) (rows : list FlattenedEntry)
    (dates : list (option Date)) :
  flattened_table (r :: rows) dates
  = [ ("UserId", column_of UserId (r :: rows));
      ("EffectiveDateTime", date_series dates);
      ("QuantityName", column_of QuantityName (r :: rows));
      ("QuantityUnit", column_of QuantityUnit (r :: rows));
      ("QuantityValue", column_of QuantityValue (r :: rows));
      ("LoincCode", column_of LoincCode (r :: rows));
      ("Display", column_of Display (r :: rows));
      ("AppleHealthKitCode", column_of AppleHealthKitCode (r :: rows)) ].
Proof. reflexivity. Qed.

(** Every column of the flattened table has one cell per entry. *)
Lemma flattened_table_length (rows : list FlattenedEntry) (dates : list (option Date))
    (c : string) (s : Series) :
  rows <> [] -> length dates = length rows ->
  pd.lookup_column (flattened_table rows dates) c = Some s ->
  length (values s) = length rows.
Proof.
  destruct rows as [|r rows]; [done|]. intros _ Hdates.
  rewrite flattened_table_cons. cbn [pd.lookup_column].
  repeat (destruct (String.eqb _ c);
          [intros [= <-];
           first [apply column_of_length
                 | by rewrite date_series_length]|]).
  discriminate.
Qed.

(** The date column of a returned frame: the parse of the column of the
    records' chosen timestamps, one cell per record, each a date or a
    missing value. *)
Lemma flatten_date_column (resources : list Resource) (f : FHIRDataFrame) :
  flatten resources = Ok f ->
  exists dates,
    to_datetime_date (Cell <$> (chosen_stamp <$> resources)) = Ok dates /\
    length dates = length resources /\
    pd.lookup_column (df f) "EffectiveDateTime" = Some (date_series dates) /\
    Forall date_or_missing (values (date_series dates)).
Proof.
  intros Hf.
  apply flatten_Ok_inv in Hf as (rows & dates & Hrows & Hne & Hdates & ->).
  apply mapM_Ok in Hrows.
  rewrite (flattened_stamps resources rows Hrows) in Hdates.
  exists dates. split; [exact Hdates|]. split.
  { apply to_datetime_date_length in Hdates. by rewrite Hdates, !length_fmap. }
  split.
  { unfold df. cbn [data_frame].
    by rewrite (flattened_table_lookup rows dates EFFECTIVE_DATE_TIME). }
  cbn. apply Forall_fmap, Forall_true. intros o. apply date_cell_date_or_missing.
Qed.

(** A batch of N >= 1 records that meet the input contract, on which the
    parse of the date column returns, flattens to a frame of kind
    Observation with exactly the eight Observation columns, N cells in each
    column, and row [i] built from record [i]. *)
Lemma flatten_well_formed_shape (resources : list Resource)
    (dates : list (option Date)) :
  resources <> [] ->
  Forall (fun r => well_formed r = true) resources ->
  to_datetime_date (Cell <$> (chosen_stamp <$> resources)) = Ok dates ->
  exists f rows,
    flatten resources = Ok f /\
    frame_resource_type f = OBSERVATION /\
    pd.columns (df f) = observation_columns /\
    (forall c s, pd.lookup_column (df f) c = Some s ->
                 length (values s) = length resources) /\
    Forall2 (fun r row => flatten_entry r = Ok row) resources rows /\
    (forall c i, c <> EFFECTIVE_DATE_TIME ->
                 frame_cell f c i = Cell <$> (field_of c <$> rows !! i)) /\
    (forall i, frame_cell f EFFECTIVE_DATE_TIME i = date_cell <$> dates !! i).
Proof.
  intros Hne Hwf Hdates.
  destruct (mapM_is_ok flatten_entry resources) as [rows Hrows].
  { eapply Forall_impl; [exact Hwf|]. apply flatten_entry_well_formed. }
  assert (Hlen : length rows = length resources) by by eapply mapM_length.
  assert (Hrows_ne : rows <> []).
  { intros ->. destruct resources; [done | discriminate]. }
  assert (Hall : Forall2 (fun r row => flatten_entry r = Ok row) resources rows)
    by by apply mapM_Ok.
  rewrite <- (flattened_stamps resources rows Hall) in Hdates.
  exists (mkFHIRDataFrame (flattened_table rows dates) OBSERVATION), rows.
  split; [by apply flatten_Ok_intro|].
  split; [reflexivity|].
  split; [by apply flattened_table_columns|].
  split.
  { intros c s Hs. rewrite <- Hlen.
    eapply flattened_table_length; [done| |exact Hs].
    apply to_datetime_date_length in Hdates. by rewrite Hdates, !length_fmap. }
  split; [exact Hall|].
  split; [intros c i Hc; by apply frame_cell_flattened|].
  intros i. unfold frame_cell, df. cbn [data_frame].
  rewrite (flattened_table_lookup rows dates EFFECTIVE_DATE_TIME) by done.
  rewrite bool_decide_eq_true_2 by done.
  change (Some (date_series dates) ≫= (fun s => values s !! i))
    with ((date_cell <$> dates) !! i).
  apply list_lookup_fmap.
Qed.

(** On such a batch, what the parse of the date column raises is what
    [flatten] raises. *)
Lemma flatten_well_formed_Raise (resources : list Resource) (e : exn) :
  resources <> [] ->
  Forall (fun r => well_formed r = true) resources ->
  to_datetime_date (Cell <$> (chosen_stamp <$> resources)) = Raise e ->
  flatten resources = Raise e.
Proof.
  intros Hne Hwf Hdates.
  destruct (mapM_is_ok flatten_entry resources) as [rows Hrows].
  { eapply Forall_impl; [exact Hwf|]. apply flatten_entry_well_formed. }
  assert (Hrows_ne : rows <> []).
  { intros ->. apply mapM_length in Hrows. destruct resources; [done | discriminate]. }
  assert (Hall : Forall2 (fun r row => flatten_entry r = Ok row) resources rows)
    by by apply mapM_Ok.
  rewrite <- (flattened_stamps resources rows Hall) in Hdates.
  by eapply flatten_parse_Raise.
Qed.

End FlattenBatch.

Lemma two_zones_batch_well_formed :
  Forall (fun r => well_formed r = true) two_zones_batch.
Proof. repeat constructor. Qed.

Lemma two_zones_batch_stamps :
  Cell <$> (chosen_stamp <$> two_zones_batch) = two_zones_column.
Proof. vm_compute. reflexivity. Qed.

(** A well-formed record flattened alone: the date cell of its frame is
    what the parse gives for the one-cell column of its timestamp. *)
Lemma flatten_alone `{Pandas} (r : Resource) (stamp : string) (d : option Date) :
  well_formed r = true ->
  chosen_stamp r = VStr stamp ->
  to_datetime_date [Cell (VStr stamp)] = Ok [d] ->
  exists f, flatten [r] = Ok f /\
            frame_cell f EFFECTIVE_DATE_TIME 0 = Some (date_cell d).
Proof.
  intros Hwf Hstamp Hparse.
  destruct (flatten_well_formed_shape [r] [d])
    as (f & rows & Hf & _ & _ & _ & _ & _ & Hdates);
    [discriminate | by constructor | cbn; by rewrite Hstamp |].
  exists f. split; [exact Hf|]. by rewrite Hdates.
Qed.

(** C2. The parse of the assembled column fails the operation on
    timestamps that parse one by one.  Where pandas parses the timestamp
    of each record of [two_zones_batch] alone and, as it does for
    timestamps with different UTC offsets, raises on the column of both:
    each record flattened alone gives a frame with its date, the loop over
    the batch builds the two rows from the direct timestamps, and the
    parse of the column (lines 346-348) makes [flatten] raise: no frame
    is returned. *)
Theorem two_zones_column_parse_raises `{Pandas} (d1 d2 : option Date) (e : exn) :
  to_datetime_date [Cell (VStr paris_stamp)] = Ok [d1] ->
  to_datetime_date [Cell (VStr athens_stamp)] = Ok [d2] ->
  to_datetime_date two_zones_column = Raise e ->
  (exists f, flatten [stamped_in_paris] = Ok f /\
             frame_cell f EFFECTIVE_DATE_TIME 0 = Some (date_cell d1)) /\
  (exists f, flatten [stamped_in_athens] = Ok f /\
             frame_cell f EFFECTIVE_DATE_TIME 0 = Some (date_cell d2)) /\
  (exists rows, mapM flatten_entry two_zones_batch = Ok rows /\
                EffectiveDateTime <$> rows = [VStr paris_stamp; VStr athens_stamp]) /\
  flatten two_zones_batch = Raise e.
Proof.
  intros Hparis Hathens Hboth.
  split; [by apply (flatten_alone stamped_in_paris paris_stamp)|].
  split; [by apply (flatten_alone stamped_in_athens athens_stamp)|].
  split; [eexists; split; vm_compute; reflexivity|].
  apply flatten_well_formed_Raise;
    [discriminate | exact two_zones_batch_well_formed |].
  by rewrite two_zones_batch_stamps.
Qed.

(** C5. [two_zones_batch] is a batch of N = 2 records that meet the input
    contract, and where pandas raises on the column of their timestamps,
    which carry different UTC offsets, flattening the batch yields no
    frame: [flatten] raises what the parse of the date column raises. *)
Theorem well_formed_batch_not_flattened `{Pandas} (e : exn) :
  to_datetime_date two_zones_column = Raise e ->
  length two_zones_batch = 2 /\
  Forall (fun r => well_formed r = true) two_zones_batch /\
  flatten two_zones_batch = Raise e /\
  forall f, flatten two_zones_batch <> Ok f.
Proof.
  intros Hparse.
  assert (Hflatten : flatten two_zones_batch = Raise e).
  { apply flatten_well_formed_Raise;
      [discriminate | exact two_zones_batch_well_formed |].
    by rewrite two_zones_batch_stamps. }
  split; [reflexivity|]. split; [exact two_zones_batch_well_formed|].
  split; [exact Hflatten|]. intros f. rewrite Hflatten. discriminate.
Qed.

(** ** Records with a missing field *)

Lemma lacks_coding_error (r : Resource) :
  lacks_coding r = true ->
  coding_of r = Raise (KeyError (VStr (match dict r !! "code" with
                                       | None => "code"
                                       | Some _ => "coding"
                                       end))).
Proof.
  unfold lacks_coding, coding_of, Py.dict_getitem.
  destruct (dict r !! "code") as [[| | | | |c]|]; try discriminate; [|done].
  cbn. unfold Py.dict_getitem. by destruct (c !! "coding").
Qed.

Lemma lacks_quantity_error (r : Resource) :
  lacks_quantity r = true ->
  Py.dict_getitem (dict r) "valueQuantity" = Raise (KeyError (VStr "valueQuantity")).
Proof.
  unfold lacks_quantity, Py.dict_getitem.
  by destruct (dict r !! "valueQuantity").
Qed.

(** A record that lacks a required field never flattens. *)
Lemma lacks_required_not_ok (r : Resource) :
  lacks_required r = true -> is_ok (flatten_entry r) = false.
Proof.
  intros Hlacks. unfold flatten_entry.
  destruct (effective_datetime r) as [stamp|]; [cbn [mbind result_bind]|done].
  destruct (coding_of r) as [coding|] eqn:Hcoding; [cbn [mbind result_bind]|done].
  repeat match goal with
         | |- context [mbind _ (if_len_gt ?a ?b ?c ?d)] =>
             destruct (if_len_gt a b c d); [cbn [mbind result_bind]|done]
         end.
  destruct (subject r) eqn:Hsubject; [cbn [mbind result_bind]|done].
  destruct (Py.dict_getitem (dict r) "valueQuantity") eqn:Hq;
    [cbn [mbind result_bind]|done].
  exfalso. unfold lacks_required in Hlacks.
  apply orb_prop in Hlacks as [[Hc | Hv]%orb_prop | Hs].
  - apply lacks_coding_error in Hc. congruence.
  - apply lacks_quantity_error in Hv. congruence.
  - unfold lacks_subject in Hs. rewrite Hsubject in Hs. discriminate.
Qed.

Lemma coding_fields_ok (l : list value) :
  forallb wf_coding_entry l = true ->
  exists c0 d0 c1 d1,
    if_len_gt (VList l) 0 (coding_at (VList l) 0 "code") (Ok (VStr "")) = Ok c0 /\
    if_len_gt (VList l) 0 (coding_at (VList l) 0 "display") (Ok (VStr "")) = Ok d0 /\
    if_len_gt (VList l) 1 (coding_at (VList l) 1 "code")
      (if_len_gt (VList l) 0 (coding_at (VList l) 0 "code") (Ok (VStr ""))) = Ok c1 /\
    if_len_gt (VList l) 1 (coding_at (VList l) 1 "display")
      (if_len_gt (VList l) 0 (coding_at (VList l) 0 "display") (Ok (VStr ""))) = Ok d1.
Proof.
  intros Hall.
  destruct (wf_if_len_gt l 0 "code" (Ok (VStr "")) Hall) as [c0 Hc0]; [auto | eauto |].
  destruct (wf_if_len_gt l 0 "display" (Ok (VStr "")) Hall) as [d0 Hd0]; [auto | eauto |].
  destruct (wf_if_len_gt l 1 "code" _ Hall (or_introl eq_refl) (ex_intro _ c0 Hc0))
    as [c1 Hc1].
  destruct (wf_if_len_gt l 1 "display" _ Hall (or_intror eq_refl) (ex_intro _ d0 Hd0))
    as [d1 Hd1].
  by exists c0, d0, c1, d1.
Qed.

(** The error of a record that is well formed up to the first absent
    field names that field. *)
Lemma flatten_entry_missing_field (r : Resource) (e : exn) :
  wf_effective (dict r) = true ->
  (lacks_coding r = false -> wf_code (dict r) = true) ->
  missing_field_error r = Some e ->
  flatten_entry r = Raise e.
Proof.
  intros Heff Hcode He. unfold flatten_entry.
  destruct (wf_effective_ok _ Heff) as [stamp ->]. cbn [mbind result_bind].
  unfold missing_field_error in He.
  destruct (lacks_coding r) eqn:Hc.
  - rewrite (lacks_coding_error _ Hc). by injection He as <-.
  - destruct (wf_code_ok _ (Hcode eq_refl)) as (l & -> & Hall).
    cbn [mbind result_bind].
    destruct (coding_fields_ok l Hall) as (c0 & d0 & c1 & d1 & -> & -> & -> & ->).
    cbn [mbind result_bind].
    unfold lacks_subject in He. destruct (subject r) as [s|].
    + cbn [mbind result_bind]. destruct (lacks_quantity r) eqn:Hq; [|discriminate].
      rewrite (lacks_quantity_error _ Hq). by injection He as <-.
    + by injection He as <-.
Qed.

Section FailFast.
Context `{Pandas}.

Lemma flatten_Raise (resources : list Resource) (e : exn) :
  mapM flatten_entry resources = Raise e -> flatten resources = Raise e.
Proof. unfold flatten. by intros ->. Qed.

(** C3, amended. A batch that contains a record lacking the coding list,
    the value quantity or the subject reference makes [flatten] raise: no
    frame comes back.  When the records before it flatten and the
    record is well formed up to its first absent field, the exception is
    the lookup error of that field ([KeyError] on [code], [coding] or
    [valueQuantity], [AttributeError] on [id]); it is a function of the
    record alone and carries no position. *)
Theorem flatten_fails_on_missing_field :
  (forall resources : list Resource,
     Exists (fun r => lacks_required r = true) resources ->
     exists e, flatten resources = Raise e) /\
  (forall (pre : list Resource) (r : Resource) (post : list Resource) (e : exn),
     Forall (fun r => is_ok (flatten_entry r) = true) pre ->
     wf_effective (dict r) = true ->
     (lacks_coding r = false -> wf_code (dict r) = true) ->
     missing_field_error r = Some e ->
     flatten (pre ++ r :: post) = Raise e).
Proof.
  split.
  - intros resources Hex.
    destruct (mapM_Exists_Raise flatten_entry resources) as [e He].
    { eapply Exists_impl; [exact Hex|]. apply lacks_required_not_ok. }
    exists e. by apply flatten_Raise.
  - intros pre r post e Hpre Heff Hcode He.
    apply flatten_Raise, mapM_Raise_first; [exact Hpre|].
    by apply flatten_entry_missing_field.
Qed.

End FailFast.

(** C3, as stated, fails: a record without subject raises the same
    exception as the only record of a batch and as the second one, so no
    position can be read off the error. *)
Lemma missing_subject_error_has_no_position :
  flatten (H := iso_pandas) [no_subject] = Raise (AttributeError "id") /\
  flatten (H := iso_pandas) [undated; no_subject] = Raise (AttributeError "id") /\
  ~ error_locates_record (H := iso_pandas).
Proof.
  assert (H1 : flatten (H := iso_pandas) [no_subject] = Raise (AttributeError "id"))
    by (vm_compute; reflexivity).
  assert (H2 : flatten (H := iso_pandas) [undated; no_subject]
               = Raise (AttributeError "id"))
    by (vm_compute; reflexivity).
  split; [exact H1|]. split; [exact H2|].
  intros [position Hpos].
  destruct (Hpos [] no_subject []) as (e1 & He1 & Hp1);
    [constructor | vm_compute; reflexivity |].
  destruct (Hpos [undated] no_subject []) as (e2 & He2 & Hp2);
    [repeat constructor | vm_compute; reflexivity |].
  cbn [app] in He1, He2. rewrite H1 in He1. rewrite H2 in He2.
  injection He1 as <-. injection He2 as <-.
  rewrite Hp1 in Hp2. discriminate.
Qed.

(** ** Dispatch *)

Section Dispatch.
Context `{Pandas}.

(** C8. On the empty batch the dispatch function prints its notice and
    returns [None]; it does not raise. *)
Theorem flatten_fhir_resources_empty :
  flatten_fhir_resources [] = (["No data available."], Ok None).
Proof. reflexivity. Qed.

(** A string that is not ["Observation"] finds no flattener, and building
    the message of the intended [ValueError] reads [.name] off the string:
    what is raised is [AttributeError]. *)
Lemma dispatch_unregistered_string (s : string) (first : Resource)
    (rest : list Resource) :
  resource_type first = TagStr s -> s <> "Observation" ->
  flatten_fhir_resources (first :: rest) = ([], Raise (AttributeError "name")).
Proof.
  intros Htag Hs. unfold flatten_fhir_resources. rewrite Htag.
  cbn [flattener_classes FHIRResourceType_value].
  destruct (String.eqb s "Observation") eqn:Heq; [|reflexivity].
  apply String.eqb_eq in Heq. contradiction.
Qed.

(** A member of the enumeration is no key of [flattener_classes], not even
    [OBSERVATION]: for such a tag the [ValueError] is raised, whatever the
    kind. *)
Lemma dispatch_enum_tag (k : FHIRResourceType) (first : Resource)
    (rest : list Resource) :
  resource_type first = TagEnum k ->
  flatten_fhir_resources (first :: rest)
  = ([], Raise (ValueError ("No flattener found for resource type: "
                            ++ FHIRResourceType_name k))).
Proof. intros Htag. unfold flatten_fhir_resources. by rewrite Htag. Qed.

(** A batch tagged with the string ["Observation"] is handed to the
    Observation flattener. *)
Lemma dispatch_observation (first : Resource) (rest : list Resource) :
  resource_type first = TagStr "Observation" ->
  flatten_fhir_resources (first :: rest)
  = ([], f ← flatten (first :: rest); Ok (Some f)).
Proof. intros Htag. unfold flatten_fhir_resources. by rewrite Htag. Qed.

End Dispatch.

(** C4. The registry has a schema for QuestionnaireResponse, no flattener
    is registered for it, and dispatching a batch of such records raises
    [AttributeError] (the string tag has no [name]) where the claim and the
    function's docstring promise the unsupported-kind [ValueError]. *)
Theorem questionnaire_response_dispatch :
  resource_columns QUESTIONNAIRE_RESPONSE
  = Some [USER_ID; EFFECTIVE_DATE_TIME; QUANTITY_NAME; QUANTITY_VALUE; LOINC_CODE] /\
  flattener_classes (resource_type questionnaire_response) = None /\
  flatten_fhir_resources (H := iso_pandas) [questionnaire_response]
  = ([], Raise (AttributeError "name")).
Proof. by repeat split. Qed.

(** ** Validation of a frame *)

Lemma lookup_column_Some (t : DataFrame) (c : string) :
  c ∈ pd.columns t <-> is_Some (pd.lookup_column t c).
Proof.
  unfold pd.columns. induction t as [|[n s] t IH]; cbn.
  - split; [by intros ?%elem_of_nil | by intros [? ?]].
  - destruct (String.eqb n c) eqn:Heq.
    + apply String.eqb_eq in Heq as ->. split; [eauto | intros _; left].
    + apply String.eqb_neq in Heq. rewrite elem_of_cons, IH.
      split; [intros [?|?]; [congruence | done] | by right].
Qed.

Lemma has_column_true (t : DataFrame) (c : string) :
  pd.has_column t c = true <-> is_Some (pd.lookup_column t c).
Proof.
  unfold pd.has_column. rewrite bool_decide_eq_true. apply lookup_column_Some.
Qed.

Lemma string_or_object_dtype (s : Series) :
  pd.is_string_dtype s || pd.is_object_dtype s = true
  <-> dtype s = DObject \/ dtype s = DString.
Proof.
  unfold pd.is_string_dtype, pd.is_object_dtype.
  destruct (dtype s); cbn; rewrite ?orb_true_r; split; intros; auto;
    try discriminate; by destruct_or!.
Qed.

(** The check of one column raises exactly when the column is there with
    a dtype that is neither string nor object. *)
Lemma check_string_column_Raise (f : FHIRDataFrame) (c : string) (e : exn) :
  check_string_column f c = Raise e <->
  e = ValueError ("The '" ++ c ++ "' column does not contain strings.") /\
  exists s, pd.lookup_column (df f) c = Some s /\
            dtype s <> DObject /\ dtype s <> DString.
Proof.
  unfold check_string_column, pd.getitem.
  destruct (pd.has_column (df f) c) eqn:Hhas.
  - apply has_column_true in Hhas as [s Hs]. rewrite Hs. cbn [mbind result_bind].
    destruct (pd.is_string_dtype s || pd.is_object_dtype s) eqn:Hd.
    + apply string_or_object_dtype in Hd. split; [discriminate|].
      intros (_ & s' & [= <-] & Ho & Hs'). by destruct Hd.
    + split.
      * intros [= <-]. split; [reflexivity|]. exists s. split; [reflexivity|].
        split; intros Heq;
          (assert (Hok : pd.is_string_dtype s || pd.is_object_dtype s = true)
             by (apply string_or_object_dtype; auto)); congruence.
      * by intros (-> & _).
  - split; [discriminate|]. intros (_ & s & Hs & _).
    assert (Hsome : pd.has_column (df f) c = true)
      by (apply has_column_true; eauto).
    congruence.
Qed.

Lemma check_string_column_is_ok (f : FHIRDataFrame) (c : string) :
  is_ok (check_string_column f c) = true <->
  forall s, pd.lookup_column (df f) c = Some s ->
            dtype s = DObject \/ dtype s = DString.
Proof.
  destruct (check_string_column f c) as [[]|e] eqn:Hc; cbn.
  - split; [intros _ s Hs | done].
    destruct (decide (dtype s = DObject)) as [|Ho]; [by left|].
    destruct (decide (dtype s = DString)) as [|Hs']; [by right|].
    assert (Hr : check_string_column f c
                 = Raise (ValueError ("The '" ++ c ++ "' column does not contain strings."))).
    { apply check_string_column_Raise. eauto. }
    congruence.
  - split; [discriminate|]. intros Hall.
    apply check_string_column_Raise in Hc as (_ & s & Hs & Ho & Hs').
    by destruct (Hall s Hs).
Qed.

Lemma missing_columns_spec (f : FHIRDataFrame) (c : string) :
  c ∈ missing_columns f <-> c ∈ required_columns f /\ c ∉ pd.columns (df f).
Proof.
  unfold missing_columns, pd.has_column.
  rewrite list_elem_of_In, filter_In, <- list_elem_of_In, negb_true_iff,
    bool_decide_eq_false.
  reflexivity.
Qed.

Lemma quantity_value_required (f : FHIRDataFrame) :
  "QuantityValue" ∈ required_columns f.
Proof.
  unfold required_columns. destruct (frame_resource_type f); cbn; set_solver.
Qed.

Lemma missing_only_quantity_value (f : FHIRDataFrame) :
  "QuantityValue" ∉ pd.columns (df f) ->
  (forall c, c ∈ required_columns f -> c ∉ pd.columns (df f) -> c = "QuantityValue") ->
  missing_columns f = ["QuantityValue"].
Proof.
  intros Hqv Honly. unfold missing_columns.
  rewrite (List.filter_ext_in _ (String.eqb "QuantityValue")).
  - unfold required_columns. by destruct (frame_resource_type f).
  - intros c Hc%list_elem_of_In. unfold pd.has_column.
    destruct (String.eqb_spec "QuantityValue" c) as [<-|Hne].
    + by rewrite bool_decide_eq_false_2.
    + rewrite bool_decide_eq_true_2; [reflexivity|].
      destruct (decide (c ∈ pd.columns (df f))) as [|Habs]; [done|].
      by specialize (Honly c Hc Habs).
Qed.

Section Validate.
Context `{PySet}.

(** C6. When a frame lacks required columns, [validate_columns] raises
    the missing-columns [ValueError], whose message lists, in schema
    order, exactly the required columns absent from the table; when
    QuantityValue is the only one, the message names it alone. *)
Theorem validate_columns_missing (f : FHIRDataFrame) :
  (exists c, c ∈ required_columns f /\ c ∉ pd.columns (df f)) ->
  validate_columns f
  = Raise (ValueError ("The DataFrame is missing required columns: "
                       ++ String.concat ", " (missing_columns f))) /\
  (forall c, c ∈ missing_columns f
             <-> c ∈ required_columns f /\ c ∉ pd.columns (df f)) /\
  ((forall c, c ∈ required_columns f -> c ∉ pd.columns (df f) ->
              c = "QuantityValue") ->
   validate_columns f
   = Raise (ValueError "The DataFrame is missing required columns: QuantityValue")).
Proof.
  intros (c & Hreq & Habs).
  assert (Hmiss : c ∈ missing_columns f) by by apply missing_columns_spec.
  assert (Hraise : validate_columns f
    = Raise (ValueError ("The DataFrame is missing required columns: "
                         ++ String.concat ", " (missing_columns f)))).
  { unfold validate_columns. destruct (missing_columns f) eqn:Hm; [|reflexivity].
    by apply elem_of_nil in Hmiss. }
  split; [exact Hraise|]. split; [apply missing_columns_spec|].
  intros Honly. rewrite Hraise.
  assert (c = "QuantityValue") as -> by by apply Honly.
  by rewrite (missing_only_quantity_value f Habs Honly).
Qed.

End Validate.

Lemma mapM_Raise_inv {A B : Type} (f : A -> result B) (l : list A) (e : exn) :
  mapM f l = Raise e -> exists x, x ∈ l /\ f x = Raise e.
Proof.
  induction l as [|x l IH]; [discriminate|].
  rewrite mapM_cons. destruct (f x) as [y|e'] eqn:Hx.
  - cbn [mbind result_bind]. destruct (mapM f l) as [ys|e'']; [discriminate|].
    intros [= <-]. destruct (IH eq_refl) as (x' & Hin & Hx').
    exists x'. split; [by right | exact Hx'].
  - intros [= <-]. exists x. split; [by left | exact Hx].
Qed.

Lemma string_columns_NoDup (f : FHIRDataFrame) : NoDup (string_columns f).
Proof. apply NoDup_list_difference, NoDup_remove_dups. Qed.

Section ValidateStrings.
Context `{PySet}.

Lemma set_iter_string_columns (f : FHIRDataFrame) (c : string) :
  c ∈ set_iter (string_columns f) <-> c ∈ string_columns f.
Proof. by rewrite (set_iter_perm _ (string_columns_NoDup f)). Qed.

Lemma validate_columns_present (f : FHIRDataFrame) :
  missing_columns f = [] -> check_effective_date_time f = Ok () ->
  validate_columns f
  = (_ ← mapM (check_string_column f) (set_iter (string_columns f)); Ok true).
Proof. unfold validate_columns. by intros -> ->. Qed.

(** C7, amended. In a frame with every required column, whose date
    column holds only dates, the string check looks at the dtype of the
    required columns other than the date and the value column: when one
    of them has a dtype that is neither object nor string,
    [validate_columns] raises the does-not-contain-strings [ValueError]
    for such a column (the first one the iteration meets); when all of
    them have the object or the string dtype, it returns [True],
    whatever the cells hold. *)
Theorem validate_columns_string_dtype (f : FHIRDataFrame) :
  missing_columns f = [] ->
  check_effective_date_time f = Ok () ->
  ((exists column s,
      column ∈ string_columns f /\ pd.lookup_column (df f) column = Some s /\
      dtype s <> DObject /\ dtype s <> DString) ->
   exists column s,
     column ∈ string_columns f /\ pd.lookup_column (df f) column = Some s /\
     dtype s <> DObject /\ dtype s <> DString /\
     validate_columns f
     = Raise (ValueError ("The '" ++ column ++ "' column does not contain strings."))) /\
  ((forall column s,
      column ∈ string_columns f -> pd.lookup_column (df f) column = Some s ->
      dtype s = DObject \/ dtype s = DString) ->
   validate_columns f = Ok true).
Proof.
  intros Hmiss Hdates. rewrite (validate_columns_present f Hmiss Hdates). split.
  - intros (column & s & Hin & Hs & Ho & Hstr).
    destruct (mapM_Exists_Raise (check_string_column f)
                (set_iter (string_columns f))) as [e He].
    { apply Exists_exists. exists column.
      split; [by apply set_iter_string_columns|].
      assert (Hr : check_string_column f column
                   = Raise (ValueError ("The '" ++ column
                                        ++ "' column does not contain strings.")))
        by (apply check_string_column_Raise; eauto).
      by rewrite Hr. }
    rewrite He. cbn [mbind result_bind].
    apply mapM_Raise_inv in He as (c' & Hin' & Hc').
    apply check_string_column_Raise in Hc' as (-> & s' & Hs' & Ho' & Hstr').
    exists c', s'. apply set_iter_string_columns in Hin'. done.
  - intros Hall.
    destruct (mapM_is_ok (check_string_column f)
                (set_iter (string_columns f))) as [us ->]; [|reflexivity].
    apply Forall_forall. intros c Hc%set_iter_string_columns.
    apply check_string_column_is_ok. intros s Hs. by apply (Hall c).
Qed.

End ValidateStrings.

(** C7, as stated, fails: the object column [UserId] of [mixed_frame] holds
    a number beside a string, and the frame validates, in whichever order
    the columns are visited. *)
Lemma mixed_object_column_validates :
  pd.lookup_column (df mixed_frame) "UserId"
  = Some (mkSeries DObject [Cell (VNum 1); Cell (VStr "a")]) /\
  forallb pd.is_str [Cell (VNum 1); Cell (VStr "a")] = false /\
  validate_columns (H := ordered_set) mixed_frame = Ok true /\
  validate_columns (H := reversed_set) mixed_frame = Ok true /\
  ~ string_check_reads_values (H := ordered_set).
Proof.
  assert (Hok : validate_columns (H := ordered_set) mixed_frame = Ok true)
    by (vm_compute; reflexivity).
  split; [reflexivity|]. split; [reflexivity|]. split; [exact Hok|].
  split; [vm_compute; reflexivity|].
  intros Hclaim.
  destruct (Hclaim mixed_frame "UserId"
              (mkSeries DObject [Cell (VNum 1); Cell (VStr "a")])) as [msg Hmsg].
  - vm_compute. set_solver.
  - reflexivity.
  - reflexivity.
  - rewrite Hok in Hmsg. discriminate.
Qed.

(** ** The plot operation *)

Section Plot.
Context `{PlotEnv}.

Lemma create_static_plot_not_date (f : FHIRDataFrame) (self : DataVisualizer)
    (dates : Series) (first : cell) :
  pd.lookup_column (df f) "EffectiveDateTime" = Some dates ->
  values dates !! 0 = Some first ->
  pd.isinstance_date first = false ->
  create_static_plot f self
  = (self, ["The date type should be of type date."], Ok None).
Proof.
  intros Hdates Hfirst Hdate.
  unfold create_static_plot, mbind, Method_bind, Method.bind, Method.lift,
    pd.getitem, pd.iloc.
  rewrite Hdates, Hfirst, Hdate. reflexivity.
Qed.

Lemma create_static_plot_several_codes (f : FHIRDataFrame) (self : DataVisualizer)
    (dates codes : Series) (first : cell) (n : nat) :
  pd.lookup_column (df f) "EffectiveDateTime" = Some dates ->
  values dates !! 0 = Some first ->
  pd.isinstance_date first = true ->
  pd.lookup_column (df f) "LoincCode" = Some codes ->
  pd.nunique codes = Ok n -> n <> 1 ->
  create_static_plot f self
  = (self,
     ["Error: More than one unique LoincCode found.Each plot should be based on a single LoincCode."],
     Ok None).
Proof.
  intros Hdates Hfirst Hdate Hcodes Hn Hne.
  unfold create_static_plot, mbind, Method_bind, Method.bind, Method.lift,
    pd.getitem, pd.iloc.
  rewrite Hdates, Hfirst, Hdate, Hcodes, Hn.
  apply Nat.eqb_neq in Hne. rewrite Hne. reflexivity.
Qed.

(** C9, amended. On a frame that has a date column with a first cell,
    the plot operation prints one message, returns [None], leaves the
    visualizer as it was and does not raise, whenever that first cell is
    not a date or the LoincCode column holds more than one distinct
    value. *)
Theorem create_static_plot_rejects (f : FHIRDataFrame) (self : DataVisualizer)
    (dates : Series) (first : cell) :
  pd.lookup_column (df f) "EffectiveDateTime" = Some dates ->
  values dates !! 0 = Some first ->
  pd.isinstance_date first = false \/ several_loinc_codes f ->
  rejects f self.
Proof.
  intros Hdates Hfirst Hcase. unfold rejects.
  destruct (pd.isinstance_date first) eqn:Hdate.
  - destruct Hcase as [|(codes & n & Hcodes & Hn & Hlt)]; [discriminate|].
    eexists. eapply create_static_plot_several_codes; eauto. lia.
  - eexists. by eapply create_static_plot_not_date.
Qed.

End Plot.

(** C9, as stated, fails: [codes_only_frame] holds two distinct LoincCodes
    and has no date column, and the plot operation raises [KeyError]. *)
Lemma plot_without_date_column_raises :
  several_loinc_codes codes_only_frame /\
  create_static_plot (H := plain_env) codes_only_frame DataVisualizer_init
  = (DataVisualizer_init, [], Raise (KeyError (VStr "EffectiveDateTime"))) /\
  ~ plot_guard_on_every_frame (H := plain_env).
Proof.
  assert (Hcodes : several_loinc_codes codes_only_frame).
  { eexists _, 2. split; [reflexivity|]. split; [vm_compute; reflexivity | lia]. }
  assert (Hraise :
    create_static_plot (H := plain_env) codes_only_frame DataVisualizer_init
    = (DataVisualizer_init, [], Raise (KeyError (VStr "EffectiveDateTime"))))
    by reflexivity.
  split; [exact Hcodes|]. split; [exact Hraise|].
  intros Hclaim.
  destruct (Hclaim codes_only_frame DataVisualizer_init (or_intror Hcodes))
    as [msg Hmsg].
  rewrite Hraise in Hmsg. discriminate.
Qed.

Section PlotDates.
Context `{PlotEnv}.

Lemma Method_bind_lift_Ok {A B : Type} (a : A) (k : A -> Method B)
    (self : DataVisualizer) :
  (x ← Method.lift (Ok a); k x) self = k a self.
Proof.
  unfold mbind, Method_bind, Method.bind, Method.lift.
  by destruct (k a self) as [[? ?] ?].
Qed.

Lemma truthy_nonempty (s : string) : s <> "" -> Py.truthy (VStr s) = true.
Proof.
  intros Hs. cbn. apply negb_true_iff, String.eqb_neq. exact Hs.
Qed.

(** Lines 118-121 on a range set as two strings: both fields are
    replaced by the parsed dates. *)
Lemma parse_date_range_strings (self : DataVisualizer) (s1 s2 : string)
    (d1 d2 : Date) :
  start_date self = VStr s1 -> end_date self = VStr s2 ->
  s1 <> "" -> s2 <> "" ->
  strptime_ymd s1 = Some d1 -> strptime_ymd s2 = Some d2 ->
  parse_date_range self
  = (set_date_range (VDate d1) (VDate d2) self, [], Ok ()).
Proof.
  intros Hs He Hn1 Hn2 Hp1 Hp2.
  unfold parse_date_range, mbind, Method_bind, Method.bind, Method.read,
    Method.lift, Method.update, strptime_date.
  rewrite Hs, (truthy_nonempty s1 Hn1), Hp1.
  cbn [set_start_date set_date_range end_date start_date].
  rewrite He, (truthy_nonempty s2 Hn2), Hp2.
  reflexivity.
Qed.

(** Lines 118-121 once the start is a date: [strptime] is handed the
    date and raises. *)
Lemma parse_date_range_date (self : DataVisualizer) (d : Date) :
  start_date self = VDate d ->
  parse_date_range self = (self, [], Raise TypeError).
Proof.
  intros Hs.
  unfold parse_date_range, mbind, Method_bind, Method.bind, Method.read,
    Method.lift, Method.update, strptime_date.
  rewrite Hs. reflexivity.
Qed.

Lemma create_static_plot_passes_guard (f : FHIRDataFrame) (self : DataVisualizer)
    (dates codes : Series) (first : cell) :
  pd.lookup_column (df f) "EffectiveDateTime" = Some dates ->
  values dates !! 0 = Some first ->
  pd.isinstance_date first = true ->
  pd.lookup_column (df f) "LoincCode" = Some codes ->
  pd.nunique codes = Ok 1 ->
  processor_validate_columns f = Ok () ->
  create_static_plot f self
  = (_ ← parse_date_range; self ← Method.read; Method.lift (render self f)) self.
Proof.
  intros Hdates Hfirst Hdate Hcodes Hn Hvalid.
  unfold create_static_plot, pd.getitem, pd.iloc.
  rewrite Hdates, Method_bind_lift_Ok, Hfirst, Method_bind_lift_Ok, Hdate.
  cbn [negb].
  rewrite Hcodes, Method_bind_lift_Ok, Hn, Method_bind_lift_Ok.
  cbn [negb Nat.eqb].
  by rewrite Hvalid, Method_bind_lift_Ok.
Qed.

(** C10. When the frame passes the guard and the inherited validation,
    and the date range was set as two non-empty strings that parse, the
    plot call leaves the visualizer with the two fields overwritten by
    the parsed dates, so its state has changed; a second call on the same
    visualizer hands the stored dates to [strptime] again, which raises
    [TypeError]. *)
Theorem create_static_plot_overwrites_dates (f : FHIRDataFrame)
    (self : DataVisualizer) (dates codes : Series) (first : cell)
    (s1 s2 : string) (d1 d2 : Date) :
  pd.lookup_column (df f) "EffectiveDateTime" = Some dates ->
  values dates !! 0 = Some first ->
  pd.isinstance_date first = true ->
  pd.lookup_column (df f) "LoincCode" = Some codes ->
  pd.nunique codes = Ok 1 ->
  processor_validate_columns f = Ok () ->
  start_date self = VStr s1 -> end_date self = VStr s2 ->
  s1 <> "" -> s2 <> "" ->
  strptime_ymd s1 = Some d1 -> strptime_ymd s2 = Some d2 ->
  let self' := set_date_range (VDate d1) (VDate d2) self in
  create_static_plot f self = (self', [], render self' f) /\
  start_date self' = VDate d1 /\ end_date self' = VDate d2 /\
  self' <> self /\
  create_static_plot f self' = (self', [], Raise TypeError).
Proof.
  intros Hdates Hfirst Hdate Hcodes Hn Hvalid Hs He Hn1 Hn2 Hp1 Hp2 self'.
  split.
  { rewrite (create_static_plot_passes_guard f self dates codes first) by done.
    unfold mbind, Method_bind, Method.bind.
    rewrite (parse_date_range_strings self s1 s2 d1 d2) by done.
    reflexivity. }
  split; [reflexivity|]. split; [reflexivity|]. split.
  { intros Heq. assert (Hstart : start_date self' = start_date self) by by rewrite Heq.
    cbn in Hstart. rewrite Hs in Hstart. discriminate. }
  rewrite (create_static_plot_passes_guard f self' dates codes first) by done.
  unfold mbind, Method_bind, Method.bind.
  by rewrite (parse_date_range_date self' d1).
Qed.

End PlotDates.

(** ** The theorems on the sample records *)

(** A sample coding entry is the pair of its code and display. *)
Lemma is_coding_entry (code display : string) :
  is_coding (coding_entry code display) (VStr code) (VStr display).
Proof.
  unfold is_coding, coding_entry. eexists. split; [reflexivity|].
  split; reflexivity.
Defined.

(** The coding columns of the batch with no, one and two codings. *)
Lemma flatten_coding_columns_samples :
  exists f,
    flatten (H := iso_pandas) coded_batch = Ok f /\
    coding_cells f 0 = cells_are (VStr "") (VStr "") (VStr "") (VStr "") /\
    coding_cells f 1
    = cells_are (VStr "8867-4") (VStr "Heart rate")
                (VStr "8867-4") (VStr "Heart rate") /\
    coding_cells f 2
    = cells_are (VStr "8867-4") (VStr "Heart rate")
                (VStr "HKQuantityTypeIdentifierHeartRate") (VStr "Heart Rate").
Proof.
  eexists. split; [vm_compute; reflexivity|]. split; [|split].
  - apply (flatten_coding_columns (H := iso_pandas) coded_batch _ 0 (stamped []) []);
      vm_compute; reflexivity.
  - apply (flatten_coding_columns (H := iso_pandas) coded_batch _ 1
             (stamped [loinc_heart_rate]) [loinc_heart_rate]);
      [vm_compute; reflexivity | reflexivity | vm_compute; reflexivity
      | apply is_coding_entry].
  - apply (flatten_coding_columns (H := iso_pandas) coded_batch _ 2
             (stamped [loinc_heart_rate; healthkit_heart_rate])
             [loinc_heart_rate; healthkit_heart_rate]);
      [vm_compute; reflexivity | reflexivity | vm_compute; reflexivity
      | apply is_coding_entry | apply is_coding_entry].
Defined.

(** The batch of three dated records flattens to three rows under the eight
    columns; its date column holds the direct timestamp, the start of the
    period, and a missing value. *)
Lemma flatten_well_formed_shape_samples :
  exists f,
    flatten (H := iso_pandas) dated_batch = Ok f /\
    frame_resource_type f = OBSERVATION /\
    pd.columns (df f) = observation_columns /\
    (forall c s, pd.lookup_column (df f) c = Some s -> length (values s) = 3) /\
    frame_cell f EFFECTIVE_DATE_TIME 0 = Some (Cell (VDate (mkDate 2024 3 2))) /\
    frame_cell f EFFECTIVE_DATE_TIME 1 = Some (Cell (VDate (mkDate 2024 1 15))) /\
    frame_cell f EFFECTIVE_DATE_TIME 2 = Some NaT.
Proof.
  assert (Hne : dated_batch <> []) by discriminate.
  assert (Hwf : Forall (fun r => well_formed r = true) dated_batch)
    by (repeat constructor).
  destruct (flatten_well_formed_shape (H := iso_pandas) dated_batch
              [Some (mkDate 2024 3 2); Some (mkDate 2024 1 15); None] Hne Hwf)
    as (f & rows & Hf & Hkind & Hcols & Hlen & _ & _ & Hdates);
    [vm_compute; reflexivity|].
  exists f. split; [exact Hf|]. split; [exact Hkind|]. split; [exact Hcols|].
  split; [exact Hlen|]. rewrite !Hdates. repeat split.
Qed.

(** The dtype of the stored date column: object when a date is there,
    [datetime64] when every timestamp is missing. *)
Lemma date_column_dtype_samples :
  (exists f s, flatten (H := iso_pandas) dated_batch = Ok f /\
               pd.lookup_column (df f) "EffectiveDateTime" = Some s /\
               dtype s = DObject) /\
  (exists f, flatten (H := iso_pandas) [undated] = Ok f /\
             pd.lookup_column (df f) "EffectiveDateTime"
             = Some (mkSeries DDatetime64 [NaT])).
Proof.
  split.
  - eexists _, _. split; [vm_compute; reflexivity|]. split; reflexivity.
  - eexists. split; [vm_compute; reflexivity|]. reflexivity.
Qed.

(** With the reference parser each of the two timestamps gives its date,
    and the column of both has no [.dt]. *)
Lemma two_zones_column_parse_raises_samples :
  (exists f, flatten (H := iso_pandas) [stamped_in_paris] = Ok f /\
             frame_cell f EFFECTIVE_DATE_TIME 0
             = Some (Cell (VDate (mkDate 2024 1 15)))) /\
  (exists f, flatten (H := iso_pandas) [stamped_in_athens] = Ok f /\
             frame_cell f EFFECTIVE_DATE_TIME 0
             = Some (Cell (VDate (mkDate 2024 1 15)))) /\
  (exists rows, mapM flatten_entry two_zones_batch = Ok rows /\
                EffectiveDateTime <$> rows = [VStr paris_stamp; VStr athens_stamp]) /\
  flatten (H := iso_pandas) two_zones_batch = Raise (AttributeError "dt").
Proof.
  apply (two_zones_column_parse_raises (H := iso_pandas)
           (Some (mkDate 2024 1 15)) (Some (mkDate 2024 1 15))
           (AttributeError "dt"));
    vm_compute; reflexivity.
Defined.

(** The batch of the two records is not flattened. *)
Lemma well_formed_batch_not_flattened_samples :
  to_datetime_date (Pandas := iso_pandas) two_zones_column
  = Raise (AttributeError "dt") /\
  length two_zones_batch = 2 /\
  Forall (fun r => well_formed r = true) two_zones_batch /\
  flatten (H := iso_pandas) two_zones_batch = Raise (AttributeError "dt") /\
  forall f, flatten (H := iso_pandas) two_zones_batch <> Ok f.
Proof.
  assert (Hparse : to_datetime_date (Pandas := iso_pandas) two_zones_column
                   = Raise (AttributeError "dt"))
    by (vm_compute; reflexivity).
  split; [exact Hparse|].
  exact (well_formed_batch_not_flattened (H := iso_pandas) _ Hparse).
Defined.

(** Batches with a record lacking its subject, its coding list or its value
    quantity, at several positions. *)
Lemma flatten_fails_on_missing_field_samples :
  (exists e, flatten (H := iso_pandas) [undated; no_subject] = Raise e) /\
  flatten (H := iso_pandas) ([undated] ++ no_subject :: [period_only])
  = Raise (AttributeError "id") /\
  flatten (H := iso_pandas) ([undated; period_only] ++ no_coding :: [])
  = Raise (KeyError (VStr "coding")) /\
  flatten (H := iso_pandas) ([] ++ no_quantity :: [undated])
  = Raise (KeyError (VStr "valueQuantity")).
Proof.
  split; [|split; [|split]].
  - apply (proj1 (flatten_fails_on_missing_field (H := iso_pandas))).
    right. left. vm_compute. reflexivity.
  - apply (proj2 (flatten_fails_on_missing_field (H := iso_pandas)));
      [repeat constructor | vm_compute; reflexivity
      | intros _; vm_compute; reflexivity | vm_compute; reflexivity].
  - apply (proj2 (flatten_fails_on_missing_field (H := iso_pandas)));
      [repeat constructor | vm_compute; reflexivity
      | intros Hc; vm_compute in Hc; discriminate | vm_compute; reflexivity].
  - apply (proj2 (flatten_fails_on_missing_field (H := iso_pandas)));
      [repeat constructor | vm_compute; reflexivity
      | intros _; vm_compute; reflexivity | vm_compute; reflexivity].
Defined.

(** QuantityValue is the only required column [no_value_frame] lacks. *)
Lemma no_value_frame_required (c : string) :
  c ∈ required_columns no_value_frame ->
  c ∉ pd.columns (df no_value_frame) -> c = "QuantityValue".
Proof.
  intros Hc Habs. vm_compute in Hc.
  repeat (apply elem_of_cons in Hc as [->|Hc]);
    try reflexivity; try (by apply elem_of_nil in Hc);
    exfalso; apply Habs; vm_compute; set_solver.
Defined.

(** Validation of the frame without its QuantityValue column. *)
Lemma validate_columns_missing_samples :
  ("QuantityValue" ∈ required_columns no_value_frame) /\
  ("QuantityValue" ∉ pd.columns (df no_value_frame)) /\
  missing_columns no_value_frame = ["QuantityValue"] /\
  validate_columns (H := ordered_set) no_value_frame
  = Raise (ValueError "The DataFrame is missing required columns: QuantityValue").
Proof.
  assert (Hreq : "QuantityValue" ∈ required_columns no_value_frame)
    by (vm_compute; set_solver).
  assert (Habs : "QuantityValue" ∉ pd.columns (df no_value_frame))
    by (apply (bool_decide_unpack _); vm_compute; exact I).
  split; [exact Hreq|]. split; [exact Habs|]. split; [vm_compute; reflexivity|].
  apply (validate_columns_missing (H := ordered_set) no_value_frame
           (ex_intro _ "QuantityValue" (conj Hreq Habs))).
  exact no_value_frame_required.
Defined.

(** Every string column of [mixed_frame] has the object dtype. *)
Lemma mixed_frame_dtypes (column : string) (s : Series) :
  column ∈ string_columns mixed_frame ->
  pd.lookup_column (df mixed_frame) column = Some s ->
  dtype s = DObject \/ dtype s = DString.
Proof.
  intros Hc. vm_compute in Hc.
  repeat (apply elem_of_cons in Hc as [->|Hc]);
    try (by apply elem_of_nil in Hc);
    intros [= <-]; by left.
Defined.

(** Validation of a frame with a numeric UserId column, and of the frame
    whose object columns mix numbers and strings. *)
Lemma validate_columns_string_dtype_samples :
  (exists column s,
     column ∈ string_columns numeric_user_frame /\
     pd.lookup_column (df numeric_user_frame) column = Some s /\
     dtype s <> DObject /\ dtype s <> DString /\
     validate_columns (H := ordered_set) numeric_user_frame
     = Raise (ValueError ("The '" ++ column ++ "' column does not contain strings."))) /\
  validate_columns (H := reversed_set) mixed_frame = Ok true.
Proof.
  split.
  - apply (validate_columns_string_dtype (H := ordered_set) numeric_user_frame);
      [vm_compute; reflexivity | vm_compute; reflexivity |].
    exists "UserId", (mkSeries DInt64 [Cell (VNum 1); Cell (VNum 2)]).
    split; [vm_compute; set_solver|]. split; [reflexivity|].
    split; discriminate.
  - apply (validate_columns_string_dtype (H := reversed_set) mixed_frame);
      [vm_compute; reflexivity | vm_compute; reflexivity |].
    exact mixed_frame_dtypes.
Defined.

(** The plot operation on a frame whose first date cell is a string, and on
    a frame with two LoincCodes. *)
Lemma create_static_plot_rejects_samples :
  rejects (H := plain_env) string_date_frame january /\
  rejects (H := plain_env) two_codes_frame january.
Proof.
  split.
  - apply (create_static_plot_rejects (H := plain_env) string_date_frame january
             (mkSeries DObject [Cell (VStr "2024-01-15"); NaT])
             (Cell (VStr "2024-01-15")));
      [reflexivity | reflexivity | left; reflexivity].
  - apply (create_static_plot_rejects (H := plain_env) two_codes_frame january
             (mkSeries DObject [Cell (VDate (mkDate 2024 1 15)); NaT])
             (Cell (VDate (mkDate 2024 1 15))));
      [reflexivity | reflexivity |].
    right. exists (mkSeries DObject [Cell (VStr "8867-4"); Cell (VStr "9279-1")]), 2.
    split; [reflexivity|]. split; [vm_compute; reflexivity | lia].
Defined.

(** Two plot calls on a visualizer whose range was set to January 2024. *)
Lemma create_static_plot_overwrites_dates_samples :
  let parsed :=
    set_date_range (VDate (mkDate 2024 1 1)) (VDate (mkDate 2024 1 31)) january in
  create_static_plot (H := plain_env) mixed_frame january
  = (parsed, [], Ok (Some ())) /\
  start_date parsed = VDate (mkDate 2024 1 1) /\
  end_date parsed = VDate (mkDate 2024 1 31) /\
  parsed <> january /\
  create_static_plot (H := plain_env) mixed_frame parsed
  = (parsed, [], Raise TypeError).
Proof.
  apply (create_static_plot_overwrites_dates (H := plain_env) mixed_frame january
           (mkSeries DObject [Cell (VDate (mkDate 2024 1 15)); NaT])
           (mkSeries DObject [Cell (VStr "8867-4"); Cell (VStr "8867-4")])
           (Cell (VDate (mkDate 2024 1 15)))
           "2024-01-01" "2024-01-31" (mkDate 2024 1 1) (mkDate 2024 1 31));
    try reflexivity; try discriminate; vm_compute; reflexivity.
Defined.


(** * Further properties of the flattener *)

Section FlattenMore.
Context `{Pandas}.

Lemma flatten_is_ok (resources : list Resource) :
  is_ok (flatten resources) = true <->
  resources <> [] /\
  Forall (fun r => is_ok (flatten_entry r) = true) resources /\
  is_ok (to_datetime_date (Cell <$> (chosen_stamp <$> resources))) = true.
Proof.
  split.
  - destruct (flatten resources) as [f|] eqn:Hf; [intros _|discriminate].
    apply flatten_Ok_inv in Hf as (rows & dates & Hrows & Hne & Hdates & _).
    apply mapM_Ok in Hrows.
    rewrite (flattened_stamps resources rows Hrows) in Hdates.
    split; [|split].
    + intros ->. inversion Hrows. by subst.
    + clear Hne Hdates. induction Hrows as [|r row rs rows Hrow _ IH]; constructor.
      * by rewrite Hrow.
      * exact IH.
    + by rewrite Hdates.
  - intros (Hne & Hall & Hparse).
    destruct (mapM_is_ok flatten_entry resources Hall) as [rows Hrows].
    assert (Hrows_ne : rows <> []).
    { intros ->. apply mapM_length in Hrows. by destruct resources. }
    destruct (to_datetime_date _) as [dates|] eqn:Hdates; [|discriminate].
    rewrite <- (flattened_stamps resources rows) in Hdates by by apply mapM_Ok.
    by rewrite (flatten_Ok_intro resources rows dates Hrows Hrows_ne Hdates).
Qed.

(** X1. [flatten] returns a frame exactly for the non-empty batches whose
    records all flatten and on whose column of chosen timestamps the parse
    of lines 346-348 returns; called on the empty list it raises [KeyError]
    on the date column, since a table built from no row has no column. *)
Theorem flatten_succeeds_iff (resources : list Resource) :
  (is_ok (flatten resources) = true <->
   resources <> [] /\
   Forall (fun r => is_ok (flatten_entry r) = true) resources /\
   is_ok (to_datetime_date (Cell <$> (chosen_stamp <$> resources))) = true) /\
  flatten [] = Raise (KeyError (VStr "EffectiveDateTime")).
Proof. split; [apply flatten_is_ok | reflexivity]. Qed.

(** X2. The exception [flatten] raises is that of the first record that fails:
    the records after it are never read. *)
Theorem flatten_raises_first_error (pre : list Resource) (r : Resource)
    (post : list Resource) (e : exn) :
  Forall (fun r => is_ok (flatten_entry r) = true) pre ->
  flatten_entry r = Raise e ->
  flatten (pre ++ r :: post) = Raise e.
Proof.
  intros Hpre Hr. apply flatten_Raise. by apply mapM_Raise_first.
Qed.

End FlattenMore.

(** The fields of an entry that are read without fallback. *)
Lemma flatten_entry_direct (r : Resource) (row : FlattenedEntry) :
  flatten_entry r = Ok row ->
  exists ref q,
    subject r = Some ref /\ dict r !! "valueQuantity" = Some (VDict q) /\
    UserId row = id_ ref /\
    q !! "unit" = Some (QuantityUnit row) /\
    q !! "value" = Some (QuantityValue row).
Proof.
  unfold flatten_entry. intros Hrow.
  apply bind_Ok_inv in Hrow as (stamp & _ & Hrow).
  apply bind_Ok_inv in Hrow as (coding & _ & Hrow).
  apply bind_Ok_inv in Hrow as (loinc & _ & Hrow).
  apply bind_Ok_inv in Hrow as (display & _ & Hrow).
  apply bind_Ok_inv in Hrow as (healthkit & _ & Hrow).
  apply bind_Ok_inv in Hrow as (name & _ & Hrow).
  apply bind_Ok_inv in Hrow as (user & Huser & Hrow).
  apply bind_Ok_inv in Hrow as (q1 & Hq1 & Hrow).
  apply bind_Ok_inv in Hrow as (u & Hu & Hrow).
  apply bind_Ok_inv in Hrow as (q2 & Hq2 & Hrow).
  apply bind_Ok_inv in Hrow as (v & Hv & Hrow).
  injection Hrow as <-. cbn [UserId QuantityUnit QuantityValue].
  destruct (subject r) as [ref|]; [|discriminate]. injection Huser as <-.
  unfold Py.dict_getitem in Hq1, Hq2.
  destruct (dict r !! "valueQuantity") as [vq|]; [|discriminate].
  injection Hq1 as <-. injection Hq2 as <-.
  destruct vq as [| | | | |q]; try discriminate.
  cbn in Hu, Hv. unfold Py.dict_getitem in Hu, Hv.
  destruct (q !! "unit") as [u'|] eqn:Eu; [|discriminate].
  destruct (q !! "value") as [v'|] eqn:Ev; [|discriminate].
  injection Hu as <-. injection Hv as <-.
  by exists ref, q.
Qed.

(** X3. A frame is only returned if every record has a subject and a value
    quantity with the entries [unit] and [value]; and in the frame, the
    UserId cell of row [i] is the [id] of the subject of record [i] when
    that is a string, and the QuantityUnit cell is the [unit] of its value
    quantity when that is a string. *)
Theorem flatten_direct_columns `{Pandas} (resources : list Resource)
    (f : FHIRDataFrame) (i : nat) (r : Resource) :
  flatten resources = Ok f ->
  resources !! i = Some r ->
  exists ref q u v,
    subject r = Some ref /\ dict r !! "valueQuantity" = Some (VDict q) /\
    q !! "unit" = Some u /\ q !! "value" = Some v /\
    (is_str_value (id_ ref) = true ->
     frame_cell f USER_ID i = Some (Cell (id_ ref))) /\
    (is_str_value u = true -> frame_cell f QUANTITY_UNIT i = Some (Cell u)).
Proof.
  intros Hf Hi.
  apply flatten_Ok_inv in Hf as (rows & dates & Hrows & Hne & _ & ->).
  apply mapM_Ok in Hrows.
  destruct (Forall2_lookup_l _ _ _ _ _ Hrows Hi) as (row & Hrow & Hentry).
  destruct (flatten_entry_direct r row Hentry) as (ref & q & Hs & Hq & Hu & Hunit & Hv).
  exists ref, q, (QuantityUnit row), (QuantityValue row).
  rewrite !frame_cell_flattened by done. rewrite Hrow. cbn. by rewrite Hu.
Qed.

(** ** What a flattened entry depends on *)

Lemma mapM_ext_Forall2 {A B : Type} (f : A -> result B) (l l' : list A) :
  Forall2 (fun a a' => f a = f a') l l' -> mapM f l = mapM f l'.
Proof.
  induction 1 as [|a a' l l' Ha _ IH]; [reflexivity|].
  by rewrite !mapM_cons, Ha, IH.
Qed.

Lemma flatten_entry_same_inputs (r r' : Resource) :
  same_inputs r r' -> flatten_entry r = flatten_entry r'.
Proof.
  intros [Hs Hk].
  unfold flatten_entry, effective_datetime, coding_of, Py.dict_get, Py.dict_getitem.
  rewrite Hs, (Hk "effectiveDateTime"), (Hk "effectivePeriod"), (Hk "code"),
    (Hk "valueQuantity") by set_solver.
  reflexivity.
Qed.

(** X4. The flattener reads the subject and four keys of a record's dictionary
    and nothing else: two batches whose records agree on these, position by
    position, give the same result, whatever their [resource_type] tags and
    their other keys are. *)
Theorem flatten_reads_four_keys `{Pandas} (resources resources' : list Resource) :
  Forall2 same_inputs resources resources' ->
  flatten resources = flatten resources'.
Proof.
  intros Hsame. unfold flatten.
  rewrite (mapM_ext_Forall2 flatten_entry resources resources'); [reflexivity|].
  eapply Forall2_impl; [exact Hsame|]. apply flatten_entry_same_inputs.
Qed.

Lemma if_len_gt_take (l : list value) (i : nat) (k : string) (b : result value) :
  i < 2 ->
  if_len_gt (VList l) i (coding_at (VList l) i k) b
  = if_len_gt (VList (take 2 l)) i (coding_at (VList (take 2 l)) i k) b.
Proof.
  intros Hi. unfold if_len_gt, coding_at. cbn [Py.len Py.getitem_int mbind result_bind].
  rewrite lookup_take_lt by exact Hi. rewrite length_take.
  destruct (decide (i < length l)) as [Hlt|Hge].
  - rewrite !bool_decide_eq_true_2 by lia. reflexivity.
  - rewrite !bool_decide_eq_false_2 by lia. reflexivity.
Qed.

(** X5. Only the first two entries of the coding list are read: two records
    with the same subject, timestamps and value quantity, whose coding lists
    agree on their first two entries, flatten to the same entry (or raise
    the same exception), whatever follows in the lists. *)
Theorem flatten_entry_first_two_codings (r r' : Resource) (l l' : list value) :
  subject r = subject r' ->
  (forall k, k ∈ ["effectiveDateTime"; "effectivePeriod"; "valueQuantity"] ->
             dict r !! k = dict r' !! k) ->
  coding_of r = Ok (VList l) -> coding_of r' = Ok (VList l') ->
  take 2 l = take 2 l' ->
  flatten_entry r = flatten_entry r'.
Proof.
  intros Hs Hk Hl Hl' Htake.
  unfold flatten_entry, effective_datetime, Py.dict_get, Py.dict_getitem.
  rewrite Hl, Hl', Hs, (Hk "effectiveDateTime"), (Hk "effectivePeriod"),
    (Hk "valueQuantity") by set_solver.
  cbn [mbind result_bind].
  rewrite (if_len_gt_take l 0 "code"), (if_len_gt_take l 0 "display"),
    (if_len_gt_take l 1 "code"), (if_len_gt_take l 1 "display") by lia.
  rewrite (if_len_gt_take l' 0 "code"), (if_len_gt_take l' 0 "display"),
    (if_len_gt_take l' 1 "code"), (if_len_gt_take l' 1 "display") by lia.
  by rewrite Htake.
Qed.

(** X6. A first coding entry without [code] makes the record raise [KeyError]
    on [code]; one with a code and without [display] makes it raise
    [KeyError] on [display]: an entry is never flattened with a default in
    place of an absent code or display. *)
Theorem flatten_entry_coding_without_display (r : Resource)
    (m : gmap string value) (rest : list value) :
  is_ok (effective_datetime r) = true ->
  coding_of r = Ok (VList (VDict m :: rest)) ->
  (m !! "code" = None -> flatten_entry r = Raise (KeyError (VStr "code"))) /\
  (is_Some (m !! "code") -> m !! "display" = None ->
   flatten_entry r = Raise (KeyError (VStr "display"))).
Proof.
  intros Heff Hcoding. unfold flatten_entry.
  destruct (effective_datetime r) as [stamp|]; [|discriminate].
  rewrite Hcoding. cbn [mbind result_bind].
  unfold if_len_gt, coding_at.
  cbn [Py.len Py.getitem_int Py.getitem length lookup list_lookup mbind result_bind].
  rewrite !(bool_decide_eq_true_2 (0 < _)) by lia.
  unfold Py.dict_getitem. split.
  - by intros ->.
  - intros [c ->] ->. reflexivity.
Qed.

(** X7. The string cells of a row do not depend on the other rows: outside
    the date column, a string found in row 0 of the frame of record [i]
    flattened alone is the cell of row [i] of the frame of the batch. *)
Theorem flatten_row_independent `{Pandas} (resources : list Resource)
    (f f1 : FHIRDataFrame) (i : nat) (r : Resource) :
  flatten resources = Ok f ->
  resources !! i = Some r ->
  flatten [r] = Ok f1 ->
  forall (c : ColumnNames) (s : string),
    c <> EFFECTIVE_DATE_TIME ->
    frame_cell f1 c 0 = Some (Cell (VStr s)) ->
    frame_cell f c i = Some (Cell (VStr s)).
Proof.
  intros Hf Hi Hf1 c s Hc.
  apply flatten_Ok_inv in Hf as (rows & dates & Hrows & Hne & _ & ->).
  apply flatten_Ok_inv in Hf1 as (rows1 & dates1 & Hrows1 & Hne1 & _ & ->).
  apply mapM_Ok in Hrows. apply mapM_Ok in Hrows1.
  destruct (Forall2_lookup_l _ _ _ _ _ Hrows Hi) as (row & Hrow & Hentry).
  inversion Hrows1 as [|? row1 ? rest Hentry1 Hrest]; subst.
  inversion Hrest; subst.
  assert (row1 = row) as -> by congruence.
  rewrite !frame_cell_flattened by done. by rewrite Hrow.
Qed.

(** ** When a frame validates *)

Lemma check_effective_date_time_Ok (f : FHIRDataFrame) :
  check_effective_date_time f = Ok () <->
  forall s, pd.lookup_column (df f) "EffectiveDateTime" = Some s ->
            forallb pd.isinstance_date (values s) = true.
Proof.
  unfold check_effective_date_time, pd.getitem. cbn [ColumnNames_value].
  destruct (pd.has_column (df f) "EffectiveDateTime") eqn:Hhas.
  - apply has_column_true in Hhas as [s Hs]. rewrite Hs. cbn [mbind result_bind].
    destruct (forallb pd.isinstance_date (values s)) eqn:Hall.
    + split; [intros _ s' [= <-]; exact Hall | reflexivity].
    + split; [discriminate|]. intros Hs'. specialize (Hs' s eq_refl). congruence.
  - split; [intros _ s Hs | reflexivity].
    assert (Hsome : pd.has_column (df f) "EffectiveDateTime" = true)
      by (apply has_column_true; eauto).
    congruence.
Qed.

Lemma check_effective_date_time_Raise (f : FHIRDataFrame) (e : exn) :
  check_effective_date_time f = Raise e ->
  e = ValueError "The EffectiveDateTime column is not of typedatetime.date.".
Proof.
  unfold check_effective_date_time, pd.getitem. cbn [ColumnNames_value].
  destruct (pd.has_column (df f) "EffectiveDateTime") eqn:Hhas; [|discriminate].
  apply has_column_true in Hhas as [s Hs]. rewrite Hs. cbn [mbind result_bind].
  destruct (forallb pd.isinstance_date (values s)); [discriminate|].
  by intros [= <-].
Qed.

Lemma missing_columns_nil (f : FHIRDataFrame) :
  missing_columns f = [] <->
  forall c, c ∈ required_columns f -> c ∈ pd.columns (df f).
Proof.
  split.
  - intros Hnil c Hc. destruct (decide (c ∈ pd.columns (df f))) as [|Habs]; [done|].
    assert (Hm : c ∈ missing_columns f) by by apply missing_columns_spec.
    rewrite Hnil in Hm. by apply elem_of_nil in Hm.
  - intros Hall. destruct (missing_columns f) as [|c l] eqn:Hm; [reflexivity|].
    assert (Hc : c ∈ missing_columns f) by (rewrite Hm; left).
    apply missing_columns_spec in Hc as [Hreq Habs]. by specialize (Hall c Hreq).
Qed.

Section ValidateMore.
Context `{PySet}.

Lemma string_checks_Ok (f : FHIRDataFrame) :
  is_ok (mapM (check_string_column f) (set_iter (string_columns f))) = true <->
  forall column s,
    column ∈ string_columns f -> pd.lookup_column (df f) column = Some s ->
    dtype s = DObject \/ dtype s = DString.
Proof.
  split.
  - destruct (mapM _ _) as [us|] eqn:Hm; [intros _|discriminate].
    apply mapM_Ok in Hm. intros column s Hin Hs.
    apply set_iter_string_columns in Hin.
    apply list_elem_of_lookup in Hin as [i Hi].
    destruct (Forall2_lookup_l _ _ _ _ _ Hm Hi) as ([] & _ & Hok).
    assert (Hc : is_ok (check_string_column f column) = true) by by rewrite Hok.
    by apply (proj1 (check_string_column_is_ok f column) Hc s).
  - intros Hall.
    destruct (mapM_is_ok (check_string_column f)
                (set_iter (string_columns f))) as [us ->]; [|reflexivity].
    apply Forall_forall. intros c Hc%set_iter_string_columns.
    apply check_string_column_is_ok. intros s Hs. by apply (Hall c).
Qed.

Lemma string_checks_Raise (f : FHIRDataFrame) (e : exn) :
  mapM (check_string_column f) (set_iter (string_columns f)) = Raise e ->
  exists column, column ∈ string_columns f /\
    e = ValueError ("The '" ++ column ++ "' column does not contain strings.").
Proof.
  intros (c & Hin & Hc)%mapM_Raise_inv.
  apply check_string_column_Raise in Hc as [-> _].
  exists c. by apply set_iter_string_columns in Hin.
Qed.

(** The frames that validate. *)
Lemma validate_columns_Ok_iff (f : FHIRDataFrame) (b : bool) :
  validate_columns f = Ok b <->
  b = true /\
  (forall c, c ∈ required_columns f -> c ∈ pd.columns (df f)) /\
  (forall s, pd.lookup_column (df f) "EffectiveDateTime" = Some s ->
             forallb pd.isinstance_date (values s) = true) /\
  (forall column s,
     column ∈ string_columns f -> pd.lookup_column (df f) column = Some s ->
     dtype s = DObject \/ dtype s = DString).
Proof.
  rewrite <- missing_columns_nil, <- check_effective_date_time_Ok,
    <- string_checks_Ok.
  unfold validate_columns.
  destruct (missing_columns f) as [|c l].
  - destruct (check_effective_date_time f) as [[]|e]; cbn [mbind result_bind].
    + destruct (mapM _ _) as [us|e]; cbn [mbind result_bind is_ok].
      * split; [intros [= <-]; done | by intros (-> & _)].
      * split; [discriminate | by intros (_ & _ & _ & ?)].
    + split; [discriminate | by intros (_ & _ & ? & _)].
  - split; [discriminate | by intros (_ & ? & _)].
Qed.

End ValidateMore.

Section ValidateOutcome.
Context `{PySet}.

(** X10. With every required column present, one cell of the date column that
    is not a date makes [validate_columns] raise the date [ValueError]
    (whose message lacks a space before [datetime.date]), whatever the
    other columns hold. *)
Theorem validate_columns_non_date (f : FHIRDataFrame) (s : Series) (c : cell) :
  missing_columns f = [] ->
  pd.lookup_column (df f) "EffectiveDateTime" = Some s ->
  c ∈ values s -> pd.isinstance_date c = false ->
  validate_columns f
  = Raise (ValueError "The EffectiveDateTime column is not of typedatetime.date.").
Proof.
  intros Hmiss Hs Hc Hdate. unfold validate_columns. rewrite Hmiss.
  destruct (check_effective_date_time f) as [[]|e] eqn:Hcheck.
  - pose proof (proj1 (check_effective_date_time_Ok f) Hcheck s Hs) as Hall.
    rewrite forallb_forall in Hall. apply list_elem_of_In in Hc.
    specialize (Hall c Hc). congruence.
  - by rewrite (check_effective_date_time_Raise f e Hcheck).
Qed.

(** X11. [validate_columns] returns [True] or raises a [ValueError], and never
    returns [False]; it returns [True] exactly when every required column
    is in the table, every cell of the date column is a date, and every
    other required column except QuantityValue has the object or the
    string dtype. *)
Theorem validate_columns_outcome (f : FHIRDataFrame) :
  (validate_columns f = Ok true <->
   (forall c, c ∈ required_columns f -> c ∈ pd.columns (df f)) /\
   (forall s, pd.lookup_column (df f) "EffectiveDateTime" = Some s ->
              forallb pd.isinstance_date (values s) = true) /\
   (forall column s,
      column ∈ string_columns f -> pd.lookup_column (df f) column = Some s ->
      dtype s = DObject \/ dtype s = DString)) /\
  validate_columns f <> Ok false /\
  (forall e, validate_columns f = Raise e -> exists msg, e = ValueError msg).
Proof.
  split; [|split].
  - rewrite validate_columns_Ok_iff. split; [by intros (_ & ?) | by intros ?].
  - intros Hfalse. by apply validate_columns_Ok_iff in Hfalse as [? _].
  - intros e. unfold validate_columns.
    destruct (missing_columns f); [|intros [= <-]; eauto].
    destruct (check_effective_date_time f) as [[]|e'] eqn:Hcheck;
      cbn [mbind result_bind].
    + destruct (mapM _ _) as [us|e''] eqn:Hm; cbn [mbind result_bind];
        [discriminate|].
      intros [= <-]. apply string_checks_Raise in Hm as (c & _ & ->). eauto.
    + intros [= <-]. rewrite (check_effective_date_time_Raise f e' Hcheck). eauto.
Qed.

End ValidateOutcome.

(** X12. The order in which the set of string columns is visited can only
    change which offending column the error names: two runs of
    [validate_columns] under two orders agree, or both raise the string
    [ValueError], for two different columns. *)
Theorem validate_columns_order (S1 S2 : PySet) (f : FHIRDataFrame) :
  validate_columns (H := S1) f = validate_columns (H := S2) f \/
  exists c1 c2,
    c1 <> c2 /\ c1 ∈ string_columns f /\ c2 ∈ string_columns f /\
    validate_columns (H := S1) f
    = Raise (ValueError ("The '" ++ c1 ++ "' column does not contain strings.")) /\
    validate_columns (H := S2) f
    = Raise (ValueError ("The '" ++ c2 ++ "' column does not contain strings.")).
Proof.
  unfold validate_columns.
  destruct (missing_columns f); [|by left].
  destruct (check_effective_date_time f) as [[]|e]; [|by left].
  cbn [mbind result_bind].
  destruct (mapM (check_string_column f) (set_iter (PySet := S1) (string_columns f)))
    as [us1|e1] eqn:H1;
  destruct (mapM (check_string_column f) (set_iter (PySet := S2) (string_columns f)))
    as [us2|e2] eqn:H2; cbn [mbind result_bind].
  - by left.
  - assert (Hok : is_ok (mapM (check_string_column f)
                           (set_iter (PySet := S2) (string_columns f))) = true).
    { apply (string_checks_Ok (H := S2)).
      apply (string_checks_Ok (H := S1)). by rewrite H1. }
    rewrite H2 in Hok. discriminate.
  - assert (Hok : is_ok (mapM (check_string_column f)
                           (set_iter (PySet := S1) (string_columns f))) = true).
    { apply (string_checks_Ok (H := S1)).
      apply (string_checks_Ok (H := S2)). by rewrite H2. }
    rewrite H1 in Hok. discriminate.
  - apply (string_checks_Raise (H := S1)) in H1 as (c1 & Hc1 & ->).
    apply (string_checks_Raise (H := S2)) in H2 as (c2 & Hc2 & ->).
    destruct (decide (c1 = c2)) as [->|Hne]; [by left|].
    right. by exists c1, c2.
Qed.

Lemma mapM_ext_in {A B : Type} (f g : A -> result B) (l : list A) :
  (forall x, x ∈ l -> f x = g x) -> mapM f l = mapM g l.
Proof.
  induction l as [|x l IH]; intros Hext; [reflexivity|].
  rewrite !mapM_cons, (Hext x) by left.
  rewrite IH; [reflexivity|]. intros y Hy. apply Hext. by right.
Qed.

Lemma setitem_columns (t : DataFrame) (c : string) (s : Series) :
  c ∈ pd.columns t -> pd.columns (pd.setitem t c s) = pd.columns t.
Proof.
  unfold pd.columns. induction t as [|[n s0] t IH]; cbn.
  - by intros ?%elem_of_nil.
  - destruct (String.eqb n c) eqn:Heq; [reflexivity|].
    apply String.eqb_neq in Heq. intros [?|Hin]%elem_of_cons; [congruence|].
    cbn. by rewrite IH.
Qed.

Lemma setitem_lookup_ne (t : DataFrame) (c c' : string) (s : Series) :
  c <> c' -> pd.lookup_column (pd.setitem t c s) c' = pd.lookup_column t c'.
Proof.
  intros Hne. induction t as [|[n s0] t IH]; cbn.
  - by rewrite (proj2 (String.eqb_neq c c') Hne).
  - destruct (String.eqb n c) eqn:Heq; cbn.
    + apply String.eqb_eq in Heq as ->.
      by rewrite (proj2 (String.eqb_neq c c') Hne).
    + by rewrite IH.
Qed.

Lemma string_columns_not_exempt (f : FHIRDataFrame) (c : string) :
  c ∈ string_columns f -> c <> "EffectiveDateTime" /\ c <> "QuantityValue".
Proof.
  unfold string_columns. intros [_ Hnot]%list_elem_of_difference.
  split; intros ->; apply Hnot; cbn; set_solver.
Qed.

Section ValidateFrames.
Context `{PySet}.

(** X13. The QuantityValue column is exempt from every type check: replacing it
    by any other column leaves the result of [validate_columns] as it is. *)
Theorem validate_columns_quantity_value_exempt (f : FHIRDataFrame) (s : Series) :
  "QuantityValue" ∈ pd.columns (df f) ->
  validate_columns
    (mkFHIRDataFrame (pd.setitem (df f) "QuantityValue" s) (frame_resource_type f))
  = validate_columns f.
Proof.
  intros Hin.
  set (f' := mkFHIRDataFrame (pd.setitem (df f) "QuantityValue" s)
               (frame_resource_type f)).
  assert (Hcols : pd.columns (df f') = pd.columns (df f))
    by by apply setitem_columns.
  assert (Hhas : forall c, pd.has_column (df f') c = pd.has_column (df f) c).
  { intros c. unfold pd.has_column. by rewrite Hcols. }
  assert (Hlook : forall c, c <> "QuantityValue" ->
            pd.lookup_column (df f') c = pd.lookup_column (df f) c).
  { intros c Hc. unfold f', df. cbn [data_frame]. by apply setitem_lookup_ne. }
  assert (Hmiss : missing_columns f' = missing_columns f).
  { unfold missing_columns. apply List.filter_ext. intros c. by rewrite Hhas. }
  assert (Hdates : check_effective_date_time f' = check_effective_date_time f).
  { unfold check_effective_date_time, pd.getitem.
    by rewrite Hhas, Hlook by discriminate. }
  unfold validate_columns. rewrite Hmiss, Hdates.
  change (string_columns f') with (string_columns f).
  rewrite (mapM_ext_in (check_string_column f') (check_string_column f));
    [reflexivity|].
  intros c Hc%set_iter_string_columns.
  apply string_columns_not_exempt in Hc as [_ Hc].
  unfold check_string_column, pd.getitem. by rewrite Hhas, Hlook.
Qed.

(** X14. The QuestionnaireResponse schema is part of the Observation schema: a
    table that validates as a frame of kind Observation validates as a
    frame of kind QuestionnaireResponse. *)
Theorem observation_table_validates_as_questionnaire (t : DataFrame) :
  validate_columns (mkFHIRDataFrame t OBSERVATION) = Ok true ->
  validate_columns (mkFHIRDataFrame t QUESTIONNAIRE_RESPONSE) = Ok true.
Proof.
  rewrite !validate_columns_Ok_iff. intros (_ & Hreq & Hdates & Hstr).
  split; [reflexivity|]. split; [|split; [exact Hdates|]].
  - intros c Hc. apply Hreq. vm_compute in Hc |- *.
    repeat (apply elem_of_cons in Hc as [->|Hc]);
      first [by apply elem_of_nil in Hc | by repeat constructor].
  - intros c s Hc. apply Hstr. vm_compute in Hc |- *.
    repeat (apply elem_of_cons in Hc as [->|Hc]);
      first [by apply elem_of_nil in Hc | by repeat constructor].
Qed.

End ValidateFrames.

(** ** Validating what [flatten] returns *)

Lemma wf_coding_at_str (l : list value) (i : nat) (k : string) (v : value) :
  forallb wf_coding_entry l = true -> k = "code" \/ k = "display" ->
  coding_at (VList l) i k = Ok v -> is_str_value v = true.
Proof.
  intros Hall Hk. unfold coding_at. cbn [Py.getitem_int].
  destruct (l !! i) as [e|] eqn:He; [|discriminate]. cbn [mbind result_bind].
  rewrite forallb_forall in Hall.
  assert (Hin : In e l) by (apply list_elem_of_In; by eapply list_elem_of_lookup_2).
  specialize (Hall e Hin). destruct e as [| | | | |m]; try discriminate.
  cbn in Hall |- *. apply andb_prop in Hall as [Hc Hd]. unfold Py.dict_getitem.
  destruct Hk as [-> | ->].
  - destruct (m !! "code"); [|discriminate]. by intros [= <-].
  - destruct (m !! "display"); [|discriminate]. by intros [= <-].
Qed.

Lemma wf_if_len_gt_str (l : list value) (i : nat) (k : string) (b : result value)
    (v : value) :
  forallb wf_coding_entry l = true -> k = "code" \/ k = "display" ->
  (forall w, b = Ok w -> is_str_value w = true) ->
  if_len_gt (VList l) i (coding_at (VList l) i k) b = Ok v ->
  is_str_value v = true.
Proof.
  intros Hall Hk Hb. unfold if_len_gt. cbn [Py.len mbind result_bind].
  case_bool_decide; [by apply wf_coding_at_str | apply Hb].
Qed.

(** Outside the date and the value column, the entry of a record that
    meets the input contract holds strings. *)
Lemma flatten_entry_well_formed_strings (r : Resource) (row : FlattenedEntry)
    (c : ColumnNames) :
  well_formed r = true -> flatten_entry r = Ok row -> string_field c ->
  is_str_value (field_of c row) = true.
Proof.
  unfold well_formed.
  intros [[[_ Hcode]%andb_prop Hsubj]%andb_prop Hq]%andb_prop Hrow [Hc1 Hc2].
  destruct (flatten_entry_direct r row Hrow) as (ref & q & Hs & Hvq & Hid & Hu & _).
  destruct (wf_code_ok _ Hcode) as (l & Hl & Hall).
  assert (Hempty : forall w, Ok (VStr "") = Ok w -> is_str_value w = true)
    by by intros w [= <-].
  unfold flatten_entry in Hrow.
  apply bind_Ok_inv in Hrow as (stamp & _ & Hrow).
  rewrite Hl in Hrow. cbn [mbind result_bind] in Hrow.
  apply bind_Ok_inv in Hrow as (loinc & Hloinc & Hrow).
  apply bind_Ok_inv in Hrow as (display & Hdisplay & Hrow).
  apply bind_Ok_inv in Hrow as (healthkit & Hhealthkit & Hrow).
  apply bind_Ok_inv in Hrow as (name & Hname & Hrow).
  bind_inv Hrow. injection Hrow as Hrow.
  apply wf_if_len_gt_str in Hloinc; [|done|auto|done].
  apply wf_if_len_gt_str in Hdisplay; [|done|auto|done].
  apply wf_if_len_gt_str in Hhealthkit; [|done|auto|];
    [|intros w Hw; by apply wf_if_len_gt_str in Hw; [|done|auto|done]].
  apply wf_if_len_gt_str in Hname; [|done|auto|];
    [|intros w Hw; by apply wf_if_len_gt_str in Hw; [|done|auto|done]].
  destruct c; try done; rewrite <- Hrow; cbn; try done.
  - unfold wf_subject in Hsubj. rewrite Hs in Hsubj.
    rewrite Hs in Ha. by injection Ha as <-.
  - unfold wf_quantity in Hq. rewrite Hvq in Hq. cbn in Hq.
    apply andb_prop in Hq as [Hunit _].
    unfold Py.dict_getitem in Ha0. rewrite Hvq in Ha0. injection Ha0 as <-.
    cbn in Ha1. unfold Py.dict_getitem in Ha1.
    destruct (q !! "unit"); [|discriminate]. by injection Ha1 as <-.
Qed.

Lemma string_columns_observation (t : DataFrame) (column : string) :
  column ∈ string_columns (mkFHIRDataFrame t OBSERVATION) <->
  exists c, string_field c /\ column = ColumnNames_value c.
Proof.
  change (string_columns (mkFHIRDataFrame t OBSERVATION))
    with (ColumnNames_value <$>
            [USER_ID; QUANTITY_NAME; QUANTITY_UNIT; LOINC_CODE; DISPLAY;
             APPLE_HEALTH_KIT_CODE]).
  rewrite list_elem_of_fmap. split.
  - intros (c & -> & Hc). exists c. split; [|reflexivity].
    repeat (apply elem_of_cons in Hc as [->|Hc]);
      [.. | by apply elem_of_nil in Hc]; split; discriminate.
  - intros (c & [Hc1 Hc2] & ->). exists c. split; [reflexivity|].
    destruct c; try done; repeat constructor.
Qed.

Section FlattenValidate.
Context `{Pandas} `{PySet}.

Lemma flattened_validates_iff (rows : list FlattenedEntry)
    (dates : list (option Date)) :
  rows <> [] ->
  validate_columns (mkFHIRDataFrame (flattened_table rows dates) OBSERVATION)
  = Ok true <->
  forall c, string_field c ->
    infer_dtype (field_of c <$> rows) = DObject \/
    infer_dtype (field_of c <$> rows) = DString.
Proof.
  intros Hne. rewrite validate_columns_Ok_iff. unfold df. cbn [data_frame]. split.
  - intros (_ & _ & _ & Hstr) c Hc.
    apply (Hstr (ColumnNames_value c) (column_of (field_of c) rows)).
    + apply string_columns_observation. by exists c.
    + rewrite flattened_table_lookup by done.
      destruct Hc as [Hc _]. by rewrite bool_decide_eq_false_2.
  - intros Hdtype. split; [reflexivity|]. split; [|split].
    + intros c Hc. by rewrite flattened_table_columns.
    + intros s. rewrite (flattened_table_lookup rows dates EFFECTIVE_DATE_TIME) by done.
      intros [= <-]. cbn. apply forallb_forall.
      intros c [o [-> _]]%list_elem_of_In%list_elem_of_fmap. by destruct o.
    + intros column s [c [Hc ->]]%string_columns_observation.
      rewrite flattened_table_lookup by done.
      destruct Hc as [Hc1 Hc2]. rewrite bool_decide_eq_false_2 by done.
      intros [= <-]. cbn. apply Hdtype. by split.
Qed.

(** X8. The frame [flatten] returns has every required column and only dates
    or missing values in its date column, missing dates included; its
    validation succeeds exactly when the dtype inferred for each of the six
    string columns is object or string. *)
Theorem flatten_frame_validates_iff (resources : list Resource) (f : FHIRDataFrame) :
  flatten resources = Ok f ->
  missing_columns f = [] /\
  check_effective_date_time f = Ok () /\
  (validate_columns f = Ok true <->
   forall c s, string_field c ->
     pd.lookup_column (df f) (ColumnNames_value c) = Some s ->
     dtype s = DObject \/ dtype s = DString).
Proof.
  intros Hf. apply flatten_Ok_inv in Hf as (rows & dates & _ & Hne & _ & ->).
  assert (Hlook : forall c, string_field c ->
            pd.lookup_column (flattened_table rows dates) (ColumnNames_value c)
            = Some (column_of (field_of c) rows)).
  { intros c [Hc _]. rewrite flattened_table_lookup by done.
    by rewrite bool_decide_eq_false_2. }
  split; [|split].
  - apply missing_columns_nil. intros c Hc. unfold df. cbn [data_frame].
    by rewrite flattened_table_columns.
  - apply check_effective_date_time_Ok. unfold df. cbn [data_frame]. intros s.
    rewrite (flattened_table_lookup rows dates EFFECTIVE_DATE_TIME) by done.
    intros [= <-]. cbn. apply forallb_forall.
    intros c [o [-> _]]%list_elem_of_In%list_elem_of_fmap. by destruct o.
  - rewrite (flattened_validates_iff rows dates Hne). unfold df. cbn [data_frame]. split.
    + intros Hd c s Hc. rewrite (Hlook c Hc). intros [= <-]. by apply Hd.
    + intros Hd c Hc. by apply (Hd c (column_of (field_of c) rows) Hc), Hlook.
Qed.

(** X9. Flattening then validating: when pandas gives a column of strings the
    object or the string dtype, a non-empty batch of records that meet the
    input contract, on whose column of timestamps the parse of lines
    346-348 returns, flattens to a frame that validates. *)
Theorem flatten_well_formed_validates (resources : list Resource) :
  (forall l, Forall (fun v => is_str_value v = true) l ->
             infer_dtype l = DObject \/ infer_dtype l = DString) ->
  resources <> [] ->
  Forall (fun r => well_formed r = true) resources ->
  is_ok (to_datetime_date (Cell <$> (chosen_stamp <$> resources))) = true ->
  exists f, flatten resources = Ok f /\ validate_columns f = Ok true.
Proof.
  intros Hinfer Hne Hwf Hparse.
  destruct (mapM_is_ok flatten_entry resources) as [rows Hrows].
  { eapply Forall_impl; [exact Hwf|]. apply flatten_entry_well_formed. }
  assert (Hrows_ne : rows <> []).
  { intros ->. apply mapM_length in Hrows. by destruct resources. }
  destruct (to_datetime_date _) as [dates|] eqn:Hdates; [|discriminate].
  rewrite <- (flattened_stamps resources rows) in Hdates by by apply mapM_Ok.
  exists (mkFHIRDataFrame (flattened_table rows dates) OBSERVATION).
  split; [by apply flatten_Ok_intro|].
  apply flattened_validates_iff; [done|]. intros c Hc. apply Hinfer.
  apply mapM_Ok in Hrows. apply Forall_fmap.
  clear Hne Hrows_ne Hdates Hparse.
  induction Hrows as [|r row rs rows Hrow _ IH]; [constructor|].
  inversion Hwf as [|? ? Hr Hrs]; subst. constructor.
  - by apply (flatten_entry_well_formed_strings r row c).
  - by apply IH.
Qed.

End FlattenValidate.

(** * Further properties of the dispatch function *)

(** X15. The dispatch function returns [None] for the empty batch only: on a
    non-empty batch it prints nothing and either returns a frame or
    raises, also when no flattener is registered for the batch's kind. *)
Theorem dispatch_none_iff_empty `{Pandas} (resources : list Resource) :
  (snd (flatten_fhir_resources resources) = Ok None <-> resources = []) /\
  (resources <> [] -> fst (flatten_fhir_resources resources) = []).
Proof.
  destruct resources as [|first rest].
  - split; [done | by intros []].
  - split; [|intros _; unfold flatten_fhir_resources;
             by destruct (flattener_classes (resource_type first))].
    split; [|discriminate]. unfold flatten_fhir_resources.
    destruct (flattener_classes (resource_type first)) as [c|]; cbn [snd].
    + destruct (run_flattener c (first :: rest)); discriminate.
    + destruct (kind_tag_name (resource_type first)); discriminate.
Qed.

(** X16. On a non-empty batch whose first record carries a string tag, the
    dispatch function hands the whole batch to the Observation flattener
    when the tag is exactly ["Observation"], and returns its frame or raises
    its exception; for any other string it raises [AttributeError], reading
    [.name] off the string while building the message of the [ValueError]
    of line 385. *)
Theorem dispatch_string_tag `{Pandas} (s : string) (first : Resource)
    (rest : list Resource) :
  resource_type first = TagStr s ->
  (s = "Observation" ->
   flatten_fhir_resources (first :: rest)
   = ([], f ← flatten (first :: rest); Ok (Some f))) /\
  (s <> "Observation" ->
   flatten_fhir_resources (first :: rest) = ([], Raise (AttributeError "name"))).
Proof.
  intros Htag. split.
  - intros ->. by apply dispatch_observation.
  - intros Hs. by apply (dispatch_unregistered_string s).
Qed.

(** * Further properties of the plot operation *)

Lemma nunique_all_missing (s : Series) :
  Forall (fun c => pd.isna c = true) (values s) -> pd.nunique s = Ok 0.
Proof.
  intros Hall. unfold pd.nunique.
  assert (Hnone : List.filter (fun c => negb (pd.isna c)) (values s) = []).
  { induction Hall as [|c l Hc _ IH]; [reflexivity|].
    cbn [List.filter]. rewrite Hc. exact IH. }
  assert (Hhash : forallb pd.hashable (values s) = true).
  { apply forallb_forall. intros c Hc%list_elem_of_In.
    rewrite Forall_forall in Hall. specialize (Hall c Hc).
    by destruct c as [[]|]. }
  by rewrite Hhash, Hnone.
Qed.

Section PlotGuard.
Context `{PlotEnv}.

(** X17. The guard reads the first cell of the date column and the LoincCode
    column before checking that they are there: on a frame without date
    column the plot operation raises [KeyError], on one whose date column
    has no row it raises [IndexError], and on one without LoincCode column
    (and a date first) it raises [KeyError]; nothing is printed and the
    visualizer is left as it was. *)
Theorem create_static_plot_guard_errors (f : FHIRDataFrame) (self : DataVisualizer) :
  (pd.lookup_column (df f) "EffectiveDateTime" = None ->
   create_static_plot f self
   = (self, [], Raise (KeyError (VStr "EffectiveDateTime")))) /\
  (forall dates,
     pd.lookup_column (df f) "EffectiveDateTime" = Some dates ->
     values dates = [] ->
     create_static_plot f self = (self, [], Raise IndexError)) /\
  (forall dates first,
     pd.lookup_column (df f) "EffectiveDateTime" = Some dates ->
     values dates !! 0 = Some first ->
     pd.isinstance_date first = true ->
     pd.lookup_column (df f) "LoincCode" = None ->
     create_static_plot f self = (self, [], Raise (KeyError (VStr "LoincCode")))).
Proof.
  split; [|split].
  - intros Hdates.
    unfold create_static_plot, mbind, Method_bind, Method.bind, Method.lift,
      pd.getitem.
    by rewrite Hdates.
  - intros dates Hdates Hnil.
    unfold create_static_plot, pd.getitem, pd.iloc.
    rewrite Hdates, Method_bind_lift_Ok, Hnil.
    reflexivity.
  - intros dates first Hdates Hfirst Hdate Hcodes.
    unfold create_static_plot, pd.getitem, pd.iloc.
    rewrite Hdates, Method_bind_lift_Ok, Hfirst, Method_bind_lift_Ok, Hdate, Hcodes.
    reflexivity.
Qed.

(** X18. The guard tests [nunique() != 1]: a frame whose LoincCode cells are all
    missing (none at all included) is rejected too, with the message about
    more than one code. *)
Theorem create_static_plot_no_code (f : FHIRDataFrame) (self : DataVisualizer)
    (dates codes : Series) (first : cell) :
  pd.lookup_column (df f) "EffectiveDateTime" = Some dates ->
  values dates !! 0 = Some first ->
  pd.isinstance_date first = true ->
  pd.lookup_column (df f) "LoincCode" = Some codes ->
  Forall (fun c => pd.isna c = true) (values codes) ->
  create_static_plot f self
  = (self,
     ["Error: More than one unique LoincCode found.Each plot should be based on a single LoincCode."],
     Ok None).
Proof.
  intros Hdates Hfirst Hdate Hcodes Hmissing.
  apply (create_static_plot_several_codes f self dates codes first 0);
    try done.
  by apply nunique_all_missing.
Qed.

End PlotGuard.

Section PlotState.
Context `{PlotEnv}.

Lemma Method_bind_lift {A B : Type} (r : result A) (k : A -> Method B)
    (self : DataVisualizer) :
  (x ← Method.lift r; k x) self
  = match r with
    | Ok a => k a self
    | Raise e => (self, [], Raise e)
    end.
Proof. destruct r as [a|e]; [apply Method_bind_lift_Ok | reflexivity]. Qed.

Lemma Method_bind_read {B : Type} (k : DataVisualizer -> Method B)
    (self : DataVisualizer) :
  (x ← Method.read; k x) self = k self self.
Proof.
  unfold mbind, Method_bind, Method.bind, Method.read.
  by destruct (k self self) as [[? ?] ?].
Qed.

Lemma Method_bind_update {B : Type} (g : DataVisualizer -> DataVisualizer)
    (k : unit -> Method B) (self : DataVisualizer) :
  (x ← Method.update g; k x) self = k () (g self).
Proof.
  unfold mbind, Method_bind, Method.bind, Method.update.
  by destruct (k () (g self)) as [[? ?] ?].
Qed.

(** Lines 118-121, case by case. *)
Lemma parse_date_range_end (self : DataVisualizer) :
  (self' ← Method.read;
   if Py.truthy (end_date self')
   then d ← Method.lift (strptime_date (end_date self'));
        Method.update (set_end_date (VDate d))
   else mret ()) self
  = if Py.truthy (end_date self)
    then match strptime_date (end_date self) with
         | Ok d => (set_end_date (VDate d) self, [], Ok ())
         | Raise e => (self, [], Raise e)
         end
    else (self, [], Ok ()).
Proof.
  rewrite Method_bind_read. destruct (Py.truthy (end_date self)); [|reflexivity].
  rewrite Method_bind_lift. by destruct (strptime_date (end_date self)).
Qed.

Lemma parse_date_range_unfold (self : DataVisualizer) :
  parse_date_range self
  = let finish self1 :=
      if Py.truthy (end_date self1)
      then match strptime_date (end_date self1) with
           | Ok d => (set_end_date (VDate d) self1, [], Ok ())
           | Raise e => (self1, [], Raise e)
           end
      else (self1, [], Ok ()) in
    if Py.truthy (start_date self)
    then match strptime_date (start_date self) with
         | Ok d => finish (set_start_date (VDate d) self)
         | Raise e => (self, [], Raise e)
         end
    else finish self.
Proof.
  unfold parse_date_range. rewrite Method_bind_read.
  destruct (Py.truthy (start_date self)).
  - unfold mbind at 1. unfold Method_bind, Method.bind.
    rewrite Method_bind_lift.
    destruct (strptime_date (start_date self)) as [d|e]; [|reflexivity].
    unfold Method.update.
    rewrite parse_date_range_end.
    cbv zeta. by destruct (Py.truthy _); [destruct (strptime_date _)|].
  - unfold mbind at 1. unfold Method_bind, Method.bind. cbn [mret Method_ret Method.ret].
    rewrite parse_date_range_end.
    cbv zeta. by destruct (Py.truthy _); [destruct (strptime_date _)|].
Qed.

End PlotState.

Section PlotFrame.
Context `{PlotEnv}.

Lemma strptime_date_Ok (v : value) (d : Date) :
  strptime_date v = Ok d -> exists s, v = VStr s /\ strptime_ymd s = Some d.
Proof.
  destruct v as [| |s| | |]; try discriminate. cbn.
  destruct (strptime_ymd s) as [d'|] eqn:Hs; [|discriminate].
  intros [= <-]. eauto.
Qed.

Ltac solve_kept :=
  unfold same_settings, parsed_or_kept; cbn;
  repeat split; try reflexivity;
  first [by left | right; split; [assumption | eexists; reflexivity]].

Lemma parse_date_range_state (self : DataVisualizer) :
  same_settings self (parse_date_range self).1.1 /\
  parsed_or_kept (start_date self) (start_date (parse_date_range self).1.1) /\
  parsed_or_kept (end_date self) (end_date (parse_date_range self).1.1).
Proof.
  rewrite parse_date_range_unfold. cbv zeta.
  destruct (Py.truthy (start_date self)) eqn:Hstart.
  - destruct (strptime_date (start_date self)) as [d|e].
    + cbn [end_date set_start_date set_date_range].
      destruct (Py.truthy (end_date self)) eqn:Hend.
      * destruct (strptime_date (end_date self)) as [d'|e']; cbn;
          solve_kept.
      * cbn. solve_kept.
    + cbn. solve_kept.
  - destruct (Py.truthy (end_date self)) eqn:Hend.
    + destruct (strptime_date (end_date self)) as [d'|e']; cbn;
        solve_kept.
    + cbn. solve_kept.
Qed.

Lemma create_static_plot_state (f : FHIRDataFrame) (self : DataVisualizer) :
  (create_static_plot f self).1.1 = self \/
  (create_static_plot f self).1.1 = (parse_date_range self).1.1.
Proof.
  unfold create_static_plot. rewrite Method_bind_lift.
  destruct (pd.getitem (df f) "EffectiveDateTime") as [dates|]; [|by left].
  rewrite Method_bind_lift.
  destruct (pd.iloc dates 0) as [first|]; [|by left].
  destruct (negb (pd.isinstance_date first)); [by left|].
  rewrite Method_bind_lift.
  destruct (pd.getitem (df f) "LoincCode") as [codes|]; [|by left].
  rewrite Method_bind_lift.
  destruct (pd.nunique codes) as [n|]; [|by left].
  destruct (negb (Nat.eqb n 1)); [by left|].
  rewrite Method_bind_lift.
  destruct (processor_validate_columns f); [|by left].
  right. unfold mbind, Method_bind, Method.bind.
  destruct (parse_date_range self) as [[self1 out] [[]|e]]; [|reflexivity].
  unfold Method.read, Method.lift. reflexivity.
Qed.

(** X19. A plot call never changes the user filter, the Y bounds, the combine
    flag or the resolution of the visualizer; each of the two date fields
    is left as it was or, if it was truthy, replaced by a date; with no
    date range set the visualizer is left exactly as it was, whatever the
    frame and however the call ends. *)
Theorem create_static_plot_keeps_settings (f : FHIRDataFrame)
    (self : DataVisualizer) :
  let self' := (create_static_plot f self).1.1 in
  same_settings self self' /\
  parsed_or_kept (start_date self) (start_date self') /\
  parsed_or_kept (end_date self) (end_date self') /\
  (Py.truthy (start_date self) = false -> Py.truthy (end_date self) = false ->
   self' = self).
Proof.
  cbv zeta.
  assert (Hstate : same_settings self (create_static_plot f self).1.1 /\
            parsed_or_kept (start_date self)
              (start_date (create_static_plot f self).1.1) /\
            parsed_or_kept (end_date self)
              (end_date (create_static_plot f self).1.1)).
  { destruct (create_static_plot_state f self) as [-> | ->].
    - unfold same_settings, parsed_or_kept. eauto 10.
    - apply parse_date_range_state. }
  destruct Hstate as (Hset & Hstart & Hend).
  split; [exact Hset|]. split; [exact Hstart|]. split; [exact Hend|].
  intros Hs He.
  destruct Hstart as [Hstart | [Htrue _]]; [|congruence].
  destruct Hend as [Hend | [Htrue _]]; [|congruence].
  destruct Hset as (Hu & Hl & Hup & Hc & Hd).
  destruct (create_static_plot f self).1.1, self. cbn in *. by subst.
Qed.

(** X20. When the frame passes the guard and the inherited validation, and the
    start of the range parses but the end does not, the plot call raises
    [ValueError] and leaves the visualizer half-updated: the start is now a
    date, the end still the string.  When the start itself does not parse,
    the visualizer is left as it was. *)
Theorem create_static_plot_half_parsed (f : FHIRDataFrame) (self : DataVisualizer)
    (dates codes : Series) (first : cell) (s1 s2 : string) :
  pd.lookup_column (df f) "EffectiveDateTime" = Some dates ->
  values dates !! 0 = Some first ->
  pd.isinstance_date first = true ->
  pd.lookup_column (df f) "LoincCode" = Some codes ->
  pd.nunique codes = Ok 1 ->
  processor_validate_columns f = Ok () ->
  start_date self = VStr s1 -> end_date self = VStr s2 ->
  s1 <> "" -> s2 <> "" ->
  (forall d1, strptime_ymd s1 = Some d1 -> strptime_ymd s2 = None ->
     exists msg,
       create_static_plot f self
       = (set_start_date (VDate d1) self, [], Raise (ValueError msg))) /\
  (strptime_ymd s1 = None ->
     exists msg, create_static_plot f self = (self, [], Raise (ValueError msg))).
Proof.
  intros Hdates Hfirst Hdate Hcodes Hn Hvalid Hs He Hn1 Hn2.
  rewrite (create_static_plot_passes_guard f self dates codes first) by done.
  unfold mbind, Method_bind, Method.bind.
  rewrite parse_date_range_unfold. cbv zeta.
  rewrite Hs, (truthy_nonempty s1 Hn1). cbn [strptime_date]. split.
  - intros d1 Hp1 Hp2. rewrite Hp1.
    cbn [end_date set_start_date set_date_range].
    rewrite He, (truthy_nonempty s2 Hn2). cbn [strptime_date]. rewrite Hp2.
    eauto.
  - intros Hp1. rewrite Hp1. eauto.
Qed.

End PlotFrame.

(** * Selecting and drawing (lines 122-195) *)

Section DrawFacts.
Context `{PlotBackend}.

Lemma Draw_bind_Returned {A B : Type} (m : Draw A) (k : A -> Draw B)
    (calls calls' : list plt_call) (b : B) :
  (x ← m; k x) calls = (calls', Returned b) ->
  exists a calls1, m calls = (calls1, Returned a) /\ k a calls1 = (calls', Returned b).
Proof.
  unfold mbind, Draw_bind, Draw.bind.
  destruct (m calls) as [calls1 [a|r]]; [eauto | discriminate].
Qed.

(** A property of outcomes that holds of every raise and of whatever the
    continuation does holds of the sequence. *)
Lemma Draw_bind_outcome {A B : Type} (P : outcome B -> Prop) (m : Draw A)
    (k : A -> Draw B) :
  (forall r, P (Raised r)) ->
  (forall a calls, P (k a calls).2) ->
  forall calls, P ((x ← m; k x) calls).2.
Proof.
  intros Hraise Hk calls. unfold mbind, Draw_bind, Draw.bind.
  destruct (m calls) as [calls1 [a|r]]; [apply Hk | apply Hraise].
Qed.

Lemma call_Returned (c : plt_call) (calls calls' : list plt_call) (u : unit) :
  call c calls = (calls', Returned u) -> calls' = (calls ++ [c])%list.
Proof. unfold call. destruct (plt c); [by intros [= <- _] | discriminate]. Qed.

Lemma lift_Returned {A : Type} (r : result A) (calls calls' : list plt_call) (a : A) :
  Draw.lift r calls = (calls', Returned a) -> calls' = calls /\ r = Ok a.
Proof. unfold Draw.lift. destruct r; [by intros [= <- <-] | discriminate]. Qed.

Lemma plot_selected_not_none (self : DataVisualizer) (flattened_df : DataFrame)
    (calls : list plt_call) :
  (plot_selected self flattened_df calls).2 <> Returned None.
Proof.
  unfold plot_selected.
  apply (Draw_bind_outcome (fun o => o <> Returned None)); [discriminate|].
  intros users calls1. destruct (combine_plots self).
  - repeat (apply (Draw_bind_outcome (fun o => o <> Returned None));
            [discriminate | intros ? ?]).
    discriminate.
  - do 2 (apply (Draw_bind_outcome (fun o => o <> Returned None));
          [discriminate | intros ? ?]).
    by destruct a0.
Qed.

(** Lines 122-195 never return [None]: they return a figure or raise. *)
Lemma plot_tail_not_none (self : DataVisualizer) (f : FHIRDataFrame)
    (calls : list plt_call) :
  (plot_tail self f calls).2 <> Returned None.
Proof.
  unfold plot_tail.
  apply (Draw_bind_outcome (fun o => o <> Returned None)); [discriminate|].
  intros t calls1. apply plot_selected_not_none.
Qed.

End DrawFacts.

Lemma rejected_by_guard `{PlotEnv} (f : FHIRDataFrame) (self self' : DataVisualizer)
    (out : list string) :
  (forall v t, render v t <> Ok None) ->
  create_static_plot f self = (self', out, Ok None) ->
  self' = self /\
  (out = ["The date type should be of type date."] \/
   out = ["Error: More than one unique LoincCode found.Each plot should be based on a single LoincCode."]).
Proof.
  intros Hrender. unfold create_static_plot. rewrite Method_bind_lift.
  destruct (pd.getitem (df f) "EffectiveDateTime") as [dates|]; [|discriminate].
  rewrite Method_bind_lift.
  destruct (pd.iloc dates 0) as [first|]; [|discriminate].
  destruct (negb (pd.isinstance_date first)); [intros [= <- <-]; auto|].
  rewrite Method_bind_lift.
  destruct (pd.getitem (df f) "LoincCode") as [codes|]; [|discriminate].
  rewrite Method_bind_lift.
  destruct (pd.nunique codes) as [n|]; [|discriminate].
  destruct (negb (Nat.eqb n 1)); [intros [= <- <-]; auto|].
  rewrite Method_bind_lift.
  destruct (processor_validate_columns f); [|discriminate].
  unfold mbind, Method_bind, Method.bind.
  destruct (parse_date_range self) as [[self1 out1] [[]|e]]; [|discriminate].
  unfold Method.read, Method.lift. intros [= _ _ Hr]. by apply Hrender in Hr.
Qed.

(** X21. [create_static_plot] returns [None] only through its guard: when it
    does, one of the two messages was printed, nothing was drawn and the
    visualizer is as it was.  When separate plots are drawn it returns a
    figure or raises, against the docstring's "Returns None if separate
    plots are created for each user". *)
Theorem plot_none_only_by_rejection `{PlotBackend}
    (strptime : string -> option Date) (validate : FHIRDataFrame -> result unit)
    (f : FHIRDataFrame) (self self' : DataVisualizer) (out : list string)
    (calls : list plt_call) :
  plot strptime validate f self = (self', out, calls, Returned None) ->
  self' = self /\ calls = [] /\
  (out = ["The date type should be of type date."] \/
   out = ["Error: More than one unique LoincCode found.Each plot should be based on a single LoincCode."]).
Proof.
  unfold plot.
  destruct (create_static_plot (H := reach_rendering strptime validate) f self)
    as [[self1 out1] [[u|]|e]] eqn:Hguard.
  - pose proof (plot_tail_not_none self1 f []) as Hnot.
    destruct (plot_tail self1 f []) as [calls1 o]. intros [= _ _ _ ->]. by cbn in Hnot.
  - intros [= <- <- <-].
    apply (rejected_by_guard (H := reach_rendering strptime validate)) in Hguard
      as [-> Hout]; [done|discriminate].
  - discriminate.
Qed.

Section SeparatePlots.
Context `{PlotBackend}.

Lemma Draw_bind_lift_Ok {A B : Type} (a : A) (k : A -> Draw B)
    (calls : list plt_call) :
  (x ← Draw.lift (Ok a); k x) calls = k a calls.
Proof. reflexivity. Qed.

Lemma Draw_ret_Returned {A : Type} (a b : A) (calls calls' : list plt_call) :
  (mret a : Draw A) calls = (calls', Returned b) -> calls' = calls /\ b = a.
Proof. by intros [= <- <-]. Qed.

(** With a number of users other than one, a turn of the loop leaves [fig]
    unbound. *)
Lemma separate_plot_unbound (self : DataVisualizer) (flattened_df : DataFrame)
    (len_users : nat) (uid : value) (calls calls' : list plt_call)
    (fig : option figure_handle) :
  len_users <> 1 ->
  separate_plot self flattened_df len_users None uid calls = (calls', Returned fig) ->
  fig = None.
Proof.
  intros Hlen. unfold separate_plot.
  rewrite (proj2 (Nat.eqb_neq len_users 1) Hlen). intros Hturn.
  do 12 (apply Draw_bind_Returned in Hturn as (? & ? & _ & Hturn)).
  apply Draw_bind_Returned in Hturn as (fig1 & ? & Hfig & Hturn).
  apply Draw_bind_Returned in Hturn as (? & ? & _ & Hturn).
  apply Draw_ret_Returned in Hfig as [_ ->].
  by apply Draw_ret_Returned in Hturn as [_ ->].
Qed.

Lemma separate_plots_unbound (self : DataVisualizer) (flattened_df : DataFrame)
    (len_users : nat) (users : list value) (calls calls' : list plt_call)
    (fig : option figure_handle) :
  len_users <> 1 ->
  separate_plots self flattened_df len_users None users calls = (calls', Returned fig) ->
  fig = None.
Proof.
  intros Hlen. revert calls. induction users as [|uid users IH]; intros calls.
  - by intros [_ ->]%Draw_ret_Returned.
  - cbn [separate_plots]. intros (fig1 & calls1 & Hturn & Hrest)%Draw_bind_Returned.
    apply separate_plot_unbound in Hturn as ->; [|done]. by eapply IH.
Qed.

Lemma separate_plots_complete (self : DataVisualizer) (flattened_df : DataFrame)
    (len_users : nat) (users : list value) (fig : option figure_handle)
    (calls : list plt_call) :
  Forall (fun uid => forall fig calls, exists calls' fig',
            separate_plot self flattened_df len_users fig uid calls
            = (calls', Returned fig')) users ->
  exists calls' fig',
    separate_plots self flattened_df len_users fig users calls
    = (calls', Returned fig').
Proof.
  intros Hall. revert fig calls.
  induction Hall as [|uid users Hturn _ IH]; intros fig calls.
  - by exists calls, fig.
  - destruct (Hturn fig calls) as (calls1 & fig1 & Hfig).
    destruct (IH fig1 calls1) as (calls2 & fig2 & Hrest).
    exists calls2, fig2. cbn [separate_plots].
    unfold mbind, Draw_bind, Draw.bind. by rewrite Hfig.
Qed.

(** X22. Separate plots for a number of users other than one never return: the
    local variable [fig] is only bound when there is exactly one user, so
    once every user is drawn, [return fig] raises [UnboundLocalError]; with
    no user at all it does so before any drawing. *)
Theorem separate_plots_never_return (self : DataVisualizer)
    (flattened_df : DataFrame) (users : list value) (calls : list plt_call) :
  combine_plots self = false ->
  (u ← users_to_plot self flattened_df; iterate u) = Ok users ->
  length users <> 1 ->
  (exists calls' r, plot_selected self flattened_df calls = (calls', Raised r)) /\
  (users = [] ->
   plot_selected self flattened_df calls = (calls, Raised (UnboundLocalError "fig"))) /\
  (Forall (fun uid => forall fig calls, exists calls' fig',
             separate_plot self flattened_df (length users) fig uid calls
             = (calls', Returned fig')) users ->
   exists calls',
     plot_selected self flattened_df calls
     = (calls', Raised (UnboundLocalError "fig"))).
Proof.
  intros Hsep Husers Hlen.
  apply bind_Ok_inv in Husers as (u & Hu & Hiter).
  assert (Hplot : plot_selected self flattened_df calls
    = match separate_plots self flattened_df (length users) None users calls with
      | (calls', Returned (Some h)) => (calls', Returned (Some h))
      | (calls', Returned None) => (calls', Raised (UnboundLocalError "fig"))
      | (calls', Raised r) => (calls', Raised r)
      end).
  { unfold plot_selected. rewrite Hu, Draw_bind_lift_Ok, Hsep, Hiter, Draw_bind_lift_Ok.
    unfold mbind, Draw_bind, Draw.bind.
    by destruct (separate_plots _ _ _ _ _ _) as [calls' [[h|]|r]]. }
  rewrite Hplot. split; [|split].
  - destruct (separate_plots _ _ _ _ _ _) as [calls' [fig|r]] eqn:Hloop; [|eauto].
    apply separate_plots_unbound in Hloop as ->; [eauto | done].
  - by intros ->.
  - intros Hall.
    destruct (separate_plots_complete self flattened_df (length users) users None
                calls Hall) as (calls' & fig & Hloop).
    rewrite Hloop. apply separate_plots_unbound in Hloop as ->; [eauto | done].
Qed.

End SeparatePlots.

Section CombinedPlot.
Context `{PlotBackend}.

Lemma call_Ok (c : plt_call) (calls : list plt_call) :
  plt c = Ok () -> call c calls = ((calls ++ [c])%list, Returned ()).
Proof. unfold call. by intros ->. Qed.

(** X23. The title of the combined plot reads the first QuantityName cell of the
    selected table: when that table has no QuantityName column or no row
    (a date range that selects nothing), the combined plot never returns;
    with no user to draw and matplotlib calls that go through, it raises
    the lookup's exception after opening the figure and setting the limits
    and the legend. *)
Theorem combined_plot_empty_selection (self : DataVisualizer)
    (flattened_df : DataFrame) (e : exn) (calls : list plt_call) :
  combine_plots self = true ->
  first_cell flattened_df "QuantityName" = Raise e ->
  (exists calls' r, plot_selected self flattened_df calls = (calls', Raised r)) /\
  ((u ← users_to_plot self flattened_df; iterate u) = Ok [] ->
   (forall c, plt c = Ok ()) ->
   plot_selected self flattened_df calls
   = ((calls ++ [plt_figure (dpi self); plt_ylim (y_lower self) (y_upper self);
                 plt_legend])%list,
      Raised (Exn e))).
Proof.
  intros Hcombine Hname. split.
  - assert (Hraised : exists r, (plot_selected self flattened_df calls).2 = Raised r).
    { unfold plot_selected.
      apply (Draw_bind_outcome (fun o => exists r, o = Raised r)); [eauto|].
      intros u calls1. rewrite Hcombine.
      do 5 (apply (Draw_bind_outcome (fun o => exists r, o = Raised r));
            [eauto | intros ? ?]).
      rewrite Hname. cbn. eauto. }
    destruct Hraised as [r Hr].
    destruct (plot_selected self flattened_df calls) as [calls' o].
    cbn in Hr. subst. eauto.
  - intros Husers Hplt. apply bind_Ok_inv in Husers as (u & Hu & Hiter).
    unfold plot_selected.
    rewrite Hu, Draw_bind_lift_Ok, Hcombine.
    unfold mbind at 1. unfold Draw_bind, Draw.bind.
    rewrite (call_Ok _ _ (Hplt _)).
    rewrite Hiter, Draw_bind_lift_Ok. cbn [combined_bars].
    unfold mbind at 1. unfold Draw_bind, Draw.bind.
    cbn [mret Draw_ret Draw.ret].
    unfold mbind at 1. unfold Draw_bind, Draw.bind.
    rewrite (call_Ok _ _ (Hplt _)).
    unfold mbind at 1. unfold Draw_bind, Draw.bind.
    rewrite (call_Ok _ _ (Hplt _)).
    rewrite Hname. cbn. by rewrite <- !app_assoc.
Qed.

End CombinedPlot.

Section CombinedReturns.
Context `{PlotBackend}.

Lemma user_bars_calls (flattened_df : DataFrame) (uid : value)
    (calls calls' : list plt_call) (user_df : DataFrame) :
  user_bars flattened_df uid calls = (calls', Returned user_df) ->
  exists x y, calls' = (calls ++ [plt_bar x y uid])%list.
Proof.
  unfold user_bars. intros Hbars.
  apply Draw_bind_Returned in Hbars as (t1 & c1 & [-> _]%lift_Returned & Hbars).
  apply Draw_bind_Returned in Hbars as (t2 & c2 & [-> _]%lift_Returned & Hbars).
  apply Draw_bind_Returned in Hbars as (x & c3 & [-> _]%lift_Returned & Hbars).
  apply Draw_bind_Returned in Hbars as (y & c4 & [-> _]%lift_Returned & Hbars).
  apply Draw_bind_Returned in Hbars as (u & c5 & ->%call_Returned & Hbars).
  apply Draw_ret_Returned in Hbars as [-> _]. eauto.
Qed.

Lemma combined_bars_calls (flattened_df : DataFrame) (users : list value)
    (calls calls' : list plt_call) (u : unit) :
  combined_bars flattened_df users calls = (calls', Returned u) ->
  exists bars, calls' = (calls ++ bars)%list /\ length bars = length users /\
               Forall (fun c => is_figure_call c = false) bars.
Proof.
  revert calls. induction users as [|uid users IH]; intros calls.
  - intros [-> _]%Draw_ret_Returned. exists []. by rewrite app_nil_r.
  - cbn [combined_bars].
    intros (t & calls1 & (x & y & ->)%user_bars_calls & Hrest)%Draw_bind_Returned.
    apply IH in Hrest as (bars & -> & Hlen & Hbars).
    exists (plt_bar x y uid :: bars). rewrite <- app_assoc.
    split; [reflexivity|]. split; [cbn; by rewrite Hlen | by constructor].
Qed.

(** X24. A combined plot that returns has read a first QuantityName and a first
    QuantityUnit cell of the selected table, which therefore has a row; it
    opened exactly one figure, before anything else, drew one bar series
    per user, called [show] last, and returns the current figure as it was
    just before [show]. *)
Theorem combined_plot_returns (self : DataVisualizer) (flattened_df : DataFrame)
    (calls calls' : list plt_call) (o : option figure_handle) :
  combine_plots self = true ->
  plot_selected self flattened_df calls = (calls', Returned o) ->
  exists users bars name unit_,
    (u ← users_to_plot self flattened_df; iterate u) = Ok users /\
    first_cell flattened_df "QuantityName" = Ok name /\
    first_cell flattened_df "QuantityUnit" = Ok unit_ /\
    length bars = length users /\
    Forall (fun c => is_figure_call c = false) bars /\
    let drawn :=
      (calls ++ plt_figure (dpi self) :: bars ++
       [plt_ylim (y_lower self) (y_upper self); plt_legend;
        plt_title name None (start_date self) (end_date self);
        plt_xlabel "Date"; plt_ylabel name unit_;
        plt_xticks; plt_yticks; plt_tight_layout])%list in
    calls' = (drawn ++ [plt_show])%list /\ o = Some (gcf drawn).
Proof.
  intros Hcombine. unfold plot_selected. intros Hplot.
  apply Draw_bind_Returned in Hplot as (u & c0 & [-> Hu]%lift_Returned & Hplot).
  rewrite Hcombine in Hplot.
  apply Draw_bind_Returned in Hplot as (? & c1 & ->%call_Returned & Hplot).
  apply Draw_bind_Returned in Hplot as (users & c2 & [-> Hiter]%lift_Returned & Hplot).
  apply Draw_bind_Returned in Hplot as (? & c3 & Hbars & Hplot).
  apply combined_bars_calls in Hbars as (bars & -> & Hlen & Hbars).
  apply Draw_bind_Returned in Hplot as (? & c4 & ->%call_Returned & Hplot).
  apply Draw_bind_Returned in Hplot as (? & c5 & ->%call_Returned & Hplot).
  apply Draw_bind_Returned in Hplot as (name & c6 & [-> Hname]%lift_Returned & Hplot).
  apply Draw_bind_Returned in Hplot as (? & c7 & ->%call_Returned & Hplot).
  apply Draw_bind_Returned in Hplot as (? & c8 & ->%call_Returned & Hplot).
  apply Draw_bind_Returned in Hplot as (name' & c9 & [-> Hname']%lift_Returned & Hplot).
  apply Draw_bind_Returned in Hplot as (unit_ & c10 & [-> Hunit]%lift_Returned & Hplot).
  apply Draw_bind_Returned in Hplot as (? & c11 & ->%call_Returned & Hplot).
  apply Draw_bind_Returned in Hplot as (? & c12 & ->%call_Returned & Hplot).
  apply Draw_bind_Returned in Hplot as (? & c13 & ->%call_Returned & Hplot).
  apply Draw_bind_Returned in Hplot as (? & c14 & ->%call_Returned & Hplot).
  apply Draw_bind_Returned in Hplot as (fig & c15 & Hfig & Hplot).
  apply Draw_bind_Returned in Hplot as (? & c16 & ->%call_Returned & Hplot).
  apply Draw_ret_Returned in Hplot as [-> ->].
  unfold current_figure in Hfig. injection Hfig as <- <-.
  rewrite Hname in Hname'. injection Hname' as <-.
  exists users, bars, name, unit_.
  split; [by rewrite Hu|]. do 4 (split; [done|]). cbv zeta.
  repeat (progress (rewrite <- ?app_assoc; cbn [app])). done.
Qed.

End CombinedReturns.


(** * The further properties on the sample records *)

(** The third record's missing subject is never reached: the second
    record's missing value quantity is what [flatten] raises. *)
Lemma flatten_raises_first_error_samples :
  flatten (H := iso_pandas) ([undated] ++ no_quantity :: [no_subject])
  = Raise (KeyError (VStr "valueQuantity")).
Proof.
  apply (flatten_raises_first_error (H := iso_pandas));
    [repeat constructor | vm_compute; reflexivity].
Defined.

(** The direct columns of the second row of the dated batch. *)
Lemma flatten_direct_columns_samples :
  exists f,
    flatten (H := iso_pandas) dated_batch = Ok f /\
    frame_cell f USER_ID 1 = Some (Cell (VStr "u2")) /\
    frame_cell f QUANTITY_UNIT 1 = Some (Cell (VStr "beats/minute")).
Proof.
  assert (Hf : exists f, flatten (H := iso_pandas) dated_batch = Ok f)
    by (eexists; vm_compute; reflexivity).
  destruct Hf as [f Hf]. exists f. split; [exact Hf|].
  destruct (flatten_direct_columns (H := iso_pandas) dated_batch f 1 period_only
              Hf eq_refl)
    as (ref & q & u & v & Hs & Hq & Hu & Hv & Hid & Hunit).
  injection Hs as <-. vm_compute in Hq. injection Hq as <-.
  vm_compute in Hu, Hv. injection Hu as <-. injection Hv as <-.
  split; [exact (Hid eq_refl) | exact (Hunit eq_refl)].
Defined.

Lemma retagged_same_inputs : same_inputs undated retagged.
Proof.
  split; [reflexivity|]. intros k Hk.
  repeat (apply elem_of_cons in Hk as [->|Hk]);
    [.. | by apply elem_of_nil in Hk]; vm_compute; reflexivity.
Defined.

(** Another tag and one more key change nothing. *)
Lemma flatten_reads_four_keys_samples :
  flatten (H := iso_pandas) [undated] = flatten (H := iso_pandas) [retagged].
Proof.
  apply (flatten_reads_four_keys (H := iso_pandas)).
  constructor; [exact retagged_same_inputs | constructor].
Defined.

(** A third, malformed coding changes nothing. *)
Lemma flatten_entry_first_two_codings_samples :
  flatten_entry three_codings
  = flatten_entry (stamped [loinc_heart_rate; healthkit_heart_rate]).
Proof.
  apply (flatten_entry_first_two_codings three_codings
           (stamped [loinc_heart_rate; healthkit_heart_rate])
           [loinc_heart_rate; healthkit_heart_rate; VNum 1]
           [loinc_heart_rate; healthkit_heart_rate]);
    [reflexivity | | vm_compute; reflexivity | vm_compute; reflexivity | reflexivity].
  intros k Hk.
  repeat (apply elem_of_cons in Hk as [->|Hk]);
    [.. | by apply elem_of_nil in Hk]; vm_compute; reflexivity.
Defined.

(** A coding with a code and no display. *)
Lemma flatten_entry_coding_without_display_samples :
  flatten_entry no_display = Raise (KeyError (VStr "display")).
Proof.
  assert (Hcoding : coding_of no_display
            = Ok (VList [VDict (list_to_map [("code", VStr "8867-4")])]))
    by (vm_compute; reflexivity).
  apply (proj2 (flatten_entry_coding_without_display no_display _ []
                  eq_refl Hcoding));
    [by eexists | vm_compute; reflexivity].
Defined.

(** The third row of the dated batch, and the row of its record alone. *)
Lemma flatten_row_independent_samples :
  exists f f1,
    flatten (H := iso_pandas) dated_batch = Ok f /\
    flatten (H := iso_pandas) [undated] = Ok f1 /\
    frame_cell f USER_ID 2 = Some (Cell (VStr "u3")) /\
    frame_cell f LOINC_CODE 2 = Some (Cell (VStr "8867-4")).
Proof.
  assert (Hf : exists f, flatten (H := iso_pandas) dated_batch = Ok f)
    by (eexists; vm_compute; reflexivity).
  assert (Hf1 : exists f1, flatten (H := iso_pandas) [undated] = Ok f1)
    by (eexists; vm_compute; reflexivity).
  destruct Hf as [f Hf]. destruct Hf1 as [f1 Hf1].
  exists f, f1. split; [exact Hf|]. split; [exact Hf1|].
  split.
  - apply (flatten_row_independent (H := iso_pandas) dated_batch f f1 2 undated
             Hf eq_refl Hf1 USER_ID "u3"); [discriminate|].
    vm_compute in Hf1. injection Hf1 as <-. vm_compute. reflexivity.
  - apply (flatten_row_independent (H := iso_pandas) dated_batch f f1 2 undated
             Hf eq_refl Hf1 LOINC_CODE "8867-4"); [discriminate|].
    vm_compute in Hf1. injection Hf1 as <-. vm_compute. reflexivity.
Defined.

(** The frame of the dated batch has its columns and dates in order. *)
Lemma flatten_frame_validates_iff_samples :
  exists f,
    flatten (H := iso_pandas) dated_batch = Ok f /\
    missing_columns f = [] /\ check_effective_date_time f = Ok ().
Proof.
  assert (Hf : exists f, flatten (H := iso_pandas) dated_batch = Ok f)
    by (eexists; vm_compute; reflexivity).
  destruct Hf as [f Hf]. exists f. split; [exact Hf|].
  destruct (flatten_frame_validates_iff (H := iso_pandas) (H0 := ordered_set)
              dated_batch f Hf) as (Hmiss & Hdates & _).
  by split.
Defined.

Lemma infer_dtype_simple_strings (l : list value) :
  Forall (fun v => is_str_value v = true) l ->
  infer_dtype_simple l = DObject \/ infer_dtype_simple l = DString.
Proof.
  intros Hall. left. destruct Hall as [|v l Hv _]; [reflexivity|].
  by destruct v.
Defined.

(** The dated batch flattens to a frame that validates. *)
Lemma flatten_well_formed_validates_samples :
  exists f,
    flatten (H := iso_pandas) dated_batch = Ok f /\
    validate_columns (H := reversed_set) f = Ok true.
Proof.
  apply (flatten_well_formed_validates (H := iso_pandas) (H0 := reversed_set)).
  - exact infer_dtype_simple_strings.
  - discriminate.
  - repeat constructor.
  - vm_compute. reflexivity.
Defined.

(** A string in the date column. *)
Lemma validate_columns_non_date_samples :
  validate_columns (H := ordered_set) string_date_frame
  = Raise (ValueError "The EffectiveDateTime column is not of typedatetime.date.").
Proof.
  apply (validate_columns_non_date (H := ordered_set) string_date_frame
           (mkSeries DObject [Cell (VStr "2024-01-15"); NaT])
           (Cell (VStr "2024-01-15")));
    [vm_compute; reflexivity | reflexivity | by left | reflexivity].
Defined.

(** Strings in the QuantityValue column. *)
Lemma validate_columns_quantity_value_exempt_samples :
  validate_columns (H := ordered_set)
    (mkFHIRDataFrame
       (pd.setitem (df mixed_frame) "QuantityValue"
          (mkSeries DObject [Cell (VStr "high"); Cell (VStr "low")]))
       OBSERVATION)
  = validate_columns (H := ordered_set) mixed_frame.
Proof.
  apply (validate_columns_quantity_value_exempt (H := ordered_set) mixed_frame).
  vm_compute. by repeat constructor.
Defined.

(** The sample frame under the two kinds. *)
Lemma observation_table_validates_as_questionnaire_samples :
  validate_columns (H := ordered_set)
    (mkFHIRDataFrame (df mixed_frame) QUESTIONNAIRE_RESPONSE) = Ok true.
Proof.
  apply (observation_table_validates_as_questionnaire (H := ordered_set)).
  vm_compute. reflexivity.
Defined.

(** A batch of QuestionnaireResponse records, and a batch whose first
    record is an Observation. *)
Lemma dispatch_string_tag_samples :
  flatten_fhir_resources (H := iso_pandas) [questionnaire_response; undated]
  = ([], Raise (AttributeError "name")) /\
  flatten_fhir_resources (H := iso_pandas) [undated; questionnaire_response]
  = ([], Raise (KeyError (VStr "code"))).
Proof.
  split.
  - apply (proj2 (dispatch_string_tag (H := iso_pandas) "QuestionnaireResponse"
                    questionnaire_response [undated] eq_refl)).
    discriminate.
  - rewrite (proj1 (dispatch_string_tag (H := iso_pandas) "Observation"
                      undated [questionnaire_response] eq_refl) eq_refl).
    vm_compute. reflexivity.
Defined.

(** A frame without codes is rejected. *)
Lemma create_static_plot_no_code_samples :
  create_static_plot (H := plain_env) no_codes_frame january
  = (january,
     ["Error: More than one unique LoincCode found.Each plot should be based on a single LoincCode."],
     Ok None).
Proof.
  apply (create_static_plot_no_code (H := plain_env) no_codes_frame january
           (mkSeries DObject [Cell (VDate (mkDate 2024 1 15)); NaT])
           (mkSeries DObject [Cell VNone; Cell VNone])
           (Cell (VDate (mkDate 2024 1 15))));
    try reflexivity.
  by repeat constructor.
Defined.

(** A range ending on the 30th of February. *)
Lemma create_static_plot_half_parsed_samples :
  exists msg,
    create_static_plot (H := plain_env) mixed_frame bad_end
    = (set_start_date (VDate (mkDate 2024 1 1)) bad_end, [],
       Raise (ValueError msg)).
Proof.
  apply (proj1 (create_static_plot_half_parsed (H := plain_env) mixed_frame bad_end
                  (mkSeries DObject [Cell (VDate (mkDate 2024 1 15)); NaT])
                  (mkSeries DObject [Cell (VStr "8867-4"); Cell (VStr "8867-4")])
                  (Cell (VDate (mkDate 2024 1 15)))
                  "2024-01-01" "2024-02-30"
                  eq_refl eq_refl eq_refl eq_refl eq_refl eq_refl eq_refl eq_refl
                  ltac:(discriminate) ltac:(discriminate)));
    vm_compute; reflexivity.
Defined.

(** The frame with a string for first date is rejected, and only so is
    [None] returned. *)
Lemma plot_none_only_by_rejection_samples :
  plot (H := list_backend) parse_ymd (fun _ => Ok ()) string_date_frame january
  = (january, ["The date type should be of type date."], [], Returned None).
Proof.
  assert (Hplot : exists self' out calls,
            plot (H := list_backend) parse_ymd (fun _ => Ok ()) string_date_frame
              january = (self', out, calls, Returned None))
    by (do 3 eexists; vm_compute; reflexivity).
  destruct Hplot as (self' & out & calls & Hplot).
  destruct (plot_none_only_by_rejection (H := list_backend) parse_ymd
              (fun _ => Ok ()) string_date_frame january self' out calls Hplot)
    as (-> & -> & Hout).
  rewrite Hplot. destruct Hout as [-> | ->]; [reflexivity|].
  vm_compute in Hplot. discriminate.
Defined.

Lemma two_users_turn (uid : value) (fig : option nat) (calls : list plt_call) :
  uid = VStr "u1" \/ uid = VStr "u2" ->
  exists calls' fig',
    separate_plot (H := list_backend) separate (df two_users_frame) 2 fig uid calls
    = (calls', Returned fig').
Proof. intros [-> | ->]; do 2 eexists; reflexivity. Defined.

(** Separate plots of the frame of two users. *)
Lemma separate_plots_never_return_samples :
  exists calls,
    plot_selected (H := list_backend) separate (df two_users_frame) []
    = (calls, Raised (UnboundLocalError "fig")).
Proof.
  apply (proj2 (proj2 (separate_plots_never_return (H := list_backend) separate
                         (df two_users_frame) [VStr "u1"; VStr "u2"] []
                         eq_refl eq_refl ltac:(discriminate)))).
  repeat constructor; intros fig calls; apply two_users_turn; auto.
Defined.

(** A date range that selects no row of the frame of two users. *)
Lemma combined_plot_empty_selection_samples :
  plot_tail (H := list_backend) next_year two_users_frame []
  = ([plt_figure 300; plt_ylim 50 1000; plt_legend], Raised (Exn IndexError)).
Proof.
  assert (Hselect :
    exists t, select_dates (PlotBackend := list_backend) (df two_users_frame)
                (start_date next_year) (end_date next_year) = Ok t /\
              first_cell t "QuantityName" = Raise IndexError /\
              (u ← users_to_plot (H := list_backend) next_year t;
               iterate (H := list_backend) u) = Ok [])
    by (eexists; split; [reflexivity | split; reflexivity]).
  destruct Hselect as (t & Hselect & Hname & Husers).
  unfold plot_tail.
  change (Py.truthy (start_date next_year) && Py.truthy (end_date next_year))
    with true.
  cbv iota. rewrite Hselect, Draw_bind_lift_Ok.
  apply (proj2 (combined_plot_empty_selection (H := list_backend) next_year t
                  IndexError [] eq_refl Hname) Husers).
  reflexivity.
Defined.

(** The combined plot of the frame of two users returns its one figure. *)
Lemma combined_plot_returns_samples :
  exists calls bars h,
    plot_selected (H := list_backend) DataVisualizer_init (df two_users_frame) []
    = (calls, Returned (Some h)) /\
    length bars = 2 /\
    calls = ([plt_figure 300] ++ bars ++
             [plt_ylim 50 1000; plt_legend;
              plt_title (Cell (VStr "Heart rate")) None VNone VNone;
              plt_xlabel "Date";
              plt_ylabel (Cell (VStr "Heart rate")) (Cell (VStr "bpm"));
              plt_xticks; plt_yticks; plt_tight_layout; plt_show])%list.
Proof.
  assert (Hplot : exists calls o,
            plot_selected (H := list_backend) DataVisualizer_init
              (df two_users_frame) [] = (calls, Returned o))
    by (do 2 eexists; vm_compute; reflexivity).
  destruct Hplot as (calls & o & Hplot).
  destruct (combined_plot_returns (H := list_backend) DataVisualizer_init
              (df two_users_frame) [] calls o eq_refl Hplot)
    as (users & bars & name & unit_ & Husers & Hname & Hunit & Hlen & Hbars
        & Hcalls & Ho).
  injection Husers as <-. injection Hname as <-. injection Hunit as <-.
  exists calls, bars. eexists. rewrite Hplot, Ho. split; [reflexivity|].
  split; [exact Hlen|].
  rewrite Hcalls. cbn [app]. by rewrite <- app_assoc.
Defined.
